(** * WARDROBIFY: the wardrobe application, embedded and verified

    The TypeScript sources are embedded module by module:
    [types.ts] (the data model), [services/geminiService.ts] (the adapter over
    the hosted model), [App.tsx] (the root coordinator and its collections),
    [components/Wardrobe.tsx], [components/Stylist.tsx],
    [components/Wishlist.tsx] and [components/WeatherWidget.tsx].

    Pure code is a function.  Code that calls the hosted model, reads the
    clock, logs, alerts or updates React state is a [Task]: a state and
    exception monad over a [World], whose runs end with a value, with an
    exception, or not at all, when a promise they await never settles.  What
    a component renders is a value of a small view type.  [JSON.parse] and
    [parseFloat] are parameters (the class [Runtime]): the theorems hold for
    every runtime, and the examples run on the one of [Sample].

    TypeScript's types are not checked at run time.  A record that a reply
    of the hosted model or of the weather service fills is therefore kept
    twice: at the run-time values the code stores, whatever the reply held,
    and at its declared types, which is what the components take as props. *)

From Stdlib Require Import List String Ascii ZArith QArith Qround Bool Lia.
From Stdlib Require Import Permutation Sorted DecimalString.
Import ListNotations.

Set Warnings "-register-all".

Local Open Scope string_scope.
Local Open Scope list_scope.
Local Open Scope Z_scope.

(** String concatenation, written apart from list append. *)
Local Infix "+++" := String.append (right associativity, at level 60).

(* ================================================================== *)
(** * The JavaScript runtime *)
(* ================================================================== *)

Module JS.

(** ** Strings *)

(** The double quote and the line feed, which template literals contain. *)
Definition dq : string := String (ascii_of_nat 34) EmptyString.
Definition nl : string := String (ascii_of_nat 10) EmptyString.

(** A string is truthy when it is not empty. *)
Definition nonempty (s : string) : bool :=
  match s with
  | EmptyString => false
  | String _ _ => true
  end.

(** [String.prototype.toLowerCase], on ASCII text. *)
Definition lower_ascii (c : ascii) : ascii :=
  let n := nat_of_ascii c in
  if (Nat.leb 65 n && Nat.leb n 90)%bool then ascii_of_nat (n + 32) else c.

Fixpoint toLowerCase (s : string) : string :=
  match s with
  | EmptyString => EmptyString
  | String c s' => String (lower_ascii c) (toLowerCase s')
  end.

(** [s.includes(t)]: [t] occurs in [s]. *)
Fixpoint includes (s t : string) : bool :=
  (String.prefix t s
   || match s with
      | EmptyString => false
      | String _ s' => includes s' t
      end)%bool.

(** [s.split(sep)] for a separator of one character: the pieces between
    the separators, at least one. *)
Fixpoint split (sep : ascii) (s : string) : list string :=
  match s with
  | EmptyString => [EmptyString]
  | String c s' =>
      if Ascii.eqb c sep then EmptyString :: split sep s'
      else match split sep s' with
           | [] => [String c EmptyString]
           | piece :: pieces => String c piece :: pieces
           end
  end.

(** [pieces.join(sep)]. *)
Fixpoint join (sep : string) (pieces : list string) : string :=
  match pieces with
  | [] => EmptyString
  | [p] => p
  | p :: ps => p +++ sep +++ join sep ps
  end.

(** ** Numbers *)

(** A number is kept exact: a rational, an infinity or NaN.  (JavaScript
    rounds to the nearest double; nothing below depends on the rounding.) *)
Inductive number : Type :=
| NaN
| Fin (q : Q)
| PosInf
| NegInf.

Definition num (z : Z) : number := Fin (inject_Z z).

(** [a <= b] and [a < b]; every comparison with NaN is false. *)
Definition number_le (a b : number) : bool :=
  match a, b with
  | NaN, _ | _, NaN => false
  | NegInf, _ => true
  | _, PosInf => true
  | Fin x, Fin y => Qle_bool x y
  | _, _ => false
  end.

Definition number_lt (a b : number) : bool :=
  match a, b with
  | NaN, _ | _, NaN => false
  | PosInf, _ => false
  | _, NegInf => false
  | Fin x, Fin y => negb (Qle_bool y x)
  | _, _ => true
  end.

(** Truthiness of a number: neither zero nor NaN. *)
Definition number_truthy (n : number) : bool :=
  match n with
  | NaN => false
  | Fin q => negb (Qeq_bool q 0%Q)
  | PosInf | NegInf => true
  end.

(** [x || d] on numbers. *)
Definition number_or (x d : number) : number :=
  if number_truthy x then x else d.

(** [Math.round]: the nearest integer, halves upwards. *)
Definition Math_round (n : number) : number :=
  match n with
  | Fin q => num (Qfloor (q + (1 # 2))%Q)
  | other => other
  end.

(** [n.toString()] for an integer. *)
Definition Number_toString (z : Z) : string :=
  NilZero.string_of_int (Z.to_int z).

(** ** Values *)

(** The values [JSON.parse] can produce, and [undefined], which reading an
    absent property produces.  An object lists its own properties in the
    order of their creation. *)
Inductive jsval : Type :=
| JUndefined
| JNull
| JBool (b : bool)
| JNum (n : number)
| JStr (s : string)
| JArr (items : list jsval)
| JObj (props : list (string * jsval)).

Definition truthy (v : jsval) : bool :=
  match v with
  | JUndefined | JNull => false
  | JBool b => b
  | JNum n => number_truthy n
  | JStr s => nonempty s
  | JArr _ | JObj _ => true
  end.

(** [a || b]. *)
Definition or_else (a b : jsval) : jsval := if truthy a then a else b.

(** Lookup in a list of properties: the first entry under the key. *)
Fixpoint lookup {A : Type} (k : string) (props : list (string * A)) : option A :=
  match props with
  | [] => None
  | (k', v) :: rest => if String.eqb k k' then Some v else lookup k rest
  end.

(** What exceptions carry. *)
Inductive error : Type :=
| TypeError
| SyntaxError
| Failure (message : string).

(** [v.k], for the property names the sources read ([category], [color],
    [season], [description], [itemIds], [vibe], [explanation], [isSimilar],
    [current_weather] and its fields), none of which
    a prototype defines: reading off [null] or [undefined] throws a
    TypeError, an object yields its own property or [undefined], and every
    other value yields [undefined]. *)
Definition get (v : jsval) (k : string) : error + jsval :=
  match v with
  | JUndefined | JNull => inl TypeError
  | JObj props =>
      match lookup k props with
      | Some x => inr x
      | None => inr JUndefined
      end
  | _ => inr JUndefined
  end.

Definition has_own (k : string) (props : list (string * jsval)) : bool :=
  match lookup k props with
  | Some _ => true
  | None => false
  end.

(** The names of the properties that every object inherits from
    [Object.prototype]: reading one of them off an object literal yields
    that property, a function or an object, where the literal has none of
    its own. *)
Definition inherited_names : list string :=
  ["constructor"; "hasOwnProperty"; "isPrototypeOf"; "propertyIsEnumerable";
   "toLocaleString"; "toString"; "valueOf"; "__proto__";
   "__defineGetter__"; "__defineSetter__"; "__lookupGetter__";
   "__lookupSetter__"].

Definition inherited (k : string) : bool :=
  existsb (String.eqb k) inherited_names.

(** *** Conversion to a string *)

Section Printing.

(** How a number prints. *)
Variable show : number -> string.

Definition bind_error {A B : Type} (r : error + A) (k : A -> error + B)
  : error + B :=
  match r with
  | inl e => inl e
  | inr a => k a
  end.

(** [ToString(v)], which a template literal applies to what it holds.  An
    array prints its elements between commas, [null] and [undefined] among
    them as nothing.  An object prints as [[object Object]], unless it has a
    property [toString] of its own: the values of this model are data, none
    of them can be called, and the conversion throws a TypeError. *)
Fixpoint ToString (v : jsval) : error + string :=
  match v with
  | JUndefined => inr "undefined"
  | JNull => inr "null"
  | JBool true => inr "true"
  | JBool false => inr "false"
  | JNum n => inr (show n)
  | JStr s => inr s
  | JArr items =>
      let elements :=
        fix elements (l : list jsval) : error + list string :=
          match l with
          | [] => inr []
          | x :: rest =>
              bind_error
                match x with
                | JUndefined | JNull => inr EmptyString
                | _ => ToString x
                end
                (fun piece =>
              bind_error (elements rest) (fun pieces =>
              inr (piece :: pieces)))
          end in
      bind_error (elements items) (fun pieces => inr (join "," pieces))
  | JObj props =>
      if has_own "toString" props then inl TypeError
      else inr "[object Object]"
  end.

End Printing.

(** *** Property order *)

Definition is_digit (c : ascii) : bool :=
  let n := nat_of_ascii c in (Nat.leb 48 n && Nat.leb n 57)%bool.

Fixpoint all_digits (s : string) : bool :=
  match s with
  | EmptyString => true
  | String c s' => (is_digit c && all_digits s')%bool
  end.

Fixpoint digits_value (acc : Z) (s : string) : Z :=
  match s with
  | EmptyString => acc
  | String c s' => digits_value (10 * acc + Z.of_nat (nat_of_ascii c) - 48) s'
  end.

(** An array index: the canonical decimal form of an integer below
    [2^32 - 1]. *)
Definition array_index (k : string) : option Z :=
  match k with
  | EmptyString => None
  | String c rest =>
      if (all_digits k && (negb (Ascii.eqb c "0") || negb (nonempty rest)))%bool
      then let n := digits_value 0 k in
           if n <? 4294967295 then Some n else None
      else None
  end.

(** Insertion of an indexed entry into entries with ascending indices. *)
Fixpoint insert_index {A : Type} (i : Z) (e : string * A)
         (sorted : list (Z * (string * A))) : list (Z * (string * A)) :=
  match sorted with
  | [] => [(i, e)]
  | (j, e') :: rest =>
      if i <=? j then (i, e) :: sorted else (j, e') :: insert_index i e rest
  end.

Fixpoint index_entries {A : Type} (props : list (string * A))
  : list (Z * (string * A)) :=
  match props with
  | [] => []
  | (k, v) :: rest =>
      match array_index k with
      | Some i => insert_index i (k, v) (index_entries rest)
      | None => index_entries rest
      end
  end.

Definition named_entries {A : Type} (props : list (string * A))
  : list (string * A) :=
  filter (fun e => match array_index (fst e) with
                   | Some _ => false
                   | None => true
                   end) props.

(** [Object.entries(o)]: the properties whose keys are array indices, by
    ascending index, then the others in the order of their creation. *)
Definition Object_entries {A : Type} (props : list (string * A))
  : list (string * A) :=
  map snd (index_entries props) ++ named_entries props.

(** ** Arrays *)

(** [a.find(p)]: the first element that satisfies [p]. *)
Definition Array_find {A : Type} (p : A -> bool) (a : list A) : option A :=
  List.find p a.

(** [a.filter(Boolean)] on an array of items or [undefined]. *)
Fixpoint filter_Boolean {A : Type} (a : list (option A)) : list A :=
  match a with
  | [] => []
  | Some x :: rest => x :: filter_Boolean rest
  | None :: rest => filter_Boolean rest
  end.

(** [a.sort(cmp)].  The sort is stable (ECMAScript 2019), so for a
    comparator that is consistent it returns what stable insertion returns:
    each element goes before the first later element it does not exceed. *)
Fixpoint sort_insert {A : Type} (cmp : A -> A -> Z) (x : A) (sorted : list A)
  : list A :=
  match sorted with
  | [] => [x]
  | y :: rest =>
      if cmp x y <=? 0 then x :: sorted else y :: sort_insert cmp x rest
  end.

Fixpoint Array_sort {A : Type} (cmp : A -> A -> Z) (a : list A) : list A :=
  match a with
  | [] => []
  | x :: rest => sort_insert cmp x (Array_sort cmp rest)
  end.

(** [a.slice(0, n)]. *)
Definition slice0 {A : Type} (n : nat) (a : list A) : list A := firstn n a.

(** ** Reading an integer *)

Definition is_white (c : ascii) : bool :=
  let n := nat_of_ascii c in
  ((Nat.leb 9 n && Nat.leb n 13) || Nat.eqb n 32)%bool.

Fixpoint trimStart (s : string) : string :=
  match s with
  | String c rest => if is_white c then trimStart rest else s
  | EmptyString => s
  end.

Fixpoint leading_digits (s : string) : string :=
  match s with
  | String c rest =>
      if is_digit c then String c (leading_digits rest) else EmptyString
  | EmptyString => EmptyString
  end.

(** [parseInt(s, 10)] on ASCII text: white space is skipped, a sign is
    read, then the digits as far as they go.  The result is an integer, or
    NaN, here [None], when no digit stands there. *)
Definition parseInt (s : string) : option Z :=
  let s := trimStart s in
  let (negative, rest) :=
    match s with
    | String c r =>
        if Ascii.eqb c "-" then (true, r)
        else if Ascii.eqb c "+" then (false, r)
        else (false, s)
    | EmptyString => (false, s)
    end in
  let ds := leading_digits rest in
  if nonempty ds
  then Some (if negative then - digits_value 0 ds else digits_value 0 ds)
  else None.

End JS.

(* ================================================================== *)
(** * types.ts *)
(* ================================================================== *)

Module Types.

(** A category is a string at run time, and [as ClothingCategory] is not
    checked: an item can carry any string there.  These are the seven the
    type names. *)
Abbreviation ClothingCategory := string (only parsing).

Definition Top : ClothingCategory := "Top".
Definition Bottom : ClothingCategory := "Bottom".
Definition Outerwear : ClothingCategory := "Outerwear".
Definition Shoes : ClothingCategory := "Shoes".
Definition OnePiece : ClothingCategory := "One-Piece".
Definition Accessory : ClothingCategory := "Accessory".
Definition Other : ClothingCategory := "Other".

Definition as_string (v : JS.jsval) : option string :=
  match v with
  | JS.JStr s => Some s
  | _ => None
  end.

Definition as_number (v : JS.jsval) : option JS.number :=
  match v with
  | JS.JNum n => Some n
  | _ => None
  end.

(** An item of the wardrobe.  The four fields that a classification fills
    are of type [F]: strings in [t], the item at its declared types, and
    values of the runtime in [raw], the item as the upload stores it. *)
Module ClothingItem.
Record item (F : Type) : Type := mk {
  id : string;
  imageUrl : string;
  category : F;
  color : F;
  season : F;
  description : F
}.
Arguments mk {F}.
Arguments id {F}.
Arguments imageUrl {F}.
Arguments category {F}.
Arguments color {F}.
Arguments season {F}.
Arguments description {F}.

Abbreviation t := (item string).
Abbreviation raw := (item JS.jsval).

Definition stored (i : t) : raw :=
  {| id := id i; imageUrl := imageUrl i;
     category := JS.JStr (category i); color := JS.JStr (color i);
     season := JS.JStr (season i); description := JS.JStr (description i) |}.

(** The item at its declared types, when its fields hold strings. *)
Definition typed (r : raw) : option t :=
  match as_string (category r), as_string (color r), as_string (season r),
        as_string (description r) with
  | Some c, Some col, Some sea, Some d =>
      Some {| id := id r; imageUrl := imageUrl r; category := c;
              color := col; season := sea; description := d |}
  | _, _, _, _ => None
  end.
End ClothingItem.

Module WishlistItem.
Record t : Type := mk {
  id : string;
  name : string;
  price : JS.number;
  imageUrl : string;
  link : option string
}.
End WishlistItem.

(** The weather: [t] at its declared types, [raw] as the effect stores
    what the service sent. *)
Module WeatherData.
Record data (F : Type) : Type := mk {
  temperature : F;
  weatherCode : F;
  isDay : bool
}.
Arguments mk {F}.
Arguments temperature {F}.
Arguments weatherCode {F}.
Arguments isDay {F}.

Abbreviation t := (data JS.number).
Abbreviation raw := (data JS.jsval).

Definition typed (r : raw) : option t :=
  match as_number (temperature r), as_number (weatherCode r) with
  | Some degrees, Some code =>
      Some {| temperature := degrees; weatherCode := code; isDay := isDay r |}
  | _, _ => None
  end.
End WeatherData.

Module ScheduleEvent.
Record t : Type := mk {
  id : string;
  title : string;
  time : string;
  icon : string
}.
End ScheduleEvent.

(** [Outfit] and [WeeklyPlan] values are never built field by field from
    typed parts: they are what [JSON.parse] returned, or an object literal
    over its properties, and the views read them property by property.  They
    stay values of the runtime. *)
Definition Outfit : Type := JS.jsval.
Definition WeeklyPlan : Type := JS.jsval.

Inductive AppView : Type := DASHBOARD | WARDROBE | STYLIST | WISHLIST.

End Types.

(* ================================================================== *)
(** * Effects *)
(* ================================================================== *)

Module Effects.
Import JS Types.

(** ** The hosted model *)

(** The response schema a request declares ([Type.OBJECT], [Type.STRING],
    ...). *)
Inductive Schema : Type :=
| STRING (enum : list string) (about : option string)
| BOOLEAN
| ARRAY (items : Schema)
| OBJECT (properties : list (string * Schema)) (required : list string).

Inductive Contents : Type :=
| Prompt (text : string)
| Parts (mimeType : string) (data : option string) (text : string).

Record request : Type := {
  model : string;
  contents : Contents;
  responseMimeType : string;
  responseSchema : Schema
}.

(** What [ai.models.generateContent] does with a request: its promise
    rejects, it resolves to a response whose [text] is a string or
    [undefined], or it never settles (the calls have no timeout). *)
Inductive reply : Type :=
| Rejects (e : error)
| Responds (text : option string)
| Hangs.

(** ** The world *)

(** What a run leaves behind for an observer. *)
Inductive event : Type :=
| Called (req : request)
| ConsoleError (label : string) (e : error)
| Alert (message : string).

(** React state of the root coordinator.  The wardrobe holds the items
    as they were stored. *)
Record AppState : Type := {
  wardrobe : list ClothingItem.raw;
  wishlist : list WishlistItem.t;
  events : list ScheduleEvent.t;
  eventToDelete : option string
}.

(** React state of the wishlist form.  The name is of type [N]: a string
    in [FormState], the form at its declared types, which is what the user
    types and the submit handler reads; a value of the runtime in
    [Form jsval], since a chosen photo stores there what its classification
    held. *)
Record Form (N : Type) : Type := {
  name : N;
  price : string;
  brand : string;
  previewImage : option string;
  analysisResult : option (jsval * jsval)
}.
Arguments name {N}.
Arguments price {N}.
Arguments brand {N}.
Arguments previewImage {N}.
Arguments analysisResult {N}.

Abbreviation FormState := (Form string).

Record World : Type := {
  now : Z;
  gemini : request -> reply;
  trace : list event;
  app : AppState;
  isAnalyzing : bool;
  form : FormState
}.

Definition emit (e : event) (w : World) : World :=
  {| now := now w; gemini := gemini w; trace := trace w ++ [e];
     app := app w; isAnalyzing := isAnalyzing w; form := form w |}.

Definition with_app (f : AppState -> AppState) (w : World) : World :=
  {| now := now w; gemini := gemini w; trace := trace w;
     app := f (app w); isAnalyzing := isAnalyzing w; form := form w |}.

Definition with_isAnalyzing (b : bool) (w : World) : World :=
  {| now := now w; gemini := gemini w; trace := trace w;
     app := app w; isAnalyzing := b; form := form w |}.

Definition with_form (f : FormState -> FormState) (w : World) : World :=
  {| now := now w; gemini := gemini w; trace := trace w;
     app := app w; isAnalyzing := isAnalyzing w; form := f (form w) |}.

Definition with_trace (t : list event) (w : World) : World :=
  {| now := now w; gemini := gemini w; trace := t;
     app := app w; isAnalyzing := isAnalyzing w; form := form w |}.

(** ** Tasks *)

(** How a run ends: with a value, with an exception, or not at all:
    [Pending], when a promise it awaits never settles.  What follows the
    [await] is then never run, no [catch] and no [finally] either; the
    world is left as the run had it when it began to wait.  A handler that
    returns the state of its component says in [meanwhile] what state it
    had set by then. *)
Inductive outcome (A : Type) : Type :=
| Done (a : A)
| Threw (e : error)
| Pending (meanwhile : option A).
Arguments Done {A} a.
Arguments Threw {A} e.
Arguments Pending {A} meanwhile.

Definition Task (A : Type) : Type := World -> outcome A * World.

Definition ret {A : Type} (a : A) : Task A := fun w => (Done a, w).

Definition bind {A B : Type} (c : Task A) (k : A -> Task B) : Task B :=
  fun w =>
    match c w with
    | (Done a, w') => k a w'
    | (Threw e, w') => (Threw e, w')
    | (Pending _, w') => (Pending None, w')
    end.

Definition throw {A : Type} (e : error) : Task A := fun w => (Threw e, w).

(** [try { c } catch (error) { handler error }]. *)
Definition try_catch {A : Type} (c : Task A) (handler : error -> Task A)
  : Task A :=
  fun w =>
    match c w with
    | (Threw e, w') => handler e w'
    | other => other
    end.

(** [c finally { cleanup }], for a cleanup that neither returns nor throws
    on its own account. *)
Definition finally {A : Type} (c : Task A) (cleanup : World -> World)
  : Task A :=
  fun w =>
    match c w with
    | (Pending m, w') => (Pending m, w')
    | (o, w') => (o, cleanup w')
    end.

(** [c], run by a handler that has set its component to [state] before
    it waits. *)
Definition awaiting {A : Type} (state : A) (c : Task A) : Task A :=
  fun w =>
    match c w with
    | (Pending _, w') => (Pending (Some state), w')
    | other => other
    end.

(** A pure step that may throw. *)
Definition lift {A : Type} (r : error + A) : Task A :=
  match r with
  | inl e => throw e
  | inr a => ret a
  end.

Definition perform (e : event) : Task unit := fun w => (Done tt, emit e w).

Definition modify_app (f : AppState -> AppState) : Task unit :=
  fun w => (Done tt, with_app f w).

Definition modify_form (f : FormState -> FormState) : Task unit :=
  fun w => (Done tt, with_form f w).

Declare Scope task_scope.
Delimit Scope task_scope with task.
Notation "x <- c ;; k" := (bind c (fun x => k))
  (at level 100, c at next level, right associativity) : task_scope.
Notation "c ;; k" := (bind c (fun _ => k))
  (at level 100, right associativity) : task_scope.

(** [await ai.models.generateContent(req)]. *)
Definition generateContent (req : request) : Task (option string) :=
  fun w =>
    let w' := emit (Called req) w in
    match gemini w req with
    | Rejects e => (Threw e, w')
    | Responds text => (Done text, w')
    | Hangs => (Pending None, w')
    end.

(** [Date.now()]. *)
Definition Date_now : Task Z := fun w => (Done (now w), w).

(** ** Two calls at a time *)

(** The events a run from [w] to [w'] has added. *)
Definition added (w w' : World) : list event :=
  skipn (List.length (trace w)) (trace w').

(** An asynchronous function runs up to its first [await] when it is
    called: what it does up to its first call of the hosted model is done
    at once, the rest when the call has settled. *)
Fixpoint at_once (es : list event) : list event :=
  match es with
  | [] => []
  | Called req :: _ => [Called req]
  | e :: rest => e :: at_once rest
  end.

Fixpoint afterwards (es : list event) : list event :=
  match es with
  | [] => []
  | Called _ :: rest => rest
  | _ :: rest => afterwards rest
  end.

(** [await Promise.all([a, b])], for [a] and [b] that share no state but
    the trace.  Both are started, [a] first, whatever becomes of either;
    the promise waits for both, or for the first exception.  In which order
    two calls settle is the network's affair: here [a] settles first. *)
Definition Promise_all {A B : Type} (a : Task A) (b : Task B)
  : Task (A * B) :=
  fun w =>
    let (oa, w1) := a w in
    let (ob, w2) := b w1 in
    let ea := added w w1 in
    let eb := added w1 w2 in
    let w3 := with_trace (trace w ++ at_once ea ++ at_once eb
                          ++ afterwards ea ++ afterwards eb) w2 in
    match oa, ob with
    | Done x, Done y => (Done (x, y), w3)
    | Threw e, _ => (Threw e, w3)
    | _, Threw e => (Threw e, w3)
    | _, _ => (Pending None, w3)
    end.

Definition console_error (label : string) (e : error) : Task unit :=
  perform (ConsoleError label e).

Definition alert (message : string) : Task unit := perform (Alert message).

(** The values the runtime supplies ([JSON.parse], [parseFloat]) are
    parameters of the model. [JSON_parse] returns [None] where [JSON.parse]
    throws its SyntaxError. *)
Class Runtime : Type := {
  JSON_parse : string -> option jsval;
  parseFloat : string -> number
}.

Definition parse `{Runtime} (text : string) : Task jsval :=
  match JSON_parse text with
  | Some v => ret v
  | None => throw SyntaxError
  end.

End Effects.

(* ================================================================== *)
(** * services/geminiService.ts *)
(* ================================================================== *)

Module GeminiService.
Import JS Types Effects.
Local Open Scope task_scope.

Section Adapter.
Context `{RT : Runtime}.

Definition getBase64Data (base64String : string) : option string :=
  nth_error (split "," base64String) 1.

(** [if (response.text)]: the text, when it is a string that is not empty. *)
Definition text_of (response : option string) : option string :=
  match response with
  | Some text => if nonempty text then Some text else None
  | None => None
  end.

Definition quoted (s : string) : string := dq +++ s +++ dq.

Definition lines (ls : list string) : string := join nl ls.

Definition category_enum : list string :=
  ["Top"; "Bottom"; "Outerwear"; "Shoes"; "One-Piece"; "Accessory"; "Other"].

Definition analysis_fallback : jsval :=
  JObj [("category", JStr "Other");
        ("color", JStr "Unknown");
        ("season", JStr "All");
        ("description", JStr "Could not analyze image.")].

(** The request each operation sends: the model, the prompt (with the
    image, when there is one) and the response schema. *)
Definition analysis_request (base64Image : string) : request :=
  let modelId := "gemini-2.5-flash" in
  let prompt := lines
    ["Analyze this image of a clothing item.";
     "  Classify it strictly into one of these categories: Top, Bottom, Outerwear, Shoes, One-Piece, Accessory, Other.";
     "  Identify the dominant color.";
     "  Identify the suitable season (Summer, Winter, Spring/Fall, All).";
     "  Provide a short, trendy description."] in
  {| model := modelId;
     contents := Parts "image/jpeg" (getBase64Data base64Image) prompt;
     responseMimeType := "application/json";
     responseSchema :=
       OBJECT [("category", STRING category_enum None);
               ("color", STRING [] None);
               ("season", STRING [] None);
               ("description", STRING [] None)]
              ["category"; "color"; "season"; "description"] |}.

(** Analyzes a photo of a clothing item to extract metadata. *)
Definition analyzeClothingItem (base64Image : string) : Task jsval :=
  try_catch
    (response <- generateContent (analysis_request base64Image) ;;
     match text_of response with
     | Some text => parse text
     | None => throw (Failure "No data returned")
     end)
    (fun error =>
       console_error "Error analyzing clothing:" error ;;
       ret analysis_fallback).

(** Create a minimal inventory list for the prompt. *)
Definition inventory_of (wardrobe : list ClothingItem.t) : string :=
  join ("," +++ nl)
    (map (fun item =>
            "{ " +++ quoted "id" +++ ": " +++ quoted (ClothingItem.id item)
            +++ ", " +++ quoted "category" +++ ": "
            +++ quoted (ClothingItem.category item)
            +++ ", " +++ quoted "color" +++ ": "
            +++ quoted (ClothingItem.color item)
            +++ ", " +++ quoted "desc" +++ ": "
            +++ quoted (ClothingItem.description item) +++ " }")
         wardrobe).

Definition outfit_schema (vibe_about : option string) : Schema :=
  OBJECT [("itemIds", ARRAY (STRING [] None));
          ("explanation", STRING [] None);
          ("vibe", STRING [] vibe_about)]
         ["itemIds"; "explanation"; "vibe"].

(** The object literal both outfit operations return:
    [{ id: Date.now().toString(), itemIds: result.itemIds,
       vibe: result.vibe || fallback, explanation: result.explanation }]. *)
Definition outfit_of (result : jsval) (fallback_vibe : string) : Task Outfit :=
  t <- Date_now ;;
  itemIds <- lift (get result "itemIds") ;;
  vibe <- lift (get result "vibe") ;;
  explanation <- lift (get result "explanation") ;;
  ret (JObj [("id", JStr (Number_toString t));
             ("itemIds", itemIds);
             ("vibe", or_else vibe (JStr fallback_vibe));
             ("explanation", explanation)]).

Definition outfit_request (wardrobe : list ClothingItem.t)
           (weather vibe : string) : request :=
  let modelId := "gemini-2.5-flash" in
  let inventory := inventory_of wardrobe in
  let prompt := lines
    ["You are a trendy stylist.";
     "  Context: " +++ weather;
     "  User Vibe: " +++ quoted vibe;
     "  ";
     "  Inventory:";
     "  [" +++ inventory +++ "]";
     "  ";
     "  Task: Select items from the inventory to create a coherent, "
       +++ quoted "Pinterest-worthy" +++ " outfit.";
     "  Return a list of itemIds. Try to include a Top+Bottom (or One-Piece) and Shoes at minimum.";
     "  "] in
  {| model := modelId;
     contents := Prompt prompt;
     responseMimeType := "application/json";
     responseSchema := outfit_schema None |}.

(** Generates a single visual outfit based on wardrobe and vibe. *)
Definition generateOutfit (wardrobe : list ClothingItem.t)
           (weather vibe : string) : Task Outfit :=
  match wardrobe with
  | [] => ret JNull
  | _ :: _ =>
      try_catch
        (response <- generateContent (outfit_request wardrobe weather vibe) ;;
         match text_of response with
         | Some text =>
             result <- parse text ;;
             outfit_of result vibe
         | None => ret JNull
         end)
        (fun error =>
           console_error "Outfit generation error:" error ;;
           ret JNull)
  end.

Definition inspo_request (wardrobe : list ClothingItem.t)
           (inspoImageBase64 : string) : request :=
  let modelId := "gemini-2.5-flash" in
  let inventory := inventory_of wardrobe in
  let prompt := lines
    ["I have this inspiration image (see attached).";
     "  I want you to recreate this look as closely as possible using ONLY items from my current wardrobe inventory below.";
     "  ";
     "  Inventory:";
     "  [" +++ inventory +++ "]";
     "  ";
     "  1. Analyze the vibe, colors, and key pieces in the image.";
     "  2. Select the best matching items from my inventory.";
     "  3. Explain why you chose these items to match the photo.";
     "  "] in
  {| model := modelId;
     contents := Parts "image/jpeg" (getBase64Data inspoImageBase64) prompt;
     responseMimeType := "application/json";
     responseSchema :=
       outfit_schema
         (Some "A 2-3 word title for this look based on the image") |}.

(** Generates an outfit based on an uploaded inspiration image. *)
Definition generateOutfitFromImage (wardrobe : list ClothingItem.t)
           (inspoImageBase64 : string) : Task Outfit :=
  match wardrobe with
  | [] => ret JNull
  | _ :: _ =>
      try_catch
        (response <-
           generateContent (inspo_request wardrobe inspoImageBase64) ;;
         match text_of response with
         | Some text =>
             result <- parse text ;;
             outfit_of result "Inspo Match"
         | None => ret JNull
         end)
        (fun error =>
           console_error "Inspo match error:" error ;;
           ret JNull)
  end.

Definition day_schema : Schema :=
  OBJECT [("itemIds", ARRAY (STRING [] None)); ("explanation", STRING [] None)]
         [].

Definition plan_request (wardrobe : list ClothingItem.t)
           (weather theme : string) : request :=
  let modelId := "gemini-2.5-flash" in
  let inventory := inventory_of wardrobe in
  let prompt := lines
    ["Create a 5-day (Mon-Fri) outfit plan.";
     "  Theme: " +++ quoted theme +++ ".";
     "  Context: " +++ weather +++ ".";
     "  ";
     "  Inventory: [" +++ inventory +++ "]";
     "  ";
     "  Reuse items creatively if needed, but try to mix it up.";
     "  "] in
  {| model := modelId;
     contents := Prompt prompt;
     responseMimeType := "application/json";
     responseSchema :=
       OBJECT [("Monday", day_schema);
               ("Tuesday", day_schema);
               ("Wednesday", day_schema);
               ("Thursday", day_schema);
               ("Friday", day_schema)]
              [] |}.

(** Generates a weekly plan (5 days). *)
Definition generateWeeklyPlan (wardrobe : list ClothingItem.t)
           (weather theme : string) : Task WeeklyPlan :=
  match wardrobe with
  | [] => ret JNull
  | _ :: _ =>
      try_catch
        (response <- generateContent (plan_request wardrobe weather theme) ;;
         match text_of response with
         | Some text => parse text
         | None => ret JNull
         end)
        (fun error =>
           console_error "Weekly plan error:" error ;;
           ret JNull)
  end.

Definition similarity (isSimilar : bool) (explanation : string) : jsval :=
  JObj [("isSimilar", JBool isSimilar); ("explanation", JStr explanation)].

Definition similarity_request (wishlistImageBase64 : string)
           (wardrobe : list ClothingItem.t) : request :=
  let modelId := "gemini-2.5-flash" in
  let wardrobeDescriptions :=
    join nl
      (map (fun item =>
              "ID " +++ ClothingItem.id item +++ ": "
              +++ ClothingItem.color item +++ " "
              +++ ClothingItem.category item +++ " - "
              +++ ClothingItem.description item)
           wardrobe) in
  let prompt := lines
    ["I am thinking of buying the item in this image. ";
     "  Here is a list of items I already own:";
     "  " +++ wardrobeDescriptions;
     EmptyString;
     "  Compare the visual item with my list. ";
     "  Does it look significantly similar in style, color, or function to anything I own?";
     "  Return JSON."] in
  {| model := modelId;
     contents := Parts "image/jpeg" (getBase64Data wishlistImageBase64) prompt;
     responseMimeType := "application/json";
     responseSchema :=
       OBJECT [("isSimilar", BOOLEAN);
               ("explanation",
                STRING [] (Some "A friendly warning message if similar, or encouragement if unique."))]
              ["isSimilar"; "explanation"] |}.

(** Checks if a wishlist item is similar to something already owned. *)
Definition checkSimilarity (wishlistImageBase64 : string)
           (wardrobe : list ClothingItem.t) : Task jsval :=
  match wardrobe with
  | [] => ret (similarity false "Your wardrobe is empty!")
  | _ :: _ =>
      try_catch
        (response <-
           generateContent (similarity_request wishlistImageBase64 wardrobe) ;;
         match text_of response with
         | Some text => parse text
         | None => ret (similarity false "Go for it!")
         end)
        (fun error =>
           console_error "Similarity check error:" error ;;
           ret (similarity false "Couldn't check for duplicates, but trust your gut!"))
  end.

End Adapter.
End GeminiService.

(* ================================================================== *)
(** * App.tsx: the root coordinator *)
(* ================================================================== *)

Module App.
Import JS Types Effects.
Local Open Scope task_scope.

(** The state the coordinator starts with: two events, nothing else. *)
Definition initial : AppState :=
  {| wardrobe := [];
     wishlist := [];
     events :=
       [{| ScheduleEvent.id := "1"; ScheduleEvent.title := "Coffee Date";
           ScheduleEvent.time := "10:00"; ScheduleEvent.icon := "☕️" |};
        {| ScheduleEvent.id := "2"; ScheduleEvent.title := "Work";
           ScheduleEvent.time := "14:00"; ScheduleEvent.icon := "💻" |}];
     eventToDelete := None |}.

Definition setWardrobe (f : list ClothingItem.raw -> list ClothingItem.raw)
  : Task unit :=
  modify_app (fun s =>
    {| wardrobe := f (wardrobe s); wishlist := wishlist s;
       events := events s; eventToDelete := eventToDelete s |}).

Definition setWishlist (f : list WishlistItem.t -> list WishlistItem.t)
  : Task unit :=
  modify_app (fun s =>
    {| wardrobe := wardrobe s; wishlist := f (wishlist s);
       events := events s; eventToDelete := eventToDelete s |}).

Definition setEvents (f : list ScheduleEvent.t -> list ScheduleEvent.t)
  : Task unit :=
  modify_app (fun s =>
    {| wardrobe := wardrobe s; wishlist := wishlist s;
       events := f (events s); eventToDelete := eventToDelete s |}).

Definition setEventToDelete (id : option string) : Task unit :=
  modify_app (fun s =>
    {| wardrobe := wardrobe s; wishlist := wishlist s;
       events := events s; eventToDelete := id |}).

Definition addWardrobeItem (item : ClothingItem.raw) : Task unit :=
  setWardrobe (fun prev => item :: prev).

Definition deleteWardrobeItem (id : string) : Task unit :=
  setWardrobe (fun prev =>
    filter (fun item => negb (String.eqb (ClothingItem.id item) id)) prev).

Definition addToWishlist (item : WishlistItem.t) : Task unit :=
  setWishlist (fun prev => item :: prev).

Definition deleteWishlistItem (id : string) : Task unit :=
  setWishlist (fun prev =>
    filter (fun item => negb (String.eqb (WishlistItem.id item) id)) prev).

(** [if (eventToDelete) { ... }]: the pending id counts when it is a
    string that is not empty. *)
Definition confirmDeleteEvent : Task unit :=
  fun w =>
    match eventToDelete (app w) with
    | Some pending =>
        if nonempty pending then
          (setEvents (fun prev =>
             filter (fun e => negb (String.eqb (ScheduleEvent.id e) pending))
                    prev) ;;
           setEventToDelete None) w
        else ret tt w
    | None => ret tt w
    end.

(** ** The schedule *)

(** The draft the new-event dialog edits. *)
Record Draft : Type := {
  draft_title : string;
  draft_time : string;
  draft_icon : string
}.

(** The task returns whether the dialog is open afterwards. *)
Definition saveNewEvent (newEvent : Draft) (isEventModalOpen : bool)
  : Task bool :=
  if negb (nonempty (draft_title newEvent)) then ret isEventModalOpen
  else
    t <- Date_now ;;
    setEvents (fun prev =>
      prev ++ [{| ScheduleEvent.id := Number_toString t;
                  ScheduleEvent.title := draft_title newEvent;
                  ScheduleEvent.time := draft_time newEvent;
                  ScheduleEvent.icon :=
                    if nonempty (draft_icon newEvent) then draft_icon newEvent
                    else "📅" |}]) ;;
    ret false.

(** Helper to format time 14:00 -> 2:00 PM.  The hour is kept exact, and
    printed in digits. *)
Definition formatTimeDisplay (timeStr : string) : string :=
  if negb (nonempty timeStr) then EmptyString
  else
    let parts := split ":" timeStr in
    let hours := hd EmptyString parts in
    let minutes := nth_error parts 1 in
    let h := parseInt hours in
    let m := match minutes with
             | Some text => text
             | None => "undefined"
             end in
    let ampm := match h with
                | Some n => if 12 <=? n then "PM" else "AM"
                | None => "AM"
                end in
    let h12 := match h with
               | Some n => if Z.rem n 12 =? 0 then 12 else Z.rem n 12
               | None => 12
               end in
    Number_toString h12 +++ ":" +++ m +++ " " +++ ampm.

Section Platform.

(** How a template literal prints a number, and how [localeCompare]
    orders two strings (negative, zero or positive). *)
Variable show : number -> string.
Variable localeCompare : string -> string -> Z.

(** Sort events chronologically: a sorted copy, [events] stays as it is. *)
Definition sortedEvents (events : list ScheduleEvent.t)
  : list ScheduleEvent.t :=
  Array_sort (fun a b => localeCompare (ScheduleEvent.time a)
                                       (ScheduleEvent.time b))
             events.

(** ** The weather *)

Definition conditions_of (weather : WeatherData.t) : string :=
  if number_le (WeatherData.weatherCode weather) (num 3) then "Clear/Sunny"
  else if number_le (WeatherData.weatherCode weather) (num 60) then "Cloudy"
  else "Rainy/Cold".

Definition getWeatherContextString (weather : option WeatherData.t) : string :=
  match weather with
  | None => "Temperature is 20°C, clear skies."
  | Some current =>
      "Current weather is " +++ show (WeatherData.temperature current)
      +++ "°C and " +++ conditions_of current +++ "."
  end.

Record WeatherState : Type := {
  weather : option WeatherData.raw;
  weatherLoading : bool;
  weatherError : option string
}.

Definition initial_weather : WeatherState :=
  {| weather := None; weatherLoading := true; weatherError := None |}.

(** What the browser does with the request for the position: there is no
    geolocation, no answer yet, a refusal, or the coordinates. *)
Inductive Geolocation : Type :=
| NoGeolocation
| Waiting
| Refused
| Position (latitude longitude : number).

(** How the request to the weather service ends: [fetch] rejects, or it
    resolves and [response.json()] rejects or yields the data; or one of
    the two promises never settles. *)
Inductive Fetched : Type :=
| FetchRejects
| NotJSON
| Data (data : jsval)
| Unsettled.

Variable fetch : string -> Fetched.

(** [v === 1]. *)
Definition is_one (v : jsval) : bool :=
  match v with
  | JNum (Fin q) => Qeq_bool q 1
  | _ => false
  end.

(** The object the effect stores: the temperature and the weather code as
    the service sent them, whatever they are; or the exception that reading
    them throws, when the data has no [current_weather]. *)
Definition weather_of (data : jsval) : error + WeatherData.raw :=
  bind_error (get data "current_weather") (fun current =>
  bind_error (get current "temperature") (fun temperature =>
  bind_error (get current "weathercode") (fun weathercode =>
  bind_error (get current "is_day") (fun is_day =>
  inr {| WeatherData.temperature := temperature;
         WeatherData.weatherCode := weathercode;
         WeatherData.isDay := is_one is_day |})))).

(** Using Open-Meteo. *)
Definition forecast (latitude longitude : number) : string :=
  "https://api.open-meteo.com/v1/forecast?latitude="
  +++ show latitude +++ "&longitude=" +++ show longitude
  +++ "&current_weather=true".

(** The effect that runs once, on mount: the state it leaves. *)
Definition weatherEffect (geolocation : Geolocation) (st : WeatherState)
  : WeatherState :=
  match geolocation with
  | NoGeolocation =>
      {| weather := weather st; weatherLoading := false;
         weatherError := Some "Geolocation not supported" |}
  | Waiting => st
  | Refused =>
      {| weather := weather st; weatherLoading := false;
         weatherError := Some "Location access denied" |}
  | Position latitude longitude =>
      let failed :=
        {| weather := weather st; weatherLoading := false;
           weatherError := Some "Could not fetch weather" |} in
      match fetch (forecast latitude longitude) with
      | FetchRejects | NotJSON => failed
      | Unsettled => st
      | Data data =>
          match weather_of data with
          | inl _ => failed
          | inr current =>
              {| weather := Some current; weatherLoading := false;
                 weatherError := weatherError st |}
          end
      end
  end.

End Platform.

End App.

(* ================================================================== *)
(** * components/Wardrobe.tsx *)
(* ================================================================== *)

Module Wardrobe.
Import JS Types Effects.
Local Open Scope task_scope.

Definition CATEGORIES : list ClothingCategory :=
  [Top; Bottom; OnePiece; Outerwear; Shoes; Accessory].

(** [activeCategory]: a category or ['All']. *)
Definition CategoryFilter : Type := string.
Definition All : CategoryFilter := "All".

Section Props.
Context `{RT : Runtime}.
Variable items : list ClothingItem.t.
Variable addItem : ClothingItem.raw -> Task unit.
Variable deleteItem : string -> Task unit.

Definition setIsAnalyzing (b : bool) : Task unit :=
  fun w => (Done tt, with_isAnalyzing b w).

(** [metadata.field || fallback]: the value the classification holds
    under [field], whatever it is, unless it is falsy. *)
Definition field_or (metadata : jsval) (field : string) (fallback : string)
  : Task jsval :=
  v <- lift (get metadata field) ;;
  ret (or_else v (JStr fallback)).

(** [file] is the data URL the chosen file reads as, or [None] when no
    file was chosen. *)
Definition handleFileUpload (file : option string) : Task unit :=
  match file with
  | None => ret tt
  | Some base64String =>
      setIsAnalyzing true ;;
      finally
        (try_catch
           (metadata <- GeminiService.analyzeClothingItem base64String ;;
            t <- Date_now ;;
            category <- field_or metadata "category" "Other" ;;
            color <- field_or metadata "color" "Unknown" ;;
            season <- field_or metadata "season" "All" ;;
            description <-
              field_or metadata "description" "Added from closet" ;;
            let newItem :=
              {| ClothingItem.id := Number_toString t;
                 ClothingItem.imageUrl := base64String;
                 ClothingItem.category := category;
                 ClothingItem.color := color;
                 ClothingItem.season := season;
                 ClothingItem.description := description |} in
            addItem newItem)
           (fun e => alert "Oops! Couldn't scan that item."))
        (with_isAnalyzing false)
  end.

(** [itemToDelete] is the view's pending id; the task returns its next
    value. *)
Definition confirmDelete (itemToDelete : option string)
  : Task (option string) :=
  match itemToDelete with
  | Some pending =>
      if nonempty pending then (deleteItem pending ;; ret None)
      else ret itemToDelete
  | None => ret itemToDelete
  end.

(** The first occurrences, in order: what [Array.from(new Set(a))] keeps. *)
Fixpoint unique_from (seen : list string) (a : list string) : list string :=
  match a with
  | [] => []
  | x :: rest =>
      if existsb (String.eqb x) seen then unique_from seen rest
      else x :: unique_from (x :: seen) rest
  end.

(** Get unique colors for filter. *)
Definition colors : list string :=
  slice0 8
    (unique_from []
       (map (fun i => hd EmptyString (split " " (ClothingItem.color i)))
            items)).

(** [activeCategory === 'All' || item.category === activeCategory]. *)
Definition matchCat (activeCategory : CategoryFilter) (item : ClothingItem.t)
  : bool :=
  (String.eqb activeCategory "All"
   || String.eqb (ClothingItem.category item) activeCategory)%bool.

Definition matchColor (activeColor : option string) (item : ClothingItem.t)
  : bool :=
  match activeColor with
  | None => true
  | Some c =>
      (negb (nonempty c)
       || includes (toLowerCase (ClothingItem.color item)) (toLowerCase c))%bool
  end.

Definition filteredItems (activeCategory : CategoryFilter)
           (activeColor : option string) : list ClothingItem.t :=
  filter (fun item =>
            (matchCat activeCategory item && matchColor activeColor item)%bool)
         items.

End Props.
End Wardrobe.

(* ================================================================== *)
(** * components/Stylist.tsx *)
(* ================================================================== *)

Module Stylist.
Import JS Types Effects.
Local Open Scope task_scope.

Inductive Mode : Type := SINGLE | WEEKLY | INSPO.

Record State : Type := {
  vibeInput : string;
  mode : Mode;
  generatedOutfit : Outfit;
  weeklyPlan : WeeklyPlan;
  isLoading : bool
}.

(** What [renderOutfitVisual] draws: the compact grid of images, or the
    full grid, which shows a placeholder when there is no item. *)
Inductive OutfitVisual : Type :=
| CompactGrid (images : list ClothingItem.t)
| Placeholder
| FullGrid (tiles : list ClothingItem.t).

Definition rendered_items (v : OutfitVisual) : list ClothingItem.t :=
  match v with
  | CompactGrid images => images
  | Placeholder => []
  | FullGrid tiles => tiles
  end.

(** The sections of the view.  A title or an explanation is the value
    the reply held, where React takes it for a child. *)
Record DaySection : Type := {
  day : string;
  badge : string;
  visual : OutfitVisual;
  day_explanation : jsval
}.

Record OutfitSection : Type := {
  title : jsval;
  outfit_visual : OutfitVisual;
  explanation : jsval
}.

Record View : Type := {
  inputs_shown : bool;
  spinner_shown : bool;
  outfit_section : option OutfitSection;
  plan_section : option (list DaySection)
}.

Section Props.
Context `{RT : Runtime}.
Variable wardrobe : list ClothingItem.t.
Variable weatherContext : string.

Definition with_results (st : State) (outfit : Outfit) (plan : WeeklyPlan)
           (loading : bool) : State :=
  {| vibeInput := vibeInput st; mode := mode st;
     generatedOutfit := outfit; weeklyPlan := plan; isLoading := loading |}.

Definition setIsLoading (st : State) (loading : bool) : State :=
  with_results st (generatedOutfit st) (weeklyPlan st) loading.

(** The task returns the state the component is left in, [isLoading]
    set back to false; while the adapter's call is pending, the state is
    the one [setIsLoading(true)] has left. *)
Definition handleGenerate (st : State) (preset : option string) : Task State :=
  let query :=
    match preset with
    | Some p => if nonempty p then p else vibeInput st
    | None => vibeInput st
    end in
  if negb (nonempty query) then ret st
  else
    let st := setIsLoading st true in
    let context :=
      if nonempty weatherContext then weatherContext
      else "Temperature is 20°C, clear skies." in
    awaiting st
      match mode st with
      | SINGLE =>
          outfit <- GeminiService.generateOutfit wardrobe context query ;;
          ret (with_results st outfit JNull false)
      | _ =>
          plan <- GeminiService.generateWeeklyPlan wardrobe context query ;;
          ret (with_results st JNull plan false)
      end.

Definition handleInspoUpload (st : State) (file : option string) : Task State :=
  match file with
  | None => ret st
  | Some base64String =>
      let st := setIsLoading st true in
      awaiting st
        (outfit <-
           GeminiService.generateOutfitFromImage wardrobe base64String ;;
         ret (with_results st outfit JNull false))
  end.

(** [w.id === id] for an id out of a reply. *)
Definition id_is (id : jsval) (w : ClothingItem.t) : bool :=
  match id with
  | JStr s => String.eqb (ClothingItem.id w) s
  | _ => false
  end.

Definition categoryOrder : list (string * Z) :=
  [("Top", 1); ("One-Piece", 2); ("Outerwear", 3); ("Bottom", 4);
   ("Shoes", 5); ("Accessory", 6); ("Other", 7)].

(** [categoryOrder[c] || 99]: the rank the table gives, and 99 for a
    category it does not hold.  Under the name of a property that every
    object inherits the table yields that property, which is no number:
    [None]. *)
Definition order_of (c : ClothingCategory) : option Z :=
  match lookup c categoryOrder with
  | Some n => Some (if n =? 0 then 99 else n)
  | None => if inherited c then None else Some 99
  end.

(** The comparator: the difference of the ranks.  Where one of them is no
    number the difference is NaN, which a sort takes for zero. *)
Definition by_category (a b : ClothingItem.t) : Z :=
  match order_of (ClothingItem.category a),
        order_of (ClothingItem.category b) with
  | Some x, Some y => x - y
  | _, _ => 0
  end.

(** Find items in wardrobe, then sort roughly by head-to-toe for display. *)
Definition outfit_items (ids : list jsval) : list ClothingItem.t :=
  let items :=
    filter_Boolean (map (fun id => Array_find (id_is id) wardrobe) ids) in
  Array_sort by_category items.

(** [itemIds.map] exists on arrays only: on every other value the call
    throws a TypeError. *)
Definition renderOutfitVisual (itemIds : jsval) (compact : bool)
  : error + OutfitVisual :=
  match itemIds with
  | JArr ids =>
      let items := outfit_items ids in
      if compact then inr (CompactGrid (slice0 4 items))
      else match items with
           | [] => inr Placeholder
           | _ :: _ => inr (FullGrid items)
           end
  | _ => inl TypeError
  end.

(** The keys and values [Object.entries] lists for a value that is truthy. *)
Fixpoint indexed {A : Type} (i : Z) (a : list A) : list (string * A) :=
  match a with
  | [] => []
  | x :: rest => (Number_toString i, x) :: indexed (i + 1) rest
  end.

Definition characters (s : string) : list jsval :=
  map (fun c => JStr (String c EmptyString)) (list_ascii_of_string s).

Definition entries_of (v : jsval) : list (string * jsval) :=
  match v with
  | JObj props => Object_entries props
  | JArr items => indexed 0 items
  | JStr s => indexed 0 (characters s)
  | _ => []
  end.

Definition bind_err {A B : Type} (r : error + A) (k : A -> error + B)
  : error + B :=
  match r with
  | inl e => inl e
  | inr a => k a
  end.

(** What React takes for a child: text, a number, nothing ([null],
    [undefined], a boolean) or an array of such.  An object it refuses,
    with an error. *)
Fixpoint is_child (v : jsval) : bool :=
  match v with
  | JObj _ => false
  | JArr items =>
      (fix all (l : list jsval) : bool :=
         match l with
         | [] => true
         | x :: rest => (is_child x && all rest)%bool
         end) items
  | _ => true
  end.

Definition not_a_child : error :=
  Failure "Objects are not valid as a React child".

Definition child (v : jsval) : error + jsval :=
  if is_child v then inr v else inl not_a_child.

Fixpoint map_err {A B : Type} (f : A -> error + B) (a : list A)
  : error + list B :=
  match a with
  | [] => inr []
  | x :: rest =>
      bind_err (f x) (fun y =>
      bind_err (map_err f rest) (fun ys => inr (y :: ys)))
  end.

Definition render_day (st : State) (entry : string * jsval)
  : error + DaySection :=
  let (d, outfit) := entry in
  let label :=
    match mode st with
    | WEEKLY => hd EmptyString (split " " (vibeInput st))
    | _ => "Plan"
    end in
  bind_err (get outfit "itemIds") (fun itemIds =>
  bind_err (renderOutfitVisual itemIds true) (fun v =>
  bind_err (get outfit "explanation") (fun text =>
  inr {| day := d; badge := label; visual := v; day_explanation := text |}))).

Definition render_outfit (outfit : Outfit) : error + OutfitSection :=
  bind_err (get outfit "vibe") (fun vibe =>
  bind_err (get outfit "itemIds") (fun itemIds =>
  bind_err (renderOutfitVisual itemIds false) (fun v =>
  bind_err (get outfit "explanation") (fun text =>
  inr {| title := vibe; outfit_visual := v; explanation := text |})))).

(** The elements of the view, as the component's function returns
    them: an exception of any section is the function's. *)
Definition elements (st : State) : error + View :=
  bind_err
    (if (truthy (generatedOutfit st) && negb (isLoading st))%bool
     then bind_err (render_outfit (generatedOutfit st)) (fun s => inr (Some s))
     else inr None)
    (fun single =>
  bind_err
    (if (truthy (weeklyPlan st) && negb (isLoading st))%bool
     then bind_err (map_err (render_day st) (entries_of (weeklyPlan st)))
                   (fun days => inr (Some days))
     else inr None)
    (fun weekly =>
  inr {| inputs_shown :=
           (negb (truthy (generatedOutfit st))
            && negb (truthy (weeklyPlan st)) && negb (isLoading st))%bool;
         spinner_shown := isLoading st;
         outfit_section := single;
         plan_section := weekly |})).

(** React then takes the elements in: the title and the explanation of
    the outfit and the explanation of each day are children of theirs. *)
Definition children (view : View) : list jsval :=
  match outfit_section view with
  | Some section => [title section; explanation section]
  | None => []
  end
  ++ match plan_section view with
     | Some days => map day_explanation days
     | None => []
     end.

(** The component's render: the exception of its function, or else the
    error of the first child that React refuses. *)
Definition render (st : State) : error + View :=
  bind_err (elements st) (fun view =>
  bind_err (map_err child (children view)) (fun _ => inr view)).

End Props.
End Stylist.

(* ================================================================== *)
(** * components/Wishlist.tsx *)
(* ================================================================== *)

Module Wishlist.
Import JS Types Effects.
Local Open Scope task_scope.

Section Props.
Context `{RT : Runtime}.
Variable addToWishlist : WishlistItem.t -> Task unit.
Variable removeFromWishlist : string -> Task unit.

(** [!!previewImage]. *)
Definition has_image (previewImage : option string) : option string :=
  match previewImage with
  | Some url => if nonempty url then Some url else None
  | None => None
  end.

Definition blank_form : FormState :=
  {| name := EmptyString; price := EmptyString; brand := EmptyString;
     previewImage := None; analysisResult := None |}.

(** The form's submit handler.  The fields are read off the form state of
    the render the handler belongs to. *)
Definition handleAdd : Task unit :=
  fun w =>
    let f := form w in
    match nonempty (name f), nonempty (price f), has_image (previewImage f) with
    | true, true, Some image =>
        (t <- Date_now ;;
         let newItem :=
           {| WishlistItem.id := Number_toString t;
              WishlistItem.name :=
                name f +++ " "
                +++ (if nonempty (brand f) then "(" +++ brand f +++ ")"
                     else EmptyString);
              WishlistItem.price := number_or (parseFloat (price f)) (num 0);
              WishlistItem.imageUrl := image;
              WishlistItem.link := None |} in
         addToWishlist newItem ;;
         modify_form (fun _ => blank_form)) w
    | _, _, None => alert "Please upload a photo!" w
    | _, _, Some _ => ret tt w
    end.

Definition confirmDelete (itemToDelete : option string)
  : Task (option string) :=
  match itemToDelete with
  | Some pending =>
      if nonempty pending then (removeFromWishlist pending ;; ret None)
      else ret itemToDelete
  | None => ret itemToDelete
  end.

(** ** Choosing a photo *)

Variable wardrobe : list ClothingItem.t.

(** How a number prints. *)
Variable show : number -> string.

(** The form as the photo handler writes it: the name is whatever was
    stored there. *)
Definition setName (n : jsval) (f : Form jsval) : Form jsval :=
  {| name := n; price := price f; brand := brand f;
     previewImage := previewImage f; analysisResult := analysisResult f |}.

Definition setPreviewImage (image : option string) (f : Form jsval)
  : Form jsval :=
  {| name := name f; price := price f; brand := brand f;
     previewImage := image; analysisResult := analysisResult f |}.

Definition setAnalysisResult (result : option (jsval * jsval))
           (f : Form jsval) : Form jsval :=
  {| name := name f; price := price f; brand := brand f;
     previewImage := previewImage f; analysisResult := result |}.

(** Auto-fill name: the color and the category in one text where both are
    set, else the description, else [New Item]. *)
Definition autofill (metadata : jsval) (f : Form jsval)
  : error + Form jsval :=
  bind_error (get metadata "color") (fun color =>
  bind_error (if truthy color then get metadata "category" else inr color)
             (fun both =>
  if truthy both then
    bind_error (ToString show color) (fun c =>
    bind_error (ToString show both) (fun k =>
    inr (setName (JStr (c +++ " " +++ k)) f)))
  else
    bind_error (get metadata "description") (fun description =>
    inr (setName (or_else description (JStr "New Item")) f)))).

(** The [try] block once both calls have returned: the form it leaves,
    and the exception it ends with, if it ends with one. *)
Definition fill (metadata similarityCheck : jsval) (f : Form jsval)
  : Form jsval * option error :=
  match autofill metadata f with
  | inl e => (f, Some e)
  | inr named =>
      match get similarityCheck "isSimilar" with
      | inl e => (named, Some e)
      | inr isSimilar =>
          match get similarityCheck "explanation" with
          | inl e => (named, Some e)
          | inr message =>
              (setAnalysisResult (Some (isSimilar, message)) named, None)
          end
      end
  end.

(** [file] is the data URL the chosen file reads as.  The task returns
    the flag [isAnalyzing] and the form as the handler leaves them; while
    the calls are pending they are as the handler has set them by then. *)
Definition handleFileSelect (file : option string) (isAnalyzing : bool)
           (f : Form jsval) : Task (bool * Form jsval) :=
  match file with
  | None => ret (isAnalyzing, f)
  | Some base64String =>
      let f := setName (JStr EmptyString) (setAnalysisResult None f) in
      let f := setPreviewImage (Some base64String) f in
      awaiting (true, f)
        (try_catch
           (results <-
              Promise_all
                (GeminiService.analyzeClothingItem base64String)
                (GeminiService.checkSimilarity base64String wardrobe) ;;
            let (metadata, similarityCheck) := results in
            let (filled, thrown) := fill metadata similarityCheck f in
            match thrown with
            | Some e => console_error EmptyString e
            | None => ret tt
            end ;;
            ret (false, filled))
           (fun e => console_error EmptyString e ;; ret (false, f)))
  end.

End Props.
End Wishlist.

(* ================================================================== *)
(** * components/WeatherWidget.tsx *)
(* ================================================================== *)

Module WeatherWidget.
Import JS Types.

Definition getGreeting (temp : number) : string * string :=
  if number_lt temp (num 10)
  then ("Brr, it's chilly! ❄️", "Layer up with a cute coat and scarf.")
  else if number_lt temp (num 20)
  then ("It's crisp outside! 🍂", "A light jacket or sweater is perfect.")
  else if number_lt temp (num 25)
  then ("Beautiful weather! ☀️", "T-shirt and jeans weather!")
  else ("It's getting hot! 🔥", "Stay cool in a flowy dress or shorts.").

(** Simple mapping for weather codes. *)
Definition icon_of (weather : WeatherData.t) : string :=
  if number_le (WeatherData.weatherCode weather) (num 3)
  then (if WeatherData.isDay weather then "☀️" else "🌙")
  else if number_le (WeatherData.weatherCode weather) (num 60)
  then "☁️"
  else "🌧️".

Inductive View : Type :=
| Skeleton
| Greeting
| Card (degrees : number) (text advice icon : string).

(** The icon a view shows, if it shows one. *)
Definition icon_shown (v : View) : option string :=
  match v with
  | Card _ _ _ icon => Some icon
  | _ => None
  end.

Definition WeatherWidget (weather : option WeatherData.t) (loading : bool)
           (error : option string) : View :=
  if loading then Skeleton
  else
    let failed :=
      match error with
      | Some message => nonempty message
      | None => false
      end in
    match weather with
    | Some w =>
        if failed then Greeting
        else let (text, advice) := getGreeting (WeatherData.temperature w) in
             Card (Math_round (WeatherData.temperature w)) text advice
                  (icon_of w)
    | None => Greeting
    end.

End WeatherWidget.

(* ================================================================== *)
(** * The composition of App.tsx *)
(* ================================================================== *)

Module Composition.
Import JS Types Effects.

Section Wired.
Context `{RT : Runtime}.

(** [<Wardrobe addItem={addWardrobeItem} deleteItem={deleteWardrobeItem} />] *)
Definition upload (file : option string) : Task unit :=
  Wardrobe.handleFileUpload App.addWardrobeItem file.

Definition confirmWardrobeDelete (itemToDelete : option string)
  : Task (option string) :=
  Wardrobe.confirmDelete App.deleteWardrobeItem itemToDelete.

(** [<Wishlist addToWishlist={addToWishlist}
               removeFromWishlist={deleteWishlistItem} />] *)
Definition submitWish : Task unit := Wishlist.handleAdd App.addToWishlist.

Definition confirmWishDelete (itemToDelete : option string)
  : Task (option string) :=
  Wishlist.confirmDelete App.deleteWishlistItem itemToDelete.

End Wired.
End Composition.

(* ================================================================== *)
(** * A runtime to run the model on *)
(* ================================================================== *)

(** The theorems hold for every [Runtime].  The examples run on this one:
    a reader for a fragment of JSON (objects, arrays, strings without
    escapes, [true], [false], [null] and integers; a text outside the
    fragment is rejected) and a [parseFloat] for decimal numerals without
    exponent. *)
Module Sample.
Import JS Types Effects.

Definition is_space (c : ascii) : bool :=
  let n := nat_of_ascii c in
  (Nat.eqb n 32 || Nat.eqb n 9 || Nat.eqb n 10 || Nat.eqb n 13)%bool.

Fixpoint skip_ws (s : string) : string :=
  match s with
  | String c rest => if is_space c then skip_ws rest else s
  | EmptyString => s
  end.

(** The characters up to the closing quote, and what follows it. *)
Fixpoint string_body (s : string) : option (string * string) :=
  match s with
  | EmptyString => None
  | String c rest =>
      if Nat.eqb (nat_of_ascii c) 34 then Some (EmptyString, rest)
      else if Nat.eqb (nat_of_ascii c) 92 then None
      else match string_body rest with
           | Some (body, rest') => Some (String c body, rest')
           | None => None
           end
  end.

(** A string in its quotes. *)
Definition quoted_string (s : string) : option (string * string) :=
  match s with
  | String c rest =>
      if Nat.eqb (nat_of_ascii c) 34 then string_body rest else None
  | EmptyString => None
  end.

Fixpoint digits_prefix (s : string) : string * string :=
  match s with
  | String c rest =>
      if is_digit c
      then let (ds, rest') := digits_prefix rest in (String c ds, rest')
      else (EmptyString, s)
  | EmptyString => (EmptyString, s)
  end.

(** An integer without leading zeros. *)
Definition integer (s : string) : option (Z * string) :=
  let (ds, rest) := digits_prefix s in
  match ds with
  | EmptyString => None
  | String c more =>
      if (Ascii.eqb c "0" && nonempty more)%bool then None
      else Some (digits_value 0 ds, rest)
  end.

(** A later property of the same key replaces the value and keeps the
    place. *)
Fixpoint set_prop (k : string) (v : jsval) (props : list (string * jsval))
  : list (string * jsval) :=
  match props with
  | [] => [(k, v)]
  | (k', v') :: rest =>
      if String.eqb k k' then (k, v) :: rest else (k', v') :: set_prop k v rest
  end.

Definition literal (word : string) (v : jsval) (s : string)
  : option (jsval * string) :=
  if String.prefix word s
  then Some (v, String.substring (String.length word)
                                 (String.length s - String.length word) s)
  else None.

Fixpoint value (depth : nat) (s : string) : option (jsval * string) :=
  match depth with
  | O => None
  | S depth' =>
      let members :=
        fix members (n : nat) (acc : list (string * jsval)) (s : string)
            {struct n} : option (jsval * string) :=
          match n with
          | O => None
          | S n' =>
              match quoted_string (skip_ws s) with
              | Some (k, rest1) =>
                  match skip_ws rest1 with
                  | String ":" rest2 =>
                      match value depth' rest2 with
                      | Some (v, rest3) =>
                          match skip_ws rest3 with
                          | String "," rest4 =>
                              members n' (set_prop k v acc) rest4
                          | String "}" rest4 =>
                              Some (JObj (set_prop k v acc), rest4)
                          | _ => None
                          end
                      | None => None
                      end
                  | _ => None
                  end
              | None => None
              end
          end in
      let elements :=
        fix elements (n : nat) (acc : list jsval) (s : string)
            {struct n} : option (jsval * string) :=
          match n with
          | O => None
          | S n' =>
              match value depth' s with
              | Some (v, rest) =>
                  match skip_ws rest with
                  | String "," rest' => elements n' (acc ++ [v]) rest'
                  | String "]" rest' => Some (JArr (acc ++ [v]), rest')
                  | _ => None
                  end
              | None => None
              end
          end in
      match skip_ws s with
      | String "{" rest =>
          match skip_ws rest with
          | String "}" rest' => Some (JObj [], rest')
          | _ => members (String.length rest) [] rest
          end
      | String "[" rest =>
          match skip_ws rest with
          | String "]" rest' => Some (JArr [], rest')
          | _ => elements (String.length rest) [] rest
          end
      | String "-" rest =>
          match integer rest with
          | Some (n, rest') => Some (JNum (num (- n)), rest')
          | None => None
          end
      | String "t" _ => literal "true" (JBool true) (skip_ws s)
      | String "f" _ => literal "false" (JBool false) (skip_ws s)
      | String "n" _ => literal "null" JNull (skip_ws s)
      | other =>
          match quoted_string other, integer other with
          | Some (body, rest'), _ => Some (JStr body, rest')
          | None, Some (n, rest') => Some (JNum (num n), rest')
          | None, None => None
          end
      end
  end.

Definition read_json (text : string) : option jsval :=
  match value (S (String.length text)) text with
  | Some (v, rest) =>
      match skip_ws rest with
      | EmptyString => Some v
      | String _ _ => None
      end
  | None => None
  end.

(** [parseFloat] on an optional sign, digits and an optional fraction;
    what follows the numeral is ignored. *)
Definition read_float (s : string) : number :=
  let s := skip_ws s in
  let (negative, s) :=
    match s with
    | String "-" rest => (true, rest)
    | String "+" rest => (false, rest)
    | _ => (false, s)
    end in
  let (whole, rest) := digits_prefix s in
  let fraction :=
    match rest with
    | String "." rest' => fst (digits_prefix rest')
    | _ => EmptyString
    end in
  if (negb (nonempty whole) && negb (nonempty fraction))%bool then
    (if String.prefix "Infinity" s
     then (if negative then NegInf else PosInf)
     else NaN)
  else
    let scale := (10 ^ Z.of_nat (String.length fraction))%Z in
    let n := (digits_value 0 whole * scale + digits_value 0 fraction)%Z in
    Fin (Qred (Qmake (if negative then - n else n) (Z.to_pos scale))).

(** A JSON text written with apostrophes for its double quotes. *)
Fixpoint json (s : string) : string :=
  match s with
  | String c rest =>
      String (if Nat.eqb (nat_of_ascii c) 39 then ascii_of_nat 34 else c)
             (json rest)
  | EmptyString => EmptyString
  end.

#[local] Instance runtime : Runtime :=
  {| JSON_parse := read_json; parseFloat := read_float |}.

End Sample.

(* ================================================================== *)
(** * Specifications *)
(* ================================================================== *)

(** What the theorems below are stated with. *)
Module Spec.
Import JS Types Effects.

(** [Removed key id l l']: [l'] is [l] without the entries whose key is
    [id]; the other entries stay as they are, in their order. *)
Inductive Removed {A : Type} (key : A -> string) (id : string)
  : list A -> list A -> Prop :=
| Removed_nil : Removed key id [] []
| Removed_drop (x : A) (l l' : list A) :
    key x = id -> Removed key id l l' -> Removed key id (x :: l) l'
| Removed_keep (x : A) (l l' : list A) :
    key x <> id -> Removed key id l l' -> Removed key id (x :: l) (x :: l').

(** The head-to-toe display order. *)
Definition display_order : list ClothingCategory :=
  [Top; OnePiece; Outerwear; Bottom; Shoes; Accessory; Other].

(** A category that the display order names. *)
Definition listed (c : ClothingCategory) : bool :=
  existsb (String.eqb c) display_order.

(** An item whose category is not the name of a property that every
    object inherits ([constructor], [toString], ...): the categories for
    which the comparator of the outfit visual yields a number. *)
Definition plainly_named (item : ClothingItem.t) : Prop :=
  inherited (ClothingItem.category item) = false.

(** The wardrobe items a list of ids resolves to, in the order of the ids:
    for each id the first item of the wardrobe that carries it. *)
Definition resolved (wardrobe : list ClothingItem.t) (ids : list jsval)
  : list ClothingItem.t :=
  flat_map (fun id =>
              match id with
              | JStr s =>
                  match List.find
                          (fun item => String.eqb (ClothingItem.id item) s)
                          wardrobe with
                  | Some item => [item]
                  | None => []
                  end
              | _ => []
              end) ids.

(** The items of [l] in display order: category by category, then the
    items of the categories that the order does not name; within a
    category, and among those last ones, in the order of [l]. *)
Definition head_to_toe (l : list ClothingItem.t) : list ClothingItem.t :=
  flat_map (fun c => filter (fun item =>
                               String.eqb (ClothingItem.category item) c) l)
           display_order
  ++ filter (fun item => negb (listed (ClothingItem.category item))) l.

Definition weekdays : list string :=
  ["Monday"; "Tuesday"; "Wednesday"; "Thursday"; "Friday"].

(** How a call of the hosted model ends, as the adapter tells the cases
    apart. *)
Inductive call_end : Type :=
| NetworkError (e : error)
| EmptyResponse
| MalformedJSON
| Parsed (v : jsval)
| NeverSettles.

Definition end_of `{RT : Runtime} (r : reply) : call_end :=
  match r with
  | Rejects e => NetworkError e
  | Hangs => NeverSettles
  | Responds None => EmptyResponse
  | Responds (Some text) =>
      if nonempty text then
        match JSON_parse text with
        | Some v => Parsed v
        | None => MalformedJSON
        end
      else EmptyResponse
  end.

(** The world after a call that ended without exception, and after one
    whose exception the operation logged. *)
Definition called (req : request) (w : World) : World := emit (Called req) w.

Definition logged (req : request) (label : string) (e : error) (w : World)
  : World :=
  emit (ConsoleError label e) (emit (Called req) w).

(** The exception an operation's [try] block ends with, if any. *)
Definition thrown_by (no_text : option error) (k : call_end) : option error :=
  match k with
  | NetworkError e => Some e
  | EmptyResponse => no_text
  | MalformedJSON => Some SyntaxError
  | Parsed _ | NeverSettles => None
  end.

(** What an operation returns whose call ends as [k]: [result], unless
    the call never settles; then the operation does not return. *)
Definition returns (k : call_end) (result : jsval) : outcome jsval :=
  match k with
  | NeverSettles => Pending None
  | _ => Done result
  end.

(** The call fails: it is rejected, it returns no text, or its text is
    not JSON. *)
Definition call_fails `{RT : Runtime} (r : reply) : Prop :=
  match end_of r with
  | Parsed _ | NeverSettles => False
  | _ => True
  end.

(** [v.k] where it does not throw. *)
Definition prop_of (v : jsval) (k : string) : jsval :=
  match get v k with
  | inr x => x
  | inl _ => JUndefined
  end.

(** The outfit the outfit operations build from a parsed reply: its
    properties as they are, absent ones [undefined]; [null] when the reply
    is [null], which has no properties to read. *)
Definition outfit_from (v : jsval) (t : Z) (fallback_vibe : string) : jsval :=
  match v with
  | JNull | JUndefined => JNull
  | _ => JObj [("id", JStr (Number_toString t));
               ("itemIds", prop_of v "itemIds");
               ("vibe", or_else (prop_of v "vibe") (JStr fallback_vibe));
               ("explanation", prop_of v "explanation")]
  end.

(** The item an upload builds from the classification [metadata]: each
    property as the classification holds it, whatever it is, and its
    default where it is not set.  [None] when [metadata] is [null], which
    has no properties to read. *)
Definition classified (metadata : jsval) (t : Z) (image : string)
  : option ClothingItem.raw :=
  match metadata with
  | JNull | JUndefined => None
  | _ =>
      Some {| ClothingItem.id := Number_toString t;
              ClothingItem.imageUrl := image;
              ClothingItem.category :=
                or_else (prop_of metadata "category") (JStr "Other");
              ClothingItem.color :=
                or_else (prop_of metadata "color") (JStr "Unknown");
              ClothingItem.season :=
                or_else (prop_of metadata "season") (JStr "All");
              ClothingItem.description :=
                or_else (prop_of metadata "description")
                        (JStr "Added from closet") |}
  end.

(** The wishlist form is complete: name, price and image are not empty. *)
Definition form_complete (f : FormState) : bool :=
  (nonempty (name f) && nonempty (price f)
   && match previewImage f with
      | Some url => nonempty url
      | None => false
      end)%bool.

(** The day headings a render of the stylist shows, when it shows a plan. *)
Definition days_rendered (r : error + Stylist.View) : option (list string) :=
  match r with
  | inr view => option_map (map Stylist.day) (Stylist.plan_section view)
  | inl _ => None
  end.

(** ** The states of the coordinator *)

(** The worlds the application can be in: it starts with [App.initial],
    and its state changes by the callbacks of the coordinator only.  The
    delete button of an event asks for the deletion of that event; the
    dialog confirms it or lets it be. *)
Inductive reachable : World -> Prop :=
| reach_start (w : World) : app w = App.initial -> reachable w
| reach_elsewhere (w w' : World) :
    reachable w -> app w' = app w -> reachable w'
| reach_addWardrobeItem (w : World) (item : ClothingItem.raw) :
    reachable w -> reachable (snd (App.addWardrobeItem item w))
| reach_deleteWardrobeItem (w : World) (id : string) :
    reachable w -> reachable (snd (App.deleteWardrobeItem id w))
| reach_addToWishlist (w : World) (item : WishlistItem.t) :
    reachable w -> reachable (snd (App.addToWishlist item w))
| reach_deleteWishlistItem (w : World) (id : string) :
    reachable w -> reachable (snd (App.deleteWishlistItem id w))
| reach_saveNewEvent (w : World) (draft : App.Draft) (open : bool) :
    reachable w -> reachable (snd (App.saveNewEvent draft open w))
| reach_ask (w : World) (e : ScheduleEvent.t) :
    reachable w -> In e (events (app w)) ->
    reachable (snd (App.setEventToDelete (Some (ScheduleEvent.id e)) w))
| reach_keep (w : World) :
    reachable w -> reachable (snd (App.setEventToDelete None w))
| reach_confirmDeleteEvent (w : World) :
    reachable w -> reachable (snd (App.confirmDeleteEvent w)).

End Spec.

(* ================================================================== *)
(** * Example data *)
(* ================================================================== *)

Module Examples.
Import JS Types Effects.

Definition tee : ClothingItem.t :=
  {| ClothingItem.id := "1"; ClothingItem.imageUrl := "data:image/jpeg;base64,AAAA";
     ClothingItem.category := Top; ClothingItem.color := "Navy blue";
     ClothingItem.season := "Summer"; ClothingItem.description := "Boxy tee" |}.

Definition jeans : ClothingItem.t :=
  {| ClothingItem.id := "2"; ClothingItem.imageUrl := "data:image/jpeg;base64,BBBB";
     ClothingItem.category := Bottom; ClothingItem.color := "Blue";
     ClothingItem.season := "All"; ClothingItem.description := "Straight jeans" |}.

Definition sneakers : ClothingItem.t :=
  {| ClothingItem.id := "3"; ClothingItem.imageUrl := "data:image/jpeg;base64,CCCC";
     ClothingItem.category := Shoes; ClothingItem.color := "White";
     ClothingItem.season := "All"; ClothingItem.description := "Low sneakers" |}.

Definition coat : ClothingItem.t :=
  {| ClothingItem.id := "4"; ClothingItem.imageUrl := "data:image/jpeg;base64,DDDD";
     ClothingItem.category := Outerwear; ClothingItem.color := "Camel";
     ClothingItem.season := "Winter"; ClothingItem.description := "Wool coat" |}.

Definition scarf : ClothingItem.t :=
  {| ClothingItem.id := "5"; ClothingItem.imageUrl := "data:image/jpeg;base64,EEEE";
     ClothingItem.category := Accessory; ClothingItem.color := "Red";
     ClothingItem.season := "Winter"; ClothingItem.description := "Knit scarf" |}.

Definition closet : list ClothingItem.t := [tee; jeans; sneakers; coat; scarf].

Definition coffee : ScheduleEvent.t :=
  {| ScheduleEvent.id := "1"; ScheduleEvent.title := "Coffee Date";
     ScheduleEvent.time := "10:00"; ScheduleEvent.icon := "c" |}.

Definition work : ScheduleEvent.t :=
  {| ScheduleEvent.id := "2"; ScheduleEvent.title := "Work";
     ScheduleEvent.time := "14:00"; ScheduleEvent.icon := "w" |}.

Definition wish : WishlistItem.t :=
  {| WishlistItem.id := "7"; WishlistItem.name := "Red Silk Dress ";
     WishlistItem.price := num 80; WishlistItem.imageUrl := "data:image/jpeg;base64,FFFF";
     WishlistItem.link := None |}.

(** The closet as the coordinator stores it. *)
Definition stored_closet : list ClothingItem.raw :=
  map ClothingItem.stored closet.

(** A world: the clock, what the hosted model answers to every request,
    the collections and the pending event id. *)
Definition world (answer : reply) (items : list ClothingItem.t)
           (evs : list ScheduleEvent.t) (pending : option string) : World :=
  {| now := 1700000000000;
     gemini := fun _ => answer;
     trace := [];
     app := {| wardrobe := map ClothingItem.stored items;
               wishlist := [wish]; events := evs;
               eventToDelete := pending |};
     isAnalyzing := false;
     form := {| name := EmptyString; price := EmptyString;
                brand := EmptyString; previewImage := None;
                analysisResult := None |} |}.

Definition offline : reply := Rejects (Failure "Failed to fetch").

(** The same world with the wishlist form filled in. *)
Definition filled (w : World) (n p b : string) (image : option string) : World :=
  with_form (fun _ => {| name := n; price := p; brand := b;
                         previewImage := image; analysisResult := None |}) w.

Definition sunny_noon : WeatherData.t :=
  {| WeatherData.temperature := Fin (43 # 2);
     WeatherData.weatherCode := num 1;
     WeatherData.isDay := true |}.

Definition rainy_night : WeatherData.t :=
  {| WeatherData.temperature := num 9;
     WeatherData.weatherCode := num 63;
     WeatherData.isDay := false |}.

(** The stylist in the weekly mode, before a plan is asked for. *)
Definition busy_week : Stylist.State :=
  {| Stylist.vibeInput := "Busy Week"; Stylist.mode := Stylist.WEEKLY;
     Stylist.generatedOutfit := JNull; Stylist.weeklyPlan := JNull;
     Stylist.isLoading := false |}.

Definition outfit_for (ids : list string) (why : string) : jsval :=
  JObj [("itemIds", JArr (map JStr ids)); ("explanation", JStr why)].

(** A plan that lists its days from Monday to Friday. *)
Definition week : list (string * jsval) :=
  [("Monday", outfit_for ["1"; "2"; "3"] "Easy start");
   ("Tuesday", outfit_for ["4"; "1"; "2"; "3"; "5"] "Layers");
   ("Wednesday", outfit_for ["1"; "2"] "Midweek");
   ("Thursday", outfit_for ["2"; "3"] "Almost there");
   ("Friday", outfit_for ["5"; "9"] "Dress down")].

(** The text of a plan that lists its days by the alphabet. *)
Definition alphabetical_plan : string :=
  Sample.json
    ("{'Friday':{'itemIds':['5','9'],'explanation':'Dress down'},"
     +++ "'Monday':{'itemIds':['1','2','3'],'explanation':'Easy start'},"
     +++ "'Thursday':{'itemIds':['2','3'],'explanation':'Almost there'},"
     +++ "'Tuesday':{'itemIds':['4','1','2','3','5'],'explanation':'Layers'},"
     +++ "'Wednesday':{'itemIds':['1','2'],'explanation':'Midweek'}}").

End Examples.

(* ================================================================== *)
(** * Further specifications *)
(* ================================================================== *)

Module Facts.
Import JS Types Effects Spec.

(** [lacks c s]: the character [c] does not occur in [s]. *)
Fixpoint lacks (c : ascii) (s : string) : bool :=
  match s with
  | EmptyString => true
  | String c' s' => (negb (Ascii.eqb c' c) && lacks c s')%bool
  end.

(** The first word of a color: what stands before its first space. *)
Definition first_word (color : string) : string :=
  hd EmptyString (split " " color).

(** [one_call req label w w']: between [w] and [w'] the hosted model was
    called once, with [req]; at most one exception was logged, under
    [label]; the clock, the oracle and all React state are as they were. *)
Definition one_call (req : request) (label : string) (w w' : World) : Prop :=
  now w' = now w /\ gemini w' = gemini w /\ app w' = app w
  /\ isAnalyzing w' = isAnalyzing w /\ form w' = form w
  /\ (trace w' = trace w ++ [Called req]
      \/ exists e, trace w' = trace w ++ [Called req; ConsoleError label e]).

(** The place of a category in the display order, from 0 for [Top] to 6
    for [Other]; 7 for a category that the order does not name. *)
Fixpoint place_in (order : list ClothingCategory) (c : ClothingCategory)
  : nat :=
  match order with
  | [] => O
  | c' :: rest => if String.eqb c c' then O else S (place_in rest c)
  end.

Definition place (c : ClothingCategory) : nat := place_in display_order c.

(** [no_later a b]: the display order does not put [b] ahead of [a]. *)
Definition no_later (a b : ClothingItem.t) : Prop :=
  (place (ClothingItem.category a) <= place (ClothingItem.category b))%nat.

(** An hour or a minute as a time input writes it: in two digits. *)
Definition two_digits (n : Z) : string :=
  if n <? 10 then "0" +++ Number_toString n else Number_toString n.

(** What the weather card shows for the state of the weather.  The card
    takes the weather at its declared types: there is no card to speak of
    ([None]) where the weather stored holds something else than numbers. *)
Definition weather_card (st : App.WeatherState)
  : option WeatherWidget.View :=
  match App.weather st with
  | None =>
      Some (WeatherWidget.WeatherWidget None (App.weatherLoading st)
              (App.weatherError st))
  | Some stored =>
      option_map
        (fun current =>
           WeatherWidget.WeatherWidget (Some current) (App.weatherLoading st)
             (App.weatherError st))
        (WeatherData.typed stored)
  end.

(** Ids that can be deleted: every event has an id that is not empty, and
    so has the pending id, when there is one. *)
Definition ids_in_order (s : AppState) : Prop :=
  Forall (fun e => nonempty (ScheduleEvent.id e) = true) (events s)
  /\ forall id, eventToDelete s = Some id -> nonempty id = true.

(** The rank of an item: what [categoryOrder[c] || 99] is for its category
    when that is a number. *)
Definition rank (item : ClothingItem.t) : Z :=
  match Stylist.order_of (ClothingItem.category item) with
  | Some n => n
  | None => 0
  end.

(** An operation over the wardrobe waits for ever: the wardrobe is not
    empty, so the operation calls the hosted model with [req], and the
    call never settles. *)
Definition waits `{RT : Runtime} (wardrobe : list ClothingItem.t)
           (req : request) (w : World) : bool :=
  match wardrobe, end_of (gemini w req) with
  | _ :: _, NeverSettles => true
  | _, _ => false
  end.

(** The classification never arrives. *)
Definition never_classified `{RT : Runtime} (image : string) (w : World)
  : bool :=
  match end_of (gemini w (GeminiService.analysis_request image)) with
  | NeverSettles => true
  | _ => false
  end.

(** What the two operations of the adapter return to a chosen photo,
    when they return. *)
Definition classification_of `{RT : Runtime} (image : string) (w : World)
  : jsval :=
  match end_of (gemini w (GeminiService.analysis_request image)) with
  | Parsed v => v
  | _ => GeminiService.analysis_fallback
  end.

Definition verdict_of `{RT : Runtime} (image : string)
           (wardrobe : list ClothingItem.t) (w : World) : jsval :=
  match wardrobe with
  | [] => GeminiService.similarity false "Your wardrobe is empty!"
  | _ :: _ =>
      match end_of (gemini w (GeminiService.similarity_request image
                                wardrobe)) with
      | Parsed v => v
      | EmptyResponse => GeminiService.similarity false "Go for it!"
      | _ => GeminiService.similarity false
               "Couldn't check for duplicates, but trust your gut!"
      end
  end.

(** The name a chosen photo fills in, from its classification: the color
    and the category as texts, with a space between them, where both are
    set; else the description as it is, where it is set; else [New Item].
    [None], and the name stays empty, where the classification is [null]
    or the color or the category cannot be made a text. *)
Definition autofilled (show : number -> string) (metadata : jsval)
  : option jsval :=
  match metadata with
  | JNull | JUndefined => None
  | _ =>
      let color := prop_of metadata "color" in
      let both :=
        if truthy color then prop_of metadata "category" else color in
      if truthy both then
        match ToString show color, ToString show both with
        | inr c, inr k => Some (JStr (c +++ " " +++ k))
        | _, _ => None
        end
      else Some (or_else (prop_of metadata "description") (JStr "New Item"))
  end.

(** The verdict of the similarity check as the form shows it: nothing,
    where the verdict is [null]. *)
Definition verdict_shown (verdict : jsval) : option (jsval * jsval) :=
  match verdict with
  | JNull | JUndefined => None
  | _ => Some (prop_of verdict "isSimilar", prop_of verdict "explanation")
  end.

End Facts.

(* ================================================================== *)
(** * Theorems *)
(* ================================================================== *)

Import JS Types Effects Spec Facts.

(** ** Running tasks *)

Lemma bind_done {A B : Type} (c : Task A) (k : A -> Task B) (w w' : World)
      (a : A) :
  c w = (Done a, w') -> bind c k w = k a w'.
Proof. intros H. unfold bind. rewrite H. reflexivity. Qed.

Lemma bind_threw {A B : Type} (c : Task A) (k : A -> Task B) (w w' : World)
      (e : error) :
  c w = (Threw e, w') -> bind c k w = (Threw e, w').
Proof. intros H. unfold bind. rewrite H. reflexivity. Qed.

(** Every call of the hosted model is on the trace. *)
Lemma generateContent_is_traced (req : request) (w : World) :
  trace (snd (generateContent req w)) = trace w ++ [Called req].
Proof.
  unfold generateContent. destruct (gemini w req) as [e | text |]; reflexivity.
Qed.

(** ** Deleting from a collection *)

Section Removal.
Context {A : Type} (key : A -> string).

Lemma filter_Removed (id : string) (l : list A) :
  Removed key id l (filter (fun x => negb (String.eqb (key x) id)) l).
Proof.
  induction l as [| x l IH]; simpl.
  - constructor.
  - destruct (String.eqb_spec (key x) id) as [E | N]; simpl.
    + apply Removed_drop; assumption.
    + apply Removed_keep; assumption.
Qed.

(** [Removed] determines its result. *)
Lemma Removed_functional (id : string) (l l1 l2 : list A) :
  Removed key id l l1 -> Removed key id l l2 -> l1 = l2.
Proof.
  intros H1. revert l2.
  induction H1 as [| x l l' E _ IH | x l l' N _ IH]; intros l2 H2;
    inversion H2; subst; try congruence; auto.
  f_equal. auto.
Qed.

(** What is left carries another id, and was there before. *)
Lemma Removed_In (id : string) (l l' : list A) (x : A) :
  Removed key id l l' -> (In x l' <-> In x l /\ key x <> id).
Proof.
  induction 1 as [| y l l' E _ IH | y l l' N _ IH]; simpl.
  - tauto.
  - rewrite IH. split.
    + tauto.
    + intros [[-> | Hin] Hx]; [congruence | tauto].
  - rewrite IH. split.
    + intros [-> | [Hin Hx]]; auto.
    + intros [[-> | Hin] Hx]; auto.
Qed.

(** Where no entry carries the id, nothing goes. *)
Lemma Removed_absent (id : string) (l l' : list A) :
  Removed key id l l' -> Forall (fun x => key x <> id) l -> l' = l.
Proof.
  induction 1 as [| y l l' E _ IH | y l l' N _ IH]; intros HF.
  - reflexivity.
  - inversion HF; subst. congruence.
  - inversion HF; subst. f_equal. auto.
Qed.

End Removal.

(** *** The ids of the events *)

(** The clock prints as a text that is not empty. *)
Lemma Number_toString_nonempty (z : Z) : nonempty (Number_toString z) = true.
Proof.
  unfold Number_toString.
  destruct (Z.to_int z) as [d | d]; simpl; [| reflexivity].
  destruct d; reflexivity.
Qed.

Lemma Forall_filter_keeps {A : Type} (P : A -> Prop) (p : A -> bool)
      (l : list A) :
  Forall P l -> Forall P (filter p l).
Proof.
  intros H. apply Forall_forall. intros x Hx.
  apply filter_In in Hx. destruct Hx as [Hx _].
  revert x Hx. apply Forall_forall. exact H.
Qed.

(** Every state the application can be in has its ids in order. *)
Lemma reachable_ids_in_order (w : World) :
  reachable w -> ids_in_order (app w).
Proof.
  induction 1 as [w H0 | w w' _ IH Happ | w item _ IH | w id _ IH
                  | w item _ IH | w id _ IH | w draft open _ IH
                  | w e _ IH Hin | w _ IH | w _ IH].
  - rewrite H0. split.
    + repeat constructor.
    + intros id H. discriminate.
  - rewrite Happ. exact IH.
  - exact IH.
  - exact IH.
  - exact IH.
  - exact IH.
  - unfold App.saveNewEvent.
    destruct (nonempty (App.draft_title draft)); simpl; [| exact IH].
    destruct IH as [Hev Hpending]. split; [| exact Hpending].
    apply Forall_app. split; [exact Hev |].
    constructor; [| constructor]. apply Number_toString_nonempty.
  - destruct IH as [Hev _]. split; [exact Hev |].
    simpl. intros id H. injection H as <-.
    revert e Hin. apply Forall_forall. exact Hev.
  - destruct IH as [Hev _]. split; [exact Hev |].
    simpl. intros id H. discriminate.
  - unfold App.confirmDeleteEvent.
    destruct (eventToDelete (app w)) as [pending |] eqn:Hp; [| exact IH].
    destruct (nonempty pending); [| exact IH].
    destruct IH as [Hev _]. simpl. split.
    + apply Forall_filter_keeps. exact Hev.
    + intros id H. discriminate.
Qed.

(** C3.  Deleting removes the entries whose id is the given one and no
    other: every entry with another id stays, unchanged and in its place
    among the others.  [deleteWardrobeItem] and [deleteWishlistItem] do so
    for every id.  [confirmDeleteEvent] does so for the pending id in every
    state the application can be in, and clears the pending id: the ids of
    the events are not empty there, and the pending id is one of them.  In
    any state whatever it does so for a pending id that is not empty, and
    changes nothing without a pending id or with an empty one.  No deletion
    touches another collection. *)
Theorem delete_removes_matching_entries (w : World) (id : string) :
  let event_is_removed :=
    exists w',
      App.confirmDeleteEvent w = (Done tt, w')
      /\ Removed ScheduleEvent.id id (events (app w)) (events (app w'))
      /\ eventToDelete (app w') = None
      /\ wardrobe (app w') = wardrobe (app w)
      /\ wishlist (app w') = wishlist (app w) in
  (exists w',
      App.deleteWardrobeItem id w = (Done tt, w')
      /\ Removed ClothingItem.id id (wardrobe (app w)) (wardrobe (app w'))
      /\ wishlist (app w') = wishlist (app w)
      /\ events (app w') = events (app w))
  /\ (exists w',
         App.deleteWishlistItem id w = (Done tt, w')
         /\ Removed WishlistItem.id id (wishlist (app w)) (wishlist (app w'))
         /\ wardrobe (app w') = wardrobe (app w)
         /\ events (app w') = events (app w))
  /\ (reachable w -> eventToDelete (app w) = Some id -> event_is_removed)
  /\ (eventToDelete (app w) = Some id -> nonempty id = true ->
      event_is_removed)
  /\ (eventToDelete (app w) = None \/ eventToDelete (app w) = Some EmptyString ->
      App.confirmDeleteEvent w = (Done tt, w)).
Proof.
  cbv zeta.
  assert (Hevent : eventToDelete (app w) = Some id -> nonempty id = true ->
                   exists w',
                     App.confirmDeleteEvent w = (Done tt, w')
                     /\ Removed ScheduleEvent.id id (events (app w))
                          (events (app w'))
                     /\ eventToDelete (app w') = None
                     /\ wardrobe (app w') = wardrobe (app w)
                     /\ wishlist (app w') = wishlist (app w)).
  { intros Hp Hne. unfold App.confirmDeleteEvent. rewrite Hp, Hne.
    eexists. split; [reflexivity |]. simpl.
    repeat split. apply filter_Removed. }
  repeat apply conj.
  - eexists. split; [reflexivity |]. simpl.
    repeat split. apply filter_Removed.
  - eexists. split; [reflexivity |]. simpl.
    repeat split. apply filter_Removed.
  - intros Hreach Hp. apply Hevent; [exact Hp |].
    apply (proj2 (reachable_ids_in_order w Hreach)). exact Hp.
  - exact Hevent.
  - intros [Hp | Hp]; unfold App.confirmDeleteEvent; rewrite Hp; reflexivity.
Qed.

(** The application has started, and the delete button of the coffee date
    was pressed: confirming leaves the other event. *)
Lemma delete_removes_matching_entries_witness :
  let started :=
    {| now := 1700000000000; gemini := fun _ => Examples.offline;
       trace := []; app := App.initial; isAnalyzing := false;
       form := Wishlist.blank_form |} in
  let asked := snd (App.setEventToDelete (Some "1") started) in
  reachable asked
  /\ map ScheduleEvent.title (events (app (snd (App.confirmDeleteEvent asked))))
     = ["Work"].
Proof.
  cbv zeta.
  set (started := {| now := 1700000000000; gemini := fun _ => Examples.offline;
                     trace := []; app := App.initial; isAnalyzing := false;
                     form := Wishlist.blank_form |}).
  assert (Hreach : reachable (snd (App.setEventToDelete (Some "1") started))).
  { apply (reach_ask started
             {| ScheduleEvent.id := "1"; ScheduleEvent.title := "Coffee Date";
                ScheduleEvent.time := "10:00"; ScheduleEvent.icon := "☕️" |}).
    - apply reach_start. reflexivity.
    - left. reflexivity. }
  split; [exact Hreach |].
  destruct (delete_removes_matching_entries
              (snd (App.setEventToDelete (Some "1") started)) "1")
    as (_ & _ & H & _).
  destruct (H Hreach eq_refl) as (w' & E & R & _).
  rewrite E. simpl.
  rewrite (Removed_functional ScheduleEvent.id "1" _ _ _ R
             (filter_Removed ScheduleEvent.id "1" _)).
  reflexivity.
Defined.

(** ** The wardrobe's filters *)

Section Filters.
Context {A : Type}.

Lemma filter_twice (p : A -> bool) (l : list A) :
  filter p (filter p l) = filter p l.
Proof.
  induction l as [| x l IH]; simpl; [reflexivity |].
  destruct (p x) eqn:E; simpl; rewrite ?E, IH; reflexivity.
Qed.

Lemma filter_andb (p q : A -> bool) (l : list A) :
  filter (fun x => (p x && q x)%bool) l = filter p (filter q l).
Proof.
  induction l as [| x l IH]; simpl; [reflexivity |].
  destruct (q x) eqn:Eq, (p x) eqn:Ep; simpl; rewrite ?Ep, IH; reflexivity.
Qed.

Lemma filter_swap (p q : A -> bool) (l : list A) :
  filter p (filter q l) = filter q (filter p l).
Proof.
  rewrite <- !filter_andb. apply filter_ext. intros x. apply andb_comm.
Qed.

End Filters.

(** C5.  The category filter and the color filter are each idempotent,
    and so is their combination.  Applying both is applying one to the
    result of the other, in either order, and an item is in the result of
    both exactly when it is in the result of each. *)
Theorem filters_idempotent_and_composable
        (items : list ClothingItem.t) (activeCategory : Wardrobe.CategoryFilter)
        (activeColor : option string) :
  let by_category := Wardrobe.filteredItems items activeCategory None in
  let by_color := Wardrobe.filteredItems items Wardrobe.All activeColor in
  let both := Wardrobe.filteredItems items activeCategory activeColor in
  Wardrobe.filteredItems by_category activeCategory None = by_category
  /\ Wardrobe.filteredItems by_color Wardrobe.All activeColor = by_color
  /\ Wardrobe.filteredItems both activeCategory activeColor = both
  /\ both = Wardrobe.filteredItems by_color activeCategory None
  /\ both = Wardrobe.filteredItems by_category Wardrobe.All activeColor
  /\ (forall item, In item both <-> In item by_category /\ In item by_color).
Proof.
  cbv zeta. unfold Wardrobe.filteredItems.
  repeat apply conj.
  - apply filter_twice.
  - apply filter_twice.
  - apply filter_twice.
  - rewrite <- filter_andb. apply filter_ext. intros x.
    unfold Wardrobe.matchCat, Wardrobe.All, Wardrobe.matchColor. simpl.
    rewrite !andb_true_r. reflexivity.
  - rewrite <- filter_andb. apply filter_ext. intros x.
    unfold Wardrobe.matchCat, Wardrobe.All, Wardrobe.matchColor. simpl.
    rewrite !andb_true_r. apply andb_comm.
  - intros item. rewrite !filter_In.
    unfold Wardrobe.matchCat, Wardrobe.All, Wardrobe.matchColor. simpl.
    rewrite andb_true_iff, !andb_true_r. tauto.
Qed.

(** ** The weather card *)

Lemma number_le_3_60 (n : number) :
  number_le n (num 60) = false -> number_le n (num 3) = false.
Proof.
  destruct n as [| q | |]; simpl; auto.
  intros H. destruct (Qle_bool q (inject_Z 3)) eqn:E; [| reflexivity].
  apply Qle_bool_iff in E.
  assert (L : (q <= inject_Z 60)%Q).
  { eapply Qle_trans; [exact E |]. rewrite <- Zle_Qle. lia. }
  apply Qle_bool_iff in L. congruence.
Qed.

Lemma number_lt_not_le (a b : number) :
  number_lt a b = true -> number_le b a = false.
Proof.
  destruct a, b; simpl; try congruence.
  intros H. apply negb_true_iff in H. exact H.
Qed.

(** C8.  Where the card is shown (loaded, no error), a weather code of at
    most 3 shows the sun by day and the moon by night, and a weather code
    above 60 shows the rain, by day and by night. *)
Theorem weather_icon_follows_code (weather : WeatherData.t) :
  (number_le (WeatherData.weatherCode weather) (num 3) = true ->
   WeatherWidget.icon_shown (WeatherWidget.WeatherWidget (Some weather) false None)
   = Some (if WeatherData.isDay weather then "☀️" else "🌙"))
  /\ (number_lt (num 60) (WeatherData.weatherCode weather) = true ->
      WeatherWidget.icon_shown
        (WeatherWidget.WeatherWidget (Some weather) false None)
      = Some "🌧️").
Proof.
  unfold WeatherWidget.WeatherWidget.
  destruct (WeatherWidget.getGreeting (WeatherData.temperature weather))
    as [text advice].
  unfold WeatherWidget.icon_shown, WeatherWidget.icon_of.
  split; intros H.
  - rewrite H. reflexivity.
  - apply number_lt_not_le in H.
    rewrite (number_le_3_60 _ H), H. reflexivity.
Qed.

(** The code is 1 at noon; it is 63 at night. *)
Lemma weather_icon_follows_code_witness :
  WeatherWidget.icon_shown
    (WeatherWidget.WeatherWidget (Some Examples.sunny_noon) false None)
  = Some "☀️"
  /\ WeatherWidget.icon_shown
       (WeatherWidget.WeatherWidget (Some Examples.rainy_night) false None)
     = Some "🌧️".
Proof.
  split.
  - apply (proj1 (weather_icon_follows_code Examples.sunny_noon)).
    reflexivity.
  - apply (proj2 (weather_icon_follows_code Examples.rainy_night)).
    reflexivity.
Defined.

(** ** The adapter *)

Section AdapterRuns.
Context `{RT : Runtime}.

Ltac run_call w req :=
  unfold end_of, called, logged, thrown_by, try_catch, bind, generateContent,
    GeminiService.text_of, parse, console_error, perform, throw, ret;
  destruct (gemini w req) as [e | [text |] |]; simpl; try reflexivity;
  destruct (nonempty text); simpl; try reflexivity;
  destruct (JSON_parse text) as [v |]; simpl; try reflexivity.

Lemma analyzeClothingItem_run (image : string) (w : World) :
  let req := GeminiService.analysis_request image in
  let k := end_of (gemini w req) in
  GeminiService.analyzeClothingItem image w
  = match k, thrown_by (Some (Failure "No data returned")) k with
    | NeverSettles, _ => (Pending None, called req w)
    | Parsed v, _ => (Done v, called req w)
    | _, Some e =>
        (Done GeminiService.analysis_fallback,
         logged req "Error analyzing clothing:" e w)
    | _, None => (Done GeminiService.analysis_fallback, called req w)
    end.
Proof.
  cbv zeta. unfold GeminiService.analyzeClothingItem.
  run_call w (GeminiService.analysis_request image).
Qed.

Lemma outfit_of_run (v : jsval) (fallback_vibe : string) (w : World) :
  GeminiService.outfit_of v fallback_vibe w
  = match v with
    | JNull | JUndefined => (Threw TypeError, w)
    | _ => (Done (outfit_from v (now w) fallback_vibe), w)
    end.
Proof.
  unfold GeminiService.outfit_of, outfit_from, prop_of, bind, Date_now, lift.
  destruct v; simpl; try reflexivity.
  destruct (lookup "itemIds" props), (lookup "vibe" props),
    (lookup "explanation" props); reflexivity.
Qed.

Lemma generateOutfit_run (item : ClothingItem.t) (rest : list ClothingItem.t)
      (weather vibe : string) (w : World) :
  let req := GeminiService.outfit_request (item :: rest) weather vibe in
  let k := end_of (gemini w req) in
  GeminiService.generateOutfit (item :: rest) weather vibe w
  = match k with
    | Parsed JNull | Parsed JUndefined =>
        (Done JNull, logged req "Outfit generation error:" TypeError w)
    | Parsed v => (Done (outfit_from v (now w) vibe), called req w)
    | EmptyResponse => (Done JNull, called req w)
    | NetworkError e =>
        (Done JNull, logged req "Outfit generation error:" e w)
    | MalformedJSON =>
        (Done JNull, logged req "Outfit generation error:" SyntaxError w)
    | NeverSettles => (Pending None, called req w)
    end.
Proof.
  cbv zeta. unfold GeminiService.generateOutfit.
  run_call w (GeminiService.outfit_request (item :: rest) weather vibe).
  rewrite outfit_of_run. destruct v; reflexivity.
Qed.

Lemma generateOutfitFromImage_run (item : ClothingItem.t)
      (rest : list ClothingItem.t) (image : string) (w : World) :
  let req := GeminiService.inspo_request (item :: rest) image in
  let k := end_of (gemini w req) in
  GeminiService.generateOutfitFromImage (item :: rest) image w
  = match k with
    | Parsed JNull | Parsed JUndefined =>
        (Done JNull, logged req "Inspo match error:" TypeError w)
    | Parsed v => (Done (outfit_from v (now w) "Inspo Match"), called req w)
    | EmptyResponse => (Done JNull, called req w)
    | NetworkError e => (Done JNull, logged req "Inspo match error:" e w)
    | MalformedJSON =>
        (Done JNull, logged req "Inspo match error:" SyntaxError w)
    | NeverSettles => (Pending None, called req w)
    end.
Proof.
  cbv zeta. unfold GeminiService.generateOutfitFromImage.
  run_call w (GeminiService.inspo_request (item :: rest) image).
  rewrite outfit_of_run. destruct v; reflexivity.
Qed.

Lemma generateWeeklyPlan_run (item : ClothingItem.t)
      (rest : list ClothingItem.t) (weather theme : string) (w : World) :
  let req := GeminiService.plan_request (item :: rest) weather theme in
  let k := end_of (gemini w req) in
  GeminiService.generateWeeklyPlan (item :: rest) weather theme w
  = match k with
    | Parsed v => (Done v, called req w)
    | EmptyResponse => (Done JNull, called req w)
    | NetworkError e => (Done JNull, logged req "Weekly plan error:" e w)
    | MalformedJSON =>
        (Done JNull, logged req "Weekly plan error:" SyntaxError w)
    | NeverSettles => (Pending None, called req w)
    end.
Proof.
  cbv zeta. unfold GeminiService.generateWeeklyPlan.
  run_call w (GeminiService.plan_request (item :: rest) weather theme).
Qed.

Lemma checkSimilarity_run (item : ClothingItem.t)
      (rest : list ClothingItem.t) (image : string) (w : World) :
  let req := GeminiService.similarity_request image (item :: rest) in
  let k := end_of (gemini w req) in
  let gut := GeminiService.similarity false
               "Couldn't check for duplicates, but trust your gut!" in
  GeminiService.checkSimilarity image (item :: rest) w
  = match k with
    | Parsed v => (Done v, called req w)
    | EmptyResponse =>
        (Done (GeminiService.similarity false "Go for it!"), called req w)
    | NetworkError e => (Done gut, logged req "Similarity check error:" e w)
    | MalformedJSON =>
        (Done gut, logged req "Similarity check error:" SyntaxError w)
    | NeverSettles => (Pending None, called req w)
    end.
Proof.
  cbv zeta. unfold GeminiService.checkSimilarity.
  run_call w (GeminiService.similarity_request image (item :: rest)).
Qed.

End AdapterRuns.

(** C10.  With an empty wardrobe the three outfit operations return
    [null] and the similarity check returns [isSimilar = false] with its
    fixed explanation.  The world is left as it was: nothing is added to
    the trace, so the hosted model is not called. *)
Theorem empty_wardrobe_returns_without_a_call
        `{RT : Runtime} (weather vibe theme image : string) (w : World) :
  GeminiService.generateOutfit [] weather vibe w = (Done JNull, w)
  /\ GeminiService.generateOutfitFromImage [] image w = (Done JNull, w)
  /\ GeminiService.generateWeeklyPlan [] weather theme w = (Done JNull, w)
  /\ GeminiService.checkSimilarity image [] w
     = (Done (JObj [("isSimilar", JBool false);
                    ("explanation", JStr "Your wardrobe is empty!")]), w).
Proof. repeat split. Qed.

(** With an item in the wardrobe the same operations do call: the request
    is the last entry of the trace, or the one before the logged error. *)
Lemma stocked_wardrobe_calls
      `{RT : Runtime} (item : ClothingItem.t) (rest : list ClothingItem.t)
      (weather theme : string) (w : World) :
  In (Called (GeminiService.plan_request (item :: rest) weather theme))
     (trace (snd (GeminiService.generateWeeklyPlan (item :: rest) weather
                    theme w))).
Proof.
  rewrite generateWeeklyPlan_run. cbv zeta.
  destruct (end_of _); simpl; rewrite ?in_app_iff; simpl; tauto.
Qed.

(** C1 (amended).  No operation of the adapter lets an exception out,
    whatever the input and however the call ends.  When the call ends in a
    network error, an empty response or malformed JSON, each operation
    returns its fixed default: the fallback classification, [null] for the
    three outfit operations, one of two fixed verdicts for the similarity
    check.  When the reply is well-formed JSON the operation returns what
    was parsed, a missing field included: the classification, the plan and
    the similarity verdict as parsed, the outfit built from the parsed
    properties with absent ones undefined ([null] when the reply is
    [null]).  With an empty wardrobe the four operations over the wardrobe
    return their fixed value for that case.  A call that never settles
    leaves its operation waiting: it returns nothing, and throws nothing
    either. *)
Theorem adapter_catches_every_failure
        `{RT : Runtime} (w : World) (image weather vibe theme : string)
        (wardrobe : list ClothingItem.t) :
  let gut := GeminiService.similarity false
               "Couldn't check for duplicates, but trust your gut!" in
  let unless_empty (fixed : jsval) (req : request)
                   (result : call_end -> jsval) :=
    match wardrobe with
    | [] => Done fixed
    | _ :: _ =>
        returns (end_of (gemini w req)) (result (end_of (gemini w req)))
    end in
  fst (GeminiService.analyzeClothingItem image w)
  = returns (end_of (gemini w (GeminiService.analysis_request image)))
      match end_of (gemini w (GeminiService.analysis_request image)) with
      | Parsed v => v
      | _ => GeminiService.analysis_fallback
      end
  /\ fst (GeminiService.generateOutfit wardrobe weather vibe w)
     = unless_empty JNull
         (GeminiService.outfit_request wardrobe weather vibe)
         (fun k => match k with
                   | Parsed v => outfit_from v (now w) vibe
                   | _ => JNull
                   end)
  /\ fst (GeminiService.generateOutfitFromImage wardrobe image w)
     = unless_empty JNull
         (GeminiService.inspo_request wardrobe image)
         (fun k => match k with
                   | Parsed v => outfit_from v (now w) "Inspo Match"
                   | _ => JNull
                   end)
  /\ fst (GeminiService.generateWeeklyPlan wardrobe weather theme w)
     = unless_empty JNull
         (GeminiService.plan_request wardrobe weather theme)
         (fun k => match k with
                   | Parsed v => v
                   | _ => JNull
                   end)
  /\ fst (GeminiService.checkSimilarity image wardrobe w)
     = unless_empty
         (GeminiService.similarity false "Your wardrobe is empty!")
         (GeminiService.similarity_request image wardrobe)
         (fun k => match k with
                   | Parsed v => v
                   | EmptyResponse =>
                       GeminiService.similarity false "Go for it!"
                   | _ => gut
                   end).
Proof.
  cbv zeta. repeat apply conj.
  - rewrite analyzeClothingItem_run. cbv zeta.
    destruct (end_of _); reflexivity.
  - destruct wardrobe as [| item rest]; [reflexivity |].
    rewrite generateOutfit_run. cbv zeta.
    destruct (end_of _) as [e | | | v |]; try reflexivity.
    destruct v; reflexivity.
  - destruct wardrobe as [| item rest]; [reflexivity |].
    rewrite generateOutfitFromImage_run. cbv zeta.
    destruct (end_of _) as [e | | | v |]; try reflexivity.
    destruct v; reflexivity.
  - destruct wardrobe as [| item rest]; [reflexivity |].
    rewrite generateWeeklyPlan_run. cbv zeta.
    destruct (end_of _); reflexivity.
  - destruct wardrobe as [| item rest]; [reflexivity |].
    rewrite checkSimilarity_run. cbv zeta.
    destruct (end_of _); reflexivity.
Qed.

(** C1 as stated fails on a missing field.  The reply is well-formed JSON
    without [season] and [description]: the classification returned is the
    reply as parsed, not the fallback.  The reply to the outfit request
    has no [itemIds]: the outfit returned is not [null], and its [itemIds]
    are undefined. *)
Lemma missing_field_is_not_defaulted :
  let reply := Responds (Some (Sample.json "{'category':'Top','color':'Navy'}")) in
  let w := Examples.world reply Examples.closet [] None in
  fst (GeminiService.analyzeClothingItem (RT := Sample.runtime)
         (ClothingItem.imageUrl Examples.tee) w)
  = Done (JObj [("category", JStr "Top"); ("color", JStr "Navy")])
  /\ JObj [("category", JStr "Top"); ("color", JStr "Navy")]
     <> GeminiService.analysis_fallback
  /\ fst (GeminiService.generateOutfit (RT := Sample.runtime)
            Examples.closet "Temperature is 20°C, clear skies." "City Walk" w)
     = Done (JObj [("id", JStr "1700000000000");
                   ("itemIds", JUndefined);
                   ("vibe", JStr "City Walk");
                   ("explanation", JUndefined)]).
Proof.
  cbv zeta. repeat apply conj.
  - vm_compute. reflexivity.
  - discriminate.
  - vm_compute. reflexivity.
Qed.
(** ** Uploading a photo to the wardrobe *)

Section Upload.
Context `{RT : Runtime}.

Lemma field_or_run (metadata : jsval) (field fallback : string) (w : World) :
  Wardrobe.field_or metadata field fallback w
  = match metadata with
    | JNull | JUndefined => (Threw TypeError, w)
    | _ => (Done (or_else (prop_of metadata field) (JStr fallback)), w)
    end.
Proof.
  unfold Wardrobe.field_or, prop_of, bind, lift.
  destruct metadata; simpl; try reflexivity.
  destruct (lookup field props); reflexivity.
Qed.

(** What an upload does, given what the classification returned. *)
Lemma upload_run (base64String : string) (w w1 : World) (metadata : jsval) :
  GeminiService.analyzeClothingItem base64String (with_isAnalyzing true w)
  = (Done metadata, w1) ->
  Composition.upload (Some base64String) w
  = match classified metadata (now w1) base64String with
    | Some item =>
        (Done tt, with_isAnalyzing false (snd (App.addWardrobeItem item w1)))
    | None =>
        (Done tt,
         with_isAnalyzing false
           (emit (Alert "Oops! Couldn't scan that item.") w1))
    end.
Proof.
  intros H.
  unfold Composition.upload, Wardrobe.handleFileUpload,
    Wardrobe.setIsAnalyzing.
  unfold bind at 1. unfold finally, try_catch.
  unfold bind at 1. rewrite H.
  unfold bind at 1. unfold Date_now at 1.
  unfold bind at 1. rewrite field_or_run.
  destruct metadata; try reflexivity; unfold classified;
    unfold bind at 1; rewrite field_or_run;
    unfold bind at 1; rewrite field_or_run;
    unfold bind at 1; rewrite field_or_run; reflexivity.
Qed.

(** While the classification waits, so does the upload: what follows the
    call is not run, the [finally] neither. *)
Lemma upload_waits (base64String : string) (w w1 : World)
      (m : option jsval) :
  GeminiService.analyzeClothingItem base64String (with_isAnalyzing true w)
  = (Pending m, w1) ->
  Composition.upload (Some base64String) w = (Pending None, w1).
Proof.
  intros H.
  unfold Composition.upload, Wardrobe.handleFileUpload,
    Wardrobe.setIsAnalyzing.
  unfold bind at 1. unfold finally, try_catch.
  unfold bind at 1. rewrite H. reflexivity.
Qed.

(** The classification returns as its call ends, and leaves the clock
    and all React state alone. *)
Lemma analyzeClothingItem_frame (image : string) (w : World) :
  let k := end_of (gemini w (GeminiService.analysis_request image)) in
  exists w1,
    GeminiService.analyzeClothingItem image w
    = (returns k match k with
                 | Parsed v => v
                 | _ => GeminiService.analysis_fallback
                 end, w1)
    /\ now w1 = now w /\ app w1 = app w
    /\ isAnalyzing w1 = isAnalyzing w /\ form w1 = form w
    /\ gemini w1 = gemini w
    /\ exists es, trace w1 = trace w ++ es.
Proof.
  rewrite analyzeClothingItem_run. cbv zeta.
  destruct (end_of _); simpl; eexists; repeat split;
    unfold logged, called, emit; simpl; rewrite <- ?app_assoc;
    eexists; reflexivity.
Qed.

End Upload.

(** C2.  When the classification call fails, the upload still adds an
    item, and the item has category Other, color Unknown and season All. *)
Theorem failed_classification_gives_defaults
        `{RT : Runtime} (w : World) (base64String : string) :
  call_fails (gemini w (GeminiService.analysis_request base64String)) ->
  exists (item : ClothingItem.t) (w' : World),
    Composition.upload (Some base64String) w = (Done tt, w')
    /\ wardrobe (app w') = ClothingItem.stored item :: wardrobe (app w)
    /\ ClothingItem.category item = Other
    /\ ClothingItem.color item = "Unknown"
    /\ ClothingItem.season item = "All".
Proof.
  unfold call_fails. intros Hfail.
  destruct (analyzeClothingItem_frame base64String (with_isAnalyzing true w))
    as (w1 & Hrun & Hnow & Happ & _).
  simpl in Hrun, Happ.
  assert (Hdone :
            GeminiService.analyzeClothingItem base64String
              (with_isAnalyzing true w)
            = (Done GeminiService.analysis_fallback, w1)).
  { rewrite Hrun.
    destruct (end_of _); solve [reflexivity | contradiction]. }
  rewrite (upload_run _ _ _ _ Hdone).
  exists {| ClothingItem.id := Number_toString (now w1);
            ClothingItem.imageUrl := base64String;
            ClothingItem.category := Other;
            ClothingItem.color := "Unknown";
            ClothingItem.season := "All";
            ClothingItem.description := "Could not analyze image." |}.
  eexists. split; [reflexivity |].
  simpl. rewrite Happ. repeat split.
Qed.

(** The hosted model is unreachable; the upload adds an item with the
    defaults to the five items of the closet. *)
Lemma failed_classification_gives_defaults_witness :
  exists (item : ClothingItem.t) (w' : World),
    Composition.upload (RT := Sample.runtime)
      (Some "data:image/jpeg;base64,GGGG")
      (Examples.world Examples.offline Examples.closet [] None)
    = (Done tt, w')
    /\ wardrobe (app w') = ClothingItem.stored item :: Examples.stored_closet
    /\ ClothingItem.category item = Other
    /\ ClothingItem.color item = "Unknown"
    /\ ClothingItem.season item = "All".
Proof.
  apply (failed_classification_gives_defaults
           (RT := Sample.runtime)
           (Examples.world Examples.offline Examples.closet [] None)
           "data:image/jpeg;base64,GGGG").
  exact I.
Defined.

(** C4.  After a successful classification response the new item is the
    head of the wardrobe and the items that were there follow it, as they
    were; the other collections are untouched.  The item holds what the
    response held, whatever it is, and the defaults where the response
    held nothing.  Only the response [null] adds no item: the user is
    alerted.  And whatever the response, an upload leaves the wardrobe as
    it was or with one item more at its head. *)
Theorem new_item_is_prepended `{RT : Runtime} (w : World) :
  (forall (base64String : string) (metadata : jsval),
      end_of (gemini w (GeminiService.analysis_request base64String))
      = Parsed metadata ->
      exists w',
        Composition.upload (Some base64String) w = (Done tt, w')
        /\ wishlist (app w') = wishlist (app w)
        /\ events (app w') = events (app w)
        /\ isAnalyzing w' = false
        /\ match classified metadata (now w) base64String with
           | Some item => wardrobe (app w') = item :: wardrobe (app w)
           | None =>
               (metadata = JNull \/ metadata = JUndefined)
               /\ wardrobe (app w') = wardrobe (app w)
               /\ In (Alert "Oops! Couldn't scan that item.") (trace w')
           end)
  /\ (forall file : option string,
         let after := wardrobe (app (snd (Composition.upload file w))) in
         after = wardrobe (app w)
         \/ exists item, after = item :: wardrobe (app w)).
Proof.
  split.
  - intros b metadata Hend.
    destruct (analyzeClothingItem_frame b (with_isAnalyzing true w))
      as (w1 & Hrun & Hnow & Happ & _).
    simpl in Hrun, Hnow, Happ. rewrite Hend in Hrun. simpl in Hrun.
    rewrite (upload_run _ _ _ _ Hrun). rewrite Hnow.
    destruct metadata; simpl; eexists; (split; [reflexivity |]); simpl;
      rewrite ?Happ; repeat apply conj; auto;
      rewrite in_app_iff; right; left; reflexivity.
  - intros [b |]; cbv zeta; [| left; reflexivity].
    destruct (analyzeClothingItem_frame b (with_isAnalyzing true w))
      as (w1 & Hrun & _ & Happ & _).
    simpl in Hrun, Happ.
    destruct (end_of _) as [e | | | v |]; simpl in Hrun;
      try (rewrite (upload_run _ _ _ _ Hrun);
           match goal with
           | |- context [classified ?m ?t ?i] =>
               destruct (classified m t i) as [item |]
           end;
           simpl; rewrite Happ;
           solve [left; reflexivity | right; eexists; reflexivity]).
    rewrite (upload_waits _ _ _ _ Hrun). simpl. rewrite Happ.
    left. reflexivity.
Qed.

(** The reply classifies the photo as a beige trench; the new item is
    the head of the closet, with its id read off the clock.  Another reply
    names a category that the type does not know and gives a number for
    the color: the item is stored as the reply has it. *)
Lemma new_item_is_prepended_witness :
  let trench :=
    {| ClothingItem.id := "1700000000000";
       ClothingItem.imageUrl := "data:image/jpeg;base64,GGGG";
       ClothingItem.category := Outerwear;
       ClothingItem.color := "Beige";
       ClothingItem.season := "Spring/Fall";
       ClothingItem.description := "Classic trench" |} in
  let hat :=
    {| ClothingItem.id := "1700000000000";
       ClothingItem.imageUrl := "data:image/jpeg;base64,GGGG";
       ClothingItem.category := JStr "Hat";
       ClothingItem.color := JNum (num 5);
       ClothingItem.season := JStr "All";
       ClothingItem.description := JStr "Added from closet" |} in
  let answers (text : string) :=
    Examples.world (Responds (Some (Sample.json text))) Examples.closet []
      None in
  (exists w',
      Composition.upload (RT := Sample.runtime)
        (Some "data:image/jpeg;base64,GGGG")
        (answers "{'category':'Outerwear','color':'Beige','season':'Spring/Fall','description':'Classic trench'}")
      = (Done tt, w')
      /\ wardrobe (app w')
         = ClothingItem.stored trench :: Examples.stored_closet)
  /\ (exists w',
         Composition.upload (RT := Sample.runtime)
           (Some "data:image/jpeg;base64,GGGG")
           (answers "{'category':'Hat','color':5}")
         = (Done tt, w')
         /\ wardrobe (app w') = hat :: Examples.stored_closet
         /\ isAnalyzing w' = false).
Proof.
  cbv zeta. split.
  - destruct (proj1 (new_item_is_prepended (RT := Sample.runtime)
                       (Examples.world
                          (Responds (Some (Sample.json
                             "{'category':'Outerwear','color':'Beige','season':'Spring/Fall','description':'Classic trench'}")))
                          Examples.closet [] None))
                    "data:image/jpeg;base64,GGGG"
                    (JObj [("category", JStr "Outerwear");
                           ("color", JStr "Beige");
                           ("season", JStr "Spring/Fall");
                           ("description", JStr "Classic trench")])
                    eq_refl) as (w' & Hrun & _ & _ & _ & Hitem).
    exists w'. split; [exact Hrun | exact Hitem].
  - destruct (proj1 (new_item_is_prepended (RT := Sample.runtime)
                       (Examples.world
                          (Responds (Some (Sample.json
                             "{'category':'Hat','color':5}")))
                          Examples.closet [] None))
                    "data:image/jpeg;base64,GGGG"
                    (JObj [("category", JStr "Hat"); ("color", JNum (num 5))])
                    eq_refl) as (w' & Hrun & _ & _ & Hflag & Hitem).
    exists w'. repeat split; [exact Hrun | exact Hitem | exact Hflag].
Defined.

(** ** Submitting the wishlist form *)

(** C9.  Submitting never throws.  An incomplete form (name, price or
    image empty) leaves the wishlist as it was.  A complete form puts one
    new item at the head of the wishlist, with the image of the form, and
    its price is what [parseFloat] reads off the price text: that number
    when it is a number other than zero, and zero otherwise, so zero when
    the text is not numeric. *)
Theorem wishlist_submission_is_guarded_and_lenient
        `{RT : Runtime} (w : World) :
  let f := form w in
  let w' := snd (Composition.submitWish w) in
  fst (Composition.submitWish w) = Done tt
  /\ (form_complete f = false -> wishlist (app w') = wishlist (app w))
  /\ (form_complete f = true ->
      exists item,
        wishlist (app w') = item :: wishlist (app w)
        /\ Some (WishlistItem.imageUrl item) = previewImage f
        /\ (parseFloat (price f) = NaN -> WishlistItem.price item = num 0)
        /\ (number_truthy (parseFloat (price f)) = true ->
            WishlistItem.price item = parseFloat (price f))
        /\ (number_truthy (parseFloat (price f)) = false ->
            WishlistItem.price item = num 0)).
Proof.
  cbv zeta.
  unfold Composition.submitWish, Wishlist.handleAdd, form_complete,
    Wishlist.has_image.
  destruct (nonempty (name (form w))), (nonempty (price (form w))),
    (previewImage (form w)) as [url |]; simpl;
    try destruct (nonempty url) eqn:Hurl; simpl;
    repeat apply conj; try reflexivity; try discriminate; intros _;
    try reflexivity.
  eexists. repeat apply conj.
  - reflexivity.
  - reflexivity.
  - simpl. unfold number_or. intros ->. reflexivity.
  - simpl. unfold number_or. intros ->. reflexivity.
  - simpl. unfold number_or. intros ->. reflexivity.
Qed.

(** A dress priced [free] is stored at zero; without a photo nothing is
    stored. *)
Lemma wishlist_submission_is_guarded_and_lenient_witness :
  let w := Examples.world Examples.offline Examples.closet [] None in
  let priced := Examples.filled w "Red Silk Dress" "free" "Zara"
                  (Some "data:image/jpeg;base64,HHHH") in
  let bare := Examples.filled w "Red Silk Dress" "80" "Zara" None in
  (exists item,
      wishlist (app (snd (Composition.submitWish (RT := Sample.runtime) priced)))
      = item :: [Examples.wish]
      /\ WishlistItem.price item = num 0)
  /\ wishlist (app (snd (Composition.submitWish (RT := Sample.runtime) bare)))
     = [Examples.wish].
Proof.
  cbv zeta. split.
  - destruct (wishlist_submission_is_guarded_and_lenient
                (RT := Sample.runtime)
                (Examples.filled
                   (Examples.world Examples.offline Examples.closet [] None)
                   "Red Silk Dress" "free" "Zara"
                   (Some "data:image/jpeg;base64,HHHH")))
      as (_ & _ & H).
    destruct (H eq_refl) as (item & Hlist & _ & Hnan & _).
    exists item. split; [exact Hlist | apply Hnan; reflexivity].
  - apply (wishlist_submission_is_guarded_and_lenient
             (RT := Sample.runtime)
             (Examples.filled
                (Examples.world Examples.offline Examples.closet [] None)
                "Red Silk Dress" "80" "Zara" None)).
    reflexivity.
Defined.

(** ** The outfit visual *)

Section Sorting.
Context {A : Type} (cmp : A -> A -> Z).

Lemma sort_insert_Permutation (x : A) (l : list A) :
  Permutation (sort_insert cmp x l) (x :: l).
Proof.
  induction l as [| y l IH]; simpl.
  - reflexivity.
  - destruct (cmp x y <=? 0).
    + reflexivity.
    + rewrite IH. apply perm_swap.
Qed.

Lemma Array_sort_Permutation (l : list A) : Permutation (Array_sort cmp l) l.
Proof.
  induction l as [| x l IH]; simpl.
  - reflexivity.
  - rewrite sort_insert_Permutation. apply perm_skip. exact IH.
Qed.

(** Insertion passes the elements it exceeds ... *)
Lemma sort_insert_skip (x : A) (l1 l2 : list A) :
  Forall (fun y => 0 < cmp x y) l1 ->
  sort_insert cmp x (l1 ++ l2) = l1 ++ sort_insert cmp x l2.
Proof.
  induction 1 as [| y l1 Hy _ IH]; simpl.
  - reflexivity.
  - destruct (Z.leb_spec (cmp x y) 0); [lia |]. rewrite IH. reflexivity.
Qed.

(** ... and stops before the elements it does not exceed. *)
Lemma sort_insert_here (x : A) (l : list A) :
  Forall (fun y => cmp x y <= 0) l -> sort_insert cmp x l = x :: l.
Proof.
  destruct 1 as [| y l Hy _]; simpl.
  - reflexivity.
  - destruct (Z.leb_spec (cmp x y) 0); [reflexivity | lia].
Qed.

End Sorting.

(** *** The comparator on plainly named items *)

Lemma by_category_rank (a b : ClothingItem.t) :
  plainly_named a -> plainly_named b ->
  Stylist.by_category a b = rank a - rank b.
Proof.
  unfold plainly_named, Stylist.by_category, rank, Stylist.order_of.
  intros Ha Hb. rewrite Ha, Hb.
  destruct (lookup (ClothingItem.category a) Stylist.categoryOrder),
    (lookup (ClothingItem.category b) Stylist.categoryOrder); reflexivity.
Qed.

(** A category that the display order does not name has rank 99. *)
Lemma rank_unlisted (item : ClothingItem.t) :
  plainly_named item -> listed (ClothingItem.category item) = false ->
  rank item = 99.
Proof.
  unfold plainly_named, listed, display_order, rank, Stylist.order_of,
    Stylist.categoryOrder, Top, OnePiece, Outerwear, Bottom, Shoes,
    Accessory, Other.
  intros Hplain H. simpl in H.
  repeat (apply orb_false_iff in H; destruct H as [? H]).
  simpl.
  repeat match goal with
         | E : String.eqb _ _ = false |- _ => rewrite E; clear E
         end.
  rewrite Hplain. reflexivity.
Qed.

Lemma rank_named (item : ClothingItem.t) (c : ClothingCategory) :
  String.eqb (ClothingItem.category item) c = true ->
  rank item = match Stylist.order_of c with
              | Some n => n
              | None => 0
              end.
Proof. intros H. apply String.eqb_eq in H. unfold rank. rewrite H. reflexivity. Qed.

(** Insertion puts an item after the items of lower rank and before the
    others. *)
Lemma sort_insert_between (x : ClothingItem.t)
      (before after : list ClothingItem.t) :
  plainly_named x ->
  Forall (fun y => plainly_named y /\ rank y < rank x) before ->
  Forall (fun y => plainly_named y /\ rank x <= rank y) after ->
  sort_insert Stylist.by_category x (before ++ after) = before ++ x :: after.
Proof.
  intros Hx Hbefore Hafter.
  rewrite sort_insert_skip.
  - rewrite sort_insert_here; [reflexivity |].
    eapply Forall_impl; [| exact Hafter].
    intros y [Hy Hr]. rewrite (by_category_rank x y Hx Hy). lia.
  - eapply Forall_impl; [| exact Hbefore].
    intros y [Hy Hr]. rewrite (by_category_rank x y Hx Hy). lia.
Qed.

(** The items of one category, and the items of no listed category, out
    of plainly named items: plainly named, and of the rank of the
    category. *)
Lemma bucket_rank (P : Z -> Prop) (c : ClothingCategory)
      (l : list ClothingItem.t) :
  Forall plainly_named l ->
  P match Stylist.order_of c with
    | Some n => n
    | None => 0
    end ->
  Forall (fun y => plainly_named y /\ P (rank y))
         (filter (fun item => String.eqb (ClothingItem.category item) c) l).
Proof.
  intros Hl HP. apply Forall_forall. intros y Hy.
  apply filter_In in Hy. destruct Hy as [Hin Hq].
  split.
  - exact (proj1 (Forall_forall _ _) Hl y Hin).
  - rewrite (rank_named y c Hq). exact HP.
Qed.

Lemma rest_rank (P : Z -> Prop) (l : list ClothingItem.t) :
  Forall plainly_named l ->
  P 99 ->
  Forall (fun y => plainly_named y /\ P (rank y))
         (filter (fun item => negb (listed (ClothingItem.category item))) l).
Proof.
  intros Hl HP. apply Forall_forall. intros y Hy.
  apply filter_In in Hy. destruct Hy as [Hin Hq].
  assert (Hy : plainly_named y).
  { exact (proj1 (Forall_forall _ _) Hl y Hin). }
  split; [exact Hy |].
  rewrite (rank_unlisted y Hy); [exact HP |].
  apply negb_true_iff. exact Hq.
Qed.

Ltac buckets Hl :=
  first
    [ solve [constructor]
    | repeat (apply Forall_app; split);
      solve [ apply (bucket_rank (fun r => r < _) _ _ Hl); vm_compute;
              solve [reflexivity | discriminate]
            | apply (bucket_rank (fun r => _ <= r) _ _ Hl); vm_compute;
              solve [reflexivity | discriminate]
            | apply (rest_rank (fun r => r < _) _ Hl); vm_compute;
              solve [reflexivity | discriminate]
            | apply (rest_rank (fun r => _ <= r) _ Hl); vm_compute;
              solve [reflexivity | discriminate] ] ].

(** [x] goes between [before] and [after], which together are [whole]. *)
Ltac insert_between x before after Hx Hl Hr :=
  match goal with
  | |- _ = sort_insert _ _ ?whole =>
      replace whole with (before ++ after)
        by (rewrite <- ?app_assoc; reflexivity)
  end;
  rewrite (sort_insert_between x before after Hx);
  [ rewrite <- ?app_assoc; reflexivity
  | rewrite Hr; buckets Hl
  | rewrite Hr; buckets Hl ].

Lemma head_to_toe_cons (x : ClothingItem.t) (l : list ClothingItem.t) :
  plainly_named x -> Forall plainly_named l ->
  head_to_toe (x :: l) = sort_insert Stylist.by_category x (head_to_toe l).
Proof.
  intros Hx Hl.
  unfold head_to_toe, display_order. simpl flat_map.
  rewrite !app_nil_r. rewrite <- !app_assoc.
  cbn [filter].
  set (B1 := filter (fun item => String.eqb (ClothingItem.category item) Top) l).
  set (B2 := filter (fun item => String.eqb (ClothingItem.category item) OnePiece) l).
  set (B3 := filter (fun item => String.eqb (ClothingItem.category item) Outerwear) l).
  set (B4 := filter (fun item => String.eqb (ClothingItem.category item) Bottom) l).
  set (B5 := filter (fun item => String.eqb (ClothingItem.category item) Shoes) l).
  set (B6 := filter (fun item => String.eqb (ClothingItem.category item) Accessory) l).
  set (B7 := filter (fun item => String.eqb (ClothingItem.category item) Other) l).
  set (B8 := filter (fun item => negb (listed (ClothingItem.category item))) l).
  assert (Hu : listed (ClothingItem.category x)
               = (String.eqb (ClothingItem.category x) Top
                  || (String.eqb (ClothingItem.category x) OnePiece
                  || (String.eqb (ClothingItem.category x) Outerwear
                  || (String.eqb (ClothingItem.category x) Bottom
                  || (String.eqb (ClothingItem.category x) Shoes
                  || (String.eqb (ClothingItem.category x) Accessory
                  || (String.eqb (ClothingItem.category x) Other
                  || false)))))))%bool) by reflexivity.
  rewrite Hu. clear Hu.
  destruct (String.eqb (ClothingItem.category x) Top) eqn:E1;
    [| destruct (String.eqb (ClothingItem.category x) OnePiece) eqn:E2;
       [| destruct (String.eqb (ClothingItem.category x) Outerwear) eqn:E3;
          [| destruct (String.eqb (ClothingItem.category x) Bottom) eqn:E4;
             [| destruct (String.eqb (ClothingItem.category x) Shoes) eqn:E5;
                [| destruct (String.eqb (ClothingItem.category x) Accessory)
                     eqn:E6;
                   [| destruct (String.eqb (ClothingItem.category x) Other)
                        eqn:E7]]]]]].
  all: try match goal with
           | E : String.eqb (ClothingItem.category ?i) ?c = true |- _ =>
               let Hr := fresh "Hr" in
               let r := fresh "r" in
               pose proof (rank_named i c E) as Hr;
               match type of Hr with
               | _ = ?v => set (r := v) in Hr; vm_compute in r; subst r
               end;
               apply String.eqb_eq in E; rewrite ?E; clear E;
               cbn [String.eqb Ascii.eqb Bool.eqb orb negb Top OnePiece
                      Outerwear Bottom Shoes Accessory Other]
           end.
  8: { assert (Hr : rank x = 99).
       { apply (rank_unlisted x Hx). unfold listed, display_order. simpl.
         rewrite E1, E2, E3, E4, E5, E6, E7. reflexivity. }
       cbn [orb negb].
       insert_between x (B1 ++ B2 ++ B3 ++ B4 ++ B5 ++ B6 ++ B7) B8
                      Hx Hl Hr. }
  - insert_between x (@nil ClothingItem.t)
                   (B1 ++ B2 ++ B3 ++ B4 ++ B5 ++ B6 ++ B7 ++ B8) Hx Hl Hr.
  - insert_between x B1 (B2 ++ B3 ++ B4 ++ B5 ++ B6 ++ B7 ++ B8) Hx Hl Hr.
  - insert_between x (B1 ++ B2) (B3 ++ B4 ++ B5 ++ B6 ++ B7 ++ B8)
                   Hx Hl Hr.
  - insert_between x (B1 ++ B2 ++ B3) (B4 ++ B5 ++ B6 ++ B7 ++ B8)
                   Hx Hl Hr.
  - insert_between x (B1 ++ B2 ++ B3 ++ B4) (B5 ++ B6 ++ B7 ++ B8)
                   Hx Hl Hr.
  - insert_between x (B1 ++ B2 ++ B3 ++ B4 ++ B5) (B6 ++ B7 ++ B8)
                   Hx Hl Hr.
  - insert_between x (B1 ++ B2 ++ B3 ++ B4 ++ B5 ++ B6) (B7 ++ B8)
                   Hx Hl Hr.
Qed.

Lemma Array_sort_head_to_toe (l : list ClothingItem.t) :
  Forall plainly_named l ->
  Array_sort Stylist.by_category l = head_to_toe l.
Proof.
  induction 1 as [| x l Hx Hl IH]; simpl.
  - reflexivity.
  - rewrite IH, (head_to_toe_cons x l Hx Hl). reflexivity.
Qed.

Lemma find_never {A : Type} (l : list A) : List.find (fun _ => false) l = None.
Proof. induction l; simpl; auto. Qed.

Lemma found_items_resolved (wardrobe : list ClothingItem.t) (ids : list jsval) :
  filter_Boolean (map (fun id => Array_find (Stylist.id_is id) wardrobe) ids)
  = resolved wardrobe ids.
Proof.
  induction ids as [| id ids IH]; simpl; [reflexivity |].
  unfold Array_find at 1.
  destruct id; simpl; try (rewrite find_never; exact IH).
  destruct (List.find _ wardrobe); simpl; rewrite IH; reflexivity.
Qed.

(** What the ids resolve to is in the wardrobe, under one of the ids. *)
Lemma resolved_In (wardrobe : list ClothingItem.t) (ids : list jsval)
      (item : ClothingItem.t) :
  In item (resolved wardrobe ids) ->
  In item wardrobe /\ In (JStr (ClothingItem.id item)) ids.
Proof.
  unfold resolved. intros H. apply in_flat_map in H.
  destruct H as (id & Hid & Hitem).
  destruct id as [| | b | n | s | l | props]; simpl in Hitem; try tauto.
  destruct (List.find _ wardrobe) as [found |] eqn:Hfind; simpl in Hitem;
    [| tauto].
  destruct Hitem as [<- | []].
  apply find_some in Hfind. destruct Hfind as [Hin Heq].
  apply String.eqb_eq in Heq. rewrite Heq. split; assumption.
Qed.

Lemma resolved_plainly_named (wardrobe : list ClothingItem.t)
      (ids : list jsval) :
  Forall plainly_named wardrobe ->
  Forall plainly_named (resolved wardrobe ids).
Proof.
  intros H. apply Forall_forall. intros item Hitem.
  apply resolved_In in Hitem.
  exact (proj1 (Forall_forall _ _) H item (proj1 Hitem)).
Qed.

Lemma outfit_items_head_to_toe (wardrobe : list ClothingItem.t)
      (ids : list jsval) :
  Forall plainly_named wardrobe ->
  Stylist.outfit_items wardrobe ids = head_to_toe (resolved wardrobe ids).
Proof.
  intros H. unfold Stylist.outfit_items. rewrite found_items_resolved.
  apply Array_sort_head_to_toe. apply resolved_plainly_named. exact H.
Qed.

Ltac perm_at before after x IH :=
  match goal with
  | |- Permutation _ ?rhs =>
      replace rhs with (before ++ x :: after)
        by (rewrite <- ?app_assoc; reflexivity)
  end;
  apply Permutation_cons_app; rewrite <- ?app_assoc; exact IH.

(** [head_to_toe] keeps every item, as often as it occurs. *)
Lemma head_to_toe_Permutation (l : list ClothingItem.t) :
  Permutation (head_to_toe l) l.
Proof.
  induction l as [| x l IH]; [reflexivity |].
  apply Permutation_sym.
  unfold head_to_toe, display_order in *. simpl flat_map in *.
  rewrite !app_nil_r in *. rewrite <- !app_assoc in *.
  cbn [filter].
  assert (Hu : listed (ClothingItem.category x)
               = (String.eqb (ClothingItem.category x) Top
                  || (String.eqb (ClothingItem.category x) OnePiece
                  || (String.eqb (ClothingItem.category x) Outerwear
                  || (String.eqb (ClothingItem.category x) Bottom
                  || (String.eqb (ClothingItem.category x) Shoes
                  || (String.eqb (ClothingItem.category x) Accessory
                  || (String.eqb (ClothingItem.category x) Other
                  || false)))))))%bool) by reflexivity.
  rewrite Hu. clear Hu.
  apply Permutation_sym in IH.
  set (B1 := filter (fun item => String.eqb (ClothingItem.category item) Top) l) in *.
  set (B2 := filter (fun item => String.eqb (ClothingItem.category item) OnePiece) l) in *.
  set (B3 := filter (fun item => String.eqb (ClothingItem.category item) Outerwear) l) in *.
  set (B4 := filter (fun item => String.eqb (ClothingItem.category item) Bottom) l) in *.
  set (B5 := filter (fun item => String.eqb (ClothingItem.category item) Shoes) l) in *.
  set (B6 := filter (fun item => String.eqb (ClothingItem.category item) Accessory) l) in *.
  set (B7 := filter (fun item => String.eqb (ClothingItem.category item) Other) l) in *.
  set (B8 := filter (fun item => negb (listed (ClothingItem.category item))) l) in *.
  destruct (String.eqb (ClothingItem.category x) Top) eqn:E1;
    [| destruct (String.eqb (ClothingItem.category x) OnePiece) eqn:E2;
       [| destruct (String.eqb (ClothingItem.category x) Outerwear) eqn:E3;
          [| destruct (String.eqb (ClothingItem.category x) Bottom) eqn:E4;
             [| destruct (String.eqb (ClothingItem.category x) Shoes) eqn:E5;
                [| destruct (String.eqb (ClothingItem.category x) Accessory)
                     eqn:E6;
                   [| destruct (String.eqb (ClothingItem.category x) Other)
                        eqn:E7]]]]]].
  all: try match goal with
           | E : String.eqb (ClothingItem.category ?i) ?c = true |- _ =>
               apply String.eqb_eq in E; rewrite ?E; clear E;
               cbn [String.eqb Ascii.eqb Bool.eqb orb negb Top OnePiece
                      Outerwear Bottom Shoes Accessory Other]
           end.
  all: cbn [orb negb].
  - perm_at (@nil ClothingItem.t)
            (B1 ++ B2 ++ B3 ++ B4 ++ B5 ++ B6 ++ B7 ++ B8) x IH.
  - perm_at B1 (B2 ++ B3 ++ B4 ++ B5 ++ B6 ++ B7 ++ B8) x IH.
  - perm_at (B1 ++ B2) (B3 ++ B4 ++ B5 ++ B6 ++ B7 ++ B8) x IH.
  - perm_at (B1 ++ B2 ++ B3) (B4 ++ B5 ++ B6 ++ B7 ++ B8) x IH.
  - perm_at (B1 ++ B2 ++ B3 ++ B4) (B5 ++ B6 ++ B7 ++ B8) x IH.
  - perm_at (B1 ++ B2 ++ B3 ++ B4 ++ B5) (B6 ++ B7 ++ B8) x IH.
  - perm_at (B1 ++ B2 ++ B3 ++ B4 ++ B5 ++ B6) (B7 ++ B8) x IH.
  - perm_at (B1 ++ B2 ++ B3 ++ B4 ++ B5 ++ B6 ++ B7) B8 x IH.
Qed.

(** What the visual of an outfit shows. *)
Lemma renderOutfitVisual_run (wardrobe : list ClothingItem.t)
      (ids : list jsval) (compact : bool) :
  Forall plainly_named wardrobe ->
  Stylist.renderOutfitVisual wardrobe (JArr ids) compact
  = inr (let items := head_to_toe (resolved wardrobe ids) in
         if compact then Stylist.CompactGrid (firstn 4 items)
         else match items with
              | [] => Stylist.Placeholder
              | _ :: _ => Stylist.FullGrid items
              end).
Proof.
  intros H. unfold Stylist.renderOutfitVisual, slice0.
  rewrite (outfit_items_head_to_toe wardrobe ids H).
  destruct compact; [reflexivity |].
  destruct (head_to_toe (resolved wardrobe ids)); reflexivity.
Qed.
(** ** The stylist's render *)

Lemma weekday_is_no_index (k : string) : In k weekdays -> array_index k = None.
Proof.
  unfold weekdays. simpl.
  intros [<- | [<- | [<- | [<- | [<- | []]]]]]; reflexivity.
Qed.

(** Keys that are no array indices are listed in the order of creation. *)
Lemma Object_entries_named {A : Type} (props : list (string * A)) :
  Forall (fun e => array_index (fst e) = None) props ->
  Object_entries props = props.
Proof.
  intros H. unfold Object_entries, named_entries.
  assert (Hi : index_entries props = []).
  { induction H as [| [k v] rest Hk _ IH]; simpl in *; [reflexivity |].
    rewrite Hk. exact IH. }
  rewrite Hi. simpl.
  induction H as [| [k v] rest Hk Hrest IH]; simpl in *; [reflexivity |].
  rewrite Hk in *. f_equal. apply IH. exact Hi.
Qed.

Lemma insert_index_In {A : Type} (i : Z) (e : string * A)
      (sorted : list (Z * (string * A))) (p : Z * (string * A)) :
  In p (insert_index i e sorted) -> p = (i, e) \/ In p sorted.
Proof.
  induction sorted as [| [j e'] rest IH]; simpl.
  - intros [<- | []]. left. reflexivity.
  - destruct (i <=? j); simpl.
    + intros [<- | H]; [left; reflexivity | right; exact H].
    + intros [<- | H]; [right; left; reflexivity |].
      destruct (IH H) as [-> | Hin]; [left; reflexivity | right; right; exact Hin].
Qed.

(** [Object.entries] lists properties of the object only. *)
Lemma Object_entries_In {A : Type} (props : list (string * A))
      (e : string * A) :
  In e (Object_entries props) -> In e props.
Proof.
  unfold Object_entries, named_entries. rewrite in_app_iff.
  intros [H | H].
  - apply in_map_iff in H. destruct H as ([i e'] & <- & Hin). simpl.
    induction props as [| [k v] rest IH]; simpl in *; [contradiction |].
    destruct (array_index k) as [j |].
    + apply insert_index_In in Hin.
      destruct Hin as [Heq | Hin]; [left; congruence | right; auto].
    + right. auto.
  - apply filter_In in H. exact (proj1 H).
Qed.

Lemma map_err_inr {A B : Type} (f : A -> error + B) (R : A -> B -> Prop)
      (l : list A) :
  Forall (fun a => exists b, f a = inr b /\ R a b) l ->
  exists bs, Stylist.map_err f l = inr bs /\ Forall2 R l bs.
Proof.
  induction 1 as [| a l (b & Hb & HR) _ (bs & Hbs & HF)].
  - exists []. split; [reflexivity | constructor].
  - exists (b :: bs). cbn [Stylist.map_err]. rewrite Hb, Hbs.
    split; [reflexivity | constructor; assumption].
Qed.

(** React takes the children in, all of them, or refuses the first
    object among them. *)
Lemma map_err_child (l : list jsval) :
  Stylist.map_err Stylist.child l
  = if forallb Stylist.is_child l then inr l else inl Stylist.not_a_child.
Proof.
  induction l as [| v l IH]; [reflexivity |].
  cbn [Stylist.map_err forallb]. unfold Stylist.child at 1.
  destruct (Stylist.is_child v); simpl; [| reflexivity].
  rewrite IH. destruct (forallb Stylist.is_child l); reflexivity.
Qed.

Section PlanView.
Variable wardrobe : list ClothingItem.t.

Lemma render_day_run (st : Stylist.State) (d : string) (outfit : jsval)
      (ids : list jsval) :
  get outfit "itemIds" = inr (JArr ids) ->
  exists section,
    Stylist.render_day wardrobe st (d, outfit) = inr section
    /\ Stylist.day section = d
    /\ Stylist.visual section
       = Stylist.CompactGrid (firstn 4 (Stylist.outfit_items wardrobe ids))
    /\ Stylist.day_explanation section = prop_of outfit "explanation".
Proof.
  intros H. unfold Stylist.render_day, Stylist.bind_err. rewrite H.
  unfold Stylist.renderOutfitVisual, slice0, prop_of.
  destruct outfit; simpl in H; try discriminate.
  simpl. destruct (lookup "explanation" props);
    eexists; repeat split.
Qed.

Lemma render_outfit_run (outfit : jsval) (ids : list jsval) :
  get outfit "itemIds" = inr (JArr ids) ->
  exists section,
    Stylist.render_outfit wardrobe outfit = inr section
    /\ Stylist.title section = prop_of outfit "vibe"
    /\ Stylist.outfit_visual section
       = match Stylist.outfit_items wardrobe ids with
         | [] => Stylist.Placeholder
         | _ :: _ => Stylist.FullGrid (Stylist.outfit_items wardrobe ids)
         end
    /\ Stylist.explanation section = prop_of outfit "explanation".
Proof.
  intros H. unfold Stylist.render_outfit, Stylist.bind_err, prop_of.
  destruct outfit; simpl in H; try discriminate.
  simpl get. destruct (lookup "vibe" props);
    (destruct (lookup "itemIds" props) as [v |]; [| discriminate]);
    injection H as ->; unfold Stylist.renderOutfitVisual;
    destruct (Stylist.outfit_items wardrobe ids) eqn:E;
    destruct (lookup "explanation" props); eexists; repeat split.
Qed.

(** The days of a plan, each with an array of item ids: a section each,
    in the order of the entries. *)
Lemma render_days_run (st : Stylist.State) (entries : list (string * jsval)) :
  Forall (fun e => exists ids, get (snd e) "itemIds" = inr (JArr ids))
         entries ->
  exists days,
    Stylist.map_err (Stylist.render_day wardrobe st) entries = inr days
    /\ Forall2
         (fun e section =>
            Stylist.day section = fst e
            /\ Stylist.day_explanation section
               = prop_of (snd e) "explanation"
            /\ forall ids,
                get (snd e) "itemIds" = inr (JArr ids) ->
                Stylist.visual section
                = Stylist.CompactGrid
                    (firstn 4 (Stylist.outfit_items wardrobe ids)))
         entries days.
Proof.
  intros H. apply map_err_inr.
  eapply Forall_impl; [| exact H].
  intros [d outfit] [ids Hids]. simpl in Hids.
  destruct (render_day_run st d outfit ids Hids) as (s & Hs & Hd & Hv & Hx).
  exists s. split; [exact Hs |]. simpl.
  repeat split; try assumption.
  intros ids' Hids'. rewrite Hids in Hids'. injection Hids' as <-. exact Hv.
Qed.

(** The render of a state that holds a plan and no outfit. *)
Lemma render_plan_run (st : Stylist.State) (props : list (string * jsval))
      (days : list Stylist.DaySection) :
  Stylist.isLoading st = false ->
  truthy (Stylist.generatedOutfit st) = false ->
  Stylist.weeklyPlan st = JObj props ->
  Stylist.map_err (Stylist.render_day wardrobe st) (Object_entries props)
  = inr days ->
  Stylist.render wardrobe st
  = if forallb Stylist.is_child (map Stylist.day_explanation days)
    then inr {| Stylist.inputs_shown := false;
                Stylist.spinner_shown := false;
                Stylist.outfit_section := None;
                Stylist.plan_section := Some days |}
    else inl Stylist.not_a_child.
Proof.
  intros Hload Hout Hplan Hdays.
  unfold Stylist.render, Stylist.elements, Stylist.bind_err.
  rewrite Hload, Hout, Hplan. simpl. rewrite Hdays.
  unfold Stylist.children. simpl. rewrite map_err_child.
  destruct (forallb _ _); reflexivity.
Qed.

(** The render of a state that holds an outfit and no plan. *)
Lemma render_single_run (st : Stylist.State) (section : Stylist.OutfitSection) :
  Stylist.isLoading st = false ->
  truthy (Stylist.generatedOutfit st) = true ->
  truthy (Stylist.weeklyPlan st) = false ->
  Stylist.render_outfit wardrobe (Stylist.generatedOutfit st) = inr section ->
  Stylist.render wardrobe st
  = if (Stylist.is_child (Stylist.title section)
        && Stylist.is_child (Stylist.explanation section))%bool
    then inr {| Stylist.inputs_shown := false;
                Stylist.spinner_shown := false;
                Stylist.outfit_section := Some section;
                Stylist.plan_section := None |}
    else inl Stylist.not_a_child.
Proof.
  intros Hload Hout Hplan Hsection.
  unfold Stylist.render, Stylist.elements, Stylist.bind_err.
  rewrite Hload, Hout, Hplan. simpl. rewrite Hsection.
  unfold Stylist.children. simpl. unfold Stylist.child.
  destruct (Stylist.is_child (Stylist.title section)); simpl;
    [| reflexivity].
  destruct (Stylist.is_child (Stylist.explanation section)); reflexivity.
Qed.

End PlanView.

(** C6 (amended).  For an outfit whose item ids are an array, the view of
    the single outfit and of the inspiration match renders exactly the
    wardrobe items the ids resolve to, in the display order Top, One-Piece,
    Outerwear, Bottom, Shoes, Accessory, Other and then the categories the
    order does not name, items of one category in the order of their ids.
    Each day of the weekly plan renders the first four of that order only.
    Ids that resolve to no wardrobe item are dropped.  (The categories of
    the wardrobe are not names of properties that every object inherits,
    and what the view shows as text is text, a number or nothing.) *)
Theorem outfit_renders_head_to_toe
        (wardrobe : list ClothingItem.t) (st : Stylist.State) :
  Forall plainly_named wardrobe ->
  Stylist.isLoading st = false ->
  (forall ids,
      get (Stylist.generatedOutfit st) "itemIds" = inr (JArr ids) ->
      truthy (Stylist.weeklyPlan st) = false ->
      Stylist.is_child (prop_of (Stylist.generatedOutfit st) "vibe") = true ->
      Stylist.is_child (prop_of (Stylist.generatedOutfit st) "explanation")
      = true ->
      exists view section,
        Stylist.render wardrobe st = inr view
        /\ Stylist.outfit_section view = Some section
        /\ Stylist.rendered_items (Stylist.outfit_visual section)
           = head_to_toe (resolved wardrobe ids))
  /\ (forall props,
         Stylist.weeklyPlan st = JObj props ->
         truthy (Stylist.generatedOutfit st) = false ->
         Forall (fun e =>
                   (exists ids, get (snd e) "itemIds" = inr (JArr ids))
                   /\ Stylist.is_child (prop_of (snd e) "explanation") = true)
                props ->
         exists view days,
           Stylist.render wardrobe st = inr view
           /\ Stylist.plan_section view = Some days
           /\ Forall2
                (fun e section =>
                   Stylist.day section = fst e
                   /\ forall ids,
                       get (snd e) "itemIds" = inr (JArr ids) ->
                       Stylist.rendered_items (Stylist.visual section)
                       = firstn 4 (head_to_toe (resolved wardrobe ids)))
                (Object_entries props) days)
  /\ (forall l, Permutation (head_to_toe l) l).
Proof.
  intros Hplain Hload. repeat apply conj.
  - intros ids Hids Hplan Hvibe Htext.
    destruct (render_outfit_run wardrobe _ ids Hids)
      as (section & Hsection & Htitle & Hvisual & Hexplanation).
    assert (Hout : truthy (Stylist.generatedOutfit st) = true).
    { destruct (Stylist.generatedOutfit st); simpl in Hids;
        solve [discriminate | reflexivity]. }
    rewrite (render_single_run wardrobe st section Hload Hout Hplan Hsection).
    rewrite Htitle, Hexplanation, Hvibe, Htext. simpl.
    eexists. exists section. repeat split.
    rewrite Hvisual, <- (outfit_items_head_to_toe wardrobe ids Hplain).
    destruct (Stylist.outfit_items wardrobe ids); reflexivity.
  - intros props Hplan Hout Hdays.
    assert (Hentries :
              Forall (fun e =>
                        (exists ids, get (snd e) "itemIds" = inr (JArr ids))
                        /\ Stylist.is_child (prop_of (snd e) "explanation")
                           = true)
                     (Object_entries props)).
    { apply Forall_forall. intros e He. apply Object_entries_In in He.
      exact (proj1 (Forall_forall _ _) Hdays e He). }
    destruct (render_days_run wardrobe st (Object_entries props))
      as (days & Hrun & Hsections).
    { eapply Forall_impl; [| exact Hentries]. intros e He. exact (proj1 He). }
    rewrite (render_plan_run wardrobe st props days Hload Hout Hplan Hrun).
    assert (Hchildren :
              forallb Stylist.is_child (map Stylist.day_explanation days)
              = true).
    { clear Hrun. induction Hsections as [| e s es ss (_ & Hx & _) _ IH];
        [reflexivity |].
      inversion Hentries as [| ? ? [_ He] Hrest]; subst.
      simpl. rewrite Hx, He. simpl. apply IH. exact Hrest. }
    rewrite Hchildren.
    eexists. exists days. repeat split.
    eapply Forall2_impl; [| exact Hsections].
    intros e s (Hd & _ & Hv). split; [exact Hd |].
    intros ids Hids. rewrite (Hv ids Hids). simpl.
    rewrite (outfit_items_head_to_toe wardrobe ids Hplain). reflexivity.
  - apply head_to_toe_Permutation.
Qed.

(** The outfit lists the scarf, the tee, an id that is in no wardrobe, and
    the sneakers: the view shows the tee, the sneakers and the scarf. *)
Lemma outfit_renders_head_to_toe_witness :
  let styled :=
    {| Stylist.vibeInput := "City Walk"; Stylist.mode := Stylist.SINGLE;
       Stylist.generatedOutfit :=
         JObj [("id", JStr "1700000000000");
               ("itemIds", JArr [JStr "5"; JStr "1"; JStr "none"; JStr "3"]);
               ("vibe", JStr "City Walk");
               ("explanation", JStr "Easy layers")];
       Stylist.weeklyPlan := JNull; Stylist.isLoading := false |} in
  exists view section,
    Stylist.render Examples.closet styled = inr view
    /\ Stylist.outfit_section view = Some section
    /\ Stylist.rendered_items (Stylist.outfit_visual section)
       = [Examples.tee; Examples.sneakers; Examples.scarf].
Proof.
  cbv zeta.
  assert (Hplain : Forall plainly_named Examples.closet).
  { repeat constructor. }
  destruct (proj1 (outfit_renders_head_to_toe Examples.closet
                     {| Stylist.vibeInput := "City Walk";
                        Stylist.mode := Stylist.SINGLE;
                        Stylist.generatedOutfit :=
                          JObj [("id", JStr "1700000000000");
                                ("itemIds",
                                 JArr [JStr "5"; JStr "1"; JStr "none";
                                       JStr "3"]);
                                ("vibe", JStr "City Walk");
                                ("explanation", JStr "Easy layers")];
                        Stylist.weeklyPlan := JNull;
                        Stylist.isLoading := false |}
                     Hplain eq_refl)
                  [JStr "5"; JStr "1"; JStr "none"; JStr "3"]
                  eq_refl eq_refl eq_refl eq_refl)
    as (view & section & Hview & Hsection & Hitems).
  exists view, section. repeat split; assumption.
Defined.

(** C6 as stated fails for a day of the weekly plan.  The ids of Monday
    resolve to the five items of the closet; the view renders four of
    them, and the scarf is not among them. *)
Lemma compact_view_renders_four :
  let ids := ["5"; "1"; "2"; "3"; "4"; "none"] in
  let planned :=
    Stylist.with_results Examples.busy_week JNull
      (JObj [("Monday", Examples.outfit_for ids "All of it")]) false in
  resolved Examples.closet (map JStr ids)
  = [Examples.scarf; Examples.tee; Examples.jeans; Examples.sneakers;
     Examples.coat]
  /\ match Stylist.render Examples.closet planned with
     | inr view =>
         option_map
           (map (fun section =>
                   Stylist.rendered_items (Stylist.visual section)))
           (Stylist.plan_section view)
     | inl _ => None
     end
     = Some [[Examples.tee; Examples.coat; Examples.jeans;
              Examples.sneakers]].
Proof. cbv zeta. split; reflexivity. Qed.

(** ** The weekly plan *)

(** C7 (amended).  For a weekly plan whose keys are the five weekday names
    and whose days each carry an array of item ids, the stylist view
    renders five sections, one per key, in the order in which the reply
    lists the keys: Monday to Friday when the reply lists them so.  That
    is when the explanation of every day is something React takes for a
    child (text, a number, nothing); where one is an object, the view
    renders nothing: React refuses it with an error. *)
Theorem plan_sections_follow_the_reply
        (wardrobe : list ClothingItem.t) (st : Stylist.State)
        (props : list (string * jsval)) :
  Permutation (map fst props) weekdays ->
  Forall (fun e => exists ids, get (snd e) "itemIds" = inr (JArr ids)) props ->
  let shown :=
    Stylist.render wardrobe
      (Stylist.with_results st JNull (JObj props) false) in
  if forallb (fun e => Stylist.is_child (prop_of (snd e) "explanation")) props
  then exists view days,
         shown = inr view
         /\ Stylist.plan_section view = Some days
         /\ map Stylist.day days = map fst props
         /\ List.length days = 5%nat
  else shown = inl Stylist.not_a_child.
Proof.
  intros Hkeys Hdays. cbv zeta.
  assert (Hnamed : Forall (fun e => array_index (fst e) = None) props).
  { apply Forall_forall. intros e He. apply weekday_is_no_index.
    apply (Permutation_in _ Hkeys). apply in_map. exact He. }
  destruct (render_days_run wardrobe
              (Stylist.with_results st JNull (JObj props) false) props Hdays)
    as (days & Hrun & Hsections).
  assert (Hentries :
            Stylist.map_err
              (Stylist.render_day wardrobe
                 (Stylist.with_results st JNull (JObj props) false))
              (Object_entries props)
            = inr days).
  { rewrite (Object_entries_named props Hnamed). exact Hrun. }
  rewrite (render_plan_run wardrobe
             (Stylist.with_results st JNull (JObj props) false) props days
             eq_refl eq_refl eq_refl Hentries).
  clear Hentries.
  assert (Hmap : map Stylist.day days = map fst props).
  { clear Hrun Hkeys Hdays Hnamed.
    induction Hsections as [| e s es ss (Hd & _) _ IH]; [reflexivity |].
    simpl. rewrite Hd, IH. reflexivity. }
  assert (Hchildren :
            forallb Stylist.is_child (map Stylist.day_explanation days)
            = forallb (fun e => Stylist.is_child (prop_of (snd e) "explanation"))
                      props).
  { clear Hrun Hmap Hkeys Hdays Hnamed.
    induction Hsections as [| e s es ss (_ & Hx & _) _ IH]; [reflexivity |].
    simpl. rewrite Hx, IH. reflexivity. }
  rewrite Hchildren.
  destruct (forallb _ props); [| reflexivity].
  eexists. exists days. repeat split.
  - exact Hmap.
  - rewrite <- (length_map Stylist.day), Hmap, length_map.
    rewrite <- (length_map fst). rewrite (Permutation_length Hkeys).
    reflexivity.
Qed.

(** The plan lists Monday to Friday: so do the sections.  With an object
    for Monday's explanation nothing is rendered. *)
Lemma plan_sections_follow_the_reply_witness :
  (exists view days,
      Stylist.render Examples.closet
        (Stylist.with_results Examples.busy_week JNull (JObj Examples.week)
           false)
      = inr view
      /\ Stylist.plan_section view = Some days
      /\ map Stylist.day days
         = ["Monday"; "Tuesday"; "Wednesday"; "Thursday"; "Friday"]
      /\ List.length days = 5%nat)
  /\ Stylist.render Examples.closet
       (Stylist.with_results Examples.busy_week JNull
          (JObj (("Monday",
                  JObj [("itemIds", JArr [JStr "1"]);
                        ("explanation", JObj [("text", JStr "Easy start")])])
                 :: tl Examples.week))
          false)
     = inl Stylist.not_a_child.
Proof.
  split.
  - apply (plan_sections_follow_the_reply Examples.closet Examples.busy_week
             Examples.week).
    + apply Permutation_refl.
    + repeat constructor; eexists; reflexivity.
  - apply (plan_sections_follow_the_reply Examples.closet Examples.busy_week
             (("Monday",
               JObj [("itemIds", JArr [JStr "1"]);
                     ("explanation", JObj [("text", JStr "Easy start")])])
              :: tl Examples.week)).
    + apply Permutation_refl.
    + repeat constructor; eexists; reflexivity.
Defined.

(** C7 as stated fails when the reply lists the days in another order.
    The keys of the reply are the five weekday names, listed by the
    alphabet; the stylist asks for the plan and renders it: the first
    section is Friday. *)
Lemma plan_sections_are_not_reordered :
  let w := Examples.world (Responds (Some Examples.alphabetical_plan))
             Examples.closet [] None in
  Permutation
    ["Friday"; "Monday"; "Thursday"; "Tuesday"; "Wednesday"] weekdays
  /\ match fst (Stylist.handleGenerate (RT := Sample.runtime) Examples.closet
                  "Current weather is 21°C and Clear/Sunny."
                  Examples.busy_week None w) with
     | Done st => days_rendered (Stylist.render Examples.closet st)
     | _ => None
     end
     = Some ["Friday"; "Monday"; "Thursday"; "Tuesday"; "Wednesday"].
Proof.
  cbv zeta. split.
  - unfold weekdays.
    apply Permutation_cons_app with
      (l1 := ["Monday"; "Tuesday"; "Wednesday"; "Thursday"]) (l2 := []).
    simpl. apply perm_skip.
    apply Permutation_cons_app with
      (l1 := ["Tuesday"; "Wednesday"]) (l2 := []).
    apply Permutation_refl.
  - vm_compute. reflexivity.
Qed.

(** ** More on the adapter *)

Import Facts.

Section Splitting.
Variable sep : ascii.

Lemma split_is_cons (s : string) :
  exists piece pieces, split sep s = piece :: pieces.
Proof.
  induction s as [| c s (p & ps & IH)]; simpl.
  - eauto.
  - destruct (Ascii.eqb c sep); [eauto |]. rewrite IH. eauto.
Qed.

Lemma split_lacks (s : string) : lacks sep s = true -> split sep s = [s].
Proof.
  induction s as [| c s IH]; simpl; [reflexivity |].
  intros H. apply andb_true_iff in H. destruct H as [Hc Hs].
  apply negb_true_iff in Hc. rewrite Hc, (IH Hs). reflexivity.
Qed.

Lemma split_app (a b : string) :
  lacks sep a = true ->
  split sep (a +++ String sep b) = a :: split sep b.
Proof.
  induction a as [| c a IH]; simpl.
  - intros _. rewrite Ascii.eqb_refl. reflexivity.
  - intros H. apply andb_true_iff in H. destruct H as [Hc Ha].
    apply negb_true_iff in Hc. rewrite Hc, (IH Ha). reflexivity.
Qed.

End Splitting.

(** X1.  [getBase64Data] returns what stands between the first comma and
    the second one (or the end): for a data URL, whose header has no comma
    and whose base64 payload has none either, the payload.  A string
    without a comma has no data: the result is [undefined]. *)
Theorem getBase64Data_takes_the_payload (header payload : string) :
  lacks "," header = true ->
  GeminiService.getBase64Data (header +++ "," +++ payload)
  = Some (hd EmptyString (split "," payload))
  /\ (lacks "," payload = true ->
      GeminiService.getBase64Data (header +++ "," +++ payload) = Some payload)
  /\ GeminiService.getBase64Data header = None.
Proof.
  intros Hh. unfold GeminiService.getBase64Data.
  change ("," +++ payload) with (String "," payload).
  rewrite (split_app _ _ _ Hh), (split_lacks _ _ Hh).
  repeat apply conj.
  - destruct (split_is_cons "," payload) as (p & ps & ->). reflexivity.
  - intros Hp. rewrite (split_lacks _ _ Hp). reflexivity.
  - reflexivity.
Qed.

Lemma getBase64Data_takes_the_payload_witness :
  GeminiService.getBase64Data "data:image/jpeg;base64,/9j/4AAQ"
  = Some "/9j/4AAQ"
  /\ GeminiService.getBase64Data "data:image/jpeg;base64" = None.
Proof.
  destruct (getBase64Data_takes_the_payload "data:image/jpeg;base64"
              "/9j/4AAQ" eq_refl) as (_ & H & N).
  split; [exact (H eq_refl) | exact N].
Defined.

(** X2.  Every operation of the adapter calls the hosted model once, when
    it calls at all: no retry.  It logs at most the one exception it
    caught, and it leaves the clock and all React state as they were. *)
Theorem adapter_calls_once_and_keeps_state
        `{RT : Runtime} (w : World) (image weather vibe theme : string)
        (item : ClothingItem.t) (rest : list ClothingItem.t) :
  let stocked := item :: rest in
  one_call (GeminiService.analysis_request image) "Error analyzing clothing:"
           w (snd (GeminiService.analyzeClothingItem image w))
  /\ one_call (GeminiService.outfit_request stocked weather vibe)
              "Outfit generation error:"
              w (snd (GeminiService.generateOutfit stocked weather vibe w))
  /\ one_call (GeminiService.inspo_request stocked image) "Inspo match error:"
              w (snd (GeminiService.generateOutfitFromImage stocked image w))
  /\ one_call (GeminiService.plan_request stocked weather theme)
              "Weekly plan error:"
              w (snd (GeminiService.generateWeeklyPlan stocked weather theme w))
  /\ one_call (GeminiService.similarity_request image stocked)
              "Similarity check error:"
              w (snd (GeminiService.checkSimilarity image stocked w)).
Proof.
  cbv zeta. unfold one_call. repeat apply conj;
    try (rewrite analyzeClothingItem_run
         || rewrite generateOutfit_run
         || rewrite generateOutfitFromImage_run
         || rewrite generateWeeklyPlan_run
         || rewrite checkSimilarity_run);
    cbv zeta; unfold called, logged, thrown_by;
    destruct (end_of _) as [e | | | v |]; try destruct v; simpl;
    try reflexivity;
    solve [left; reflexivity
          | right; eexists; rewrite <- app_assoc; reflexivity].
Qed.

Lemma truthy_or_else (a b : jsval) :
  truthy b = true -> truthy (or_else a b) = true.
Proof. intros H. unfold or_else. destruct (truthy a) eqn:E; assumption. Qed.

(** The outfit built from a parsed reply: [null], or labelled with the
    clock and with the vibe of the reply, or else with the fallback. *)
Lemma outfit_from_has_id_and_vibe (v : jsval) (t : Z) (fallback : string) :
  outfit_from v t fallback = JNull
  \/ (prop_of (outfit_from v t fallback) "id" = JStr (Number_toString t)
      /\ prop_of (outfit_from v t fallback) "vibe"
         = (if truthy (prop_of v "vibe") then prop_of v "vibe"
            else JStr fallback)
      /\ (nonempty fallback = true ->
          truthy (prop_of (outfit_from v t fallback) "vibe") = true)).
Proof.
  destruct v; simpl; auto; right; (split; [reflexivity |]);
    unfold prop_of; simpl; (split; [reflexivity |]);
    intros H; apply truthy_or_else; exact H.
Qed.

(** X3.  An outfit the adapter returns is [null], or it carries the clock
    reading as its id, and as its vibe the vibe of the reply where that is
    truthy, and otherwise the vibe the user asked for, or [Inspo Match] for
    an inspiration photo; so the vibe is not blank, unless the user asked
    with an empty one.  The outfit is [null] when the wardrobe is empty and
    when the call fails; when the call never settles, nothing is
    returned. *)
Theorem returned_outfit_has_id_and_vibe
        `{RT : Runtime} (w : World) (image weather vibe : string)
        (wardrobe : list ClothingItem.t) :
  let labelled (asked : string) (req : request) (run : outcome jsval) :=
    match wardrobe, end_of (gemini w req) with
    | _ :: _, NeverSettles => run = Pending None
    | _ :: _, Parsed v =>
        exists o,
          run = Done o
          /\ (o = JNull
              \/ (prop_of o "id" = JStr (Number_toString (now w))
                  /\ prop_of o "vibe"
                     = (if truthy (prop_of v "vibe") then prop_of v "vibe"
                        else JStr asked)
                  /\ (nonempty asked = true ->
                      truthy (prop_of o "vibe") = true)))
    | _, _ => run = Done JNull
    end in
  labelled "Inspo Match" (GeminiService.inspo_request wardrobe image)
           (fst (GeminiService.generateOutfitFromImage wardrobe image w))
  /\ labelled vibe (GeminiService.outfit_request wardrobe weather vibe)
              (fst (GeminiService.generateOutfit wardrobe weather vibe w)).
Proof.
  cbv zeta. split;
    (destruct wardrobe as [| item rest]; [reflexivity |]).
  - rewrite generateOutfitFromImage_run. cbv zeta.
    destruct (end_of _) as [e | | | v |]; try reflexivity.
    exists (outfit_from v (now w) "Inspo Match").
    split; [destruct v; reflexivity |].
    apply outfit_from_has_id_and_vibe.
  - rewrite generateOutfit_run. cbv zeta.
    destruct (end_of _) as [e | | | v |]; try reflexivity.
    exists (outfit_from v (now w) vibe).
    split; [destruct v; reflexivity |].
    apply outfit_from_has_id_and_vibe.
Qed.

(** The reply has no vibe: the outfit is labelled with the user's. *)
Lemma returned_outfit_has_id_and_vibe_witness :
  exists o,
    fst (GeminiService.generateOutfit (RT := Sample.runtime) Examples.closet
           "Temperature is 20°C, clear skies." "City Walk"
           (Examples.world
              (Responds (Some (Sample.json "{'itemIds':['1','2']}")))
              Examples.closet [] None))
    = Done o
    /\ (o = JNull
        \/ (prop_of o "id" = JStr "1700000000000"
            /\ prop_of o "vibe" = JStr "City Walk"
            /\ (nonempty "City Walk" = true ->
                truthy (prop_of o "vibe") = true))).
Proof.
  exact (proj2 (returned_outfit_has_id_and_vibe
                  (RT := Sample.runtime)
                  (Examples.world
                     (Responds (Some (Sample.json "{'itemIds':['1','2']}")))
                     Examples.closet [] None)
                  EmptyString "Temperature is 20°C, clear skies." "City Walk"
                  Examples.closet)).
Defined.

(** ** More on the upload and the wishlist form *)

(** X4.  An upload lets no exception out, and leaves the wishlist and
    the events as they were.  Without a file it does nothing.  With one,
    it ends, with [isAnalyzing] false again, whenever the call of the
    classification settles, whatever the reply is; while the call does not
    settle, the upload does not end, [isAnalyzing] stays true and the
    wardrobe is as it was.  When the classification is [null], the user is
    alerted and the wardrobe stays as it was. *)
Theorem upload_is_contained `{RT : Runtime} (w : World) :
  Composition.upload None w = (Done tt, w)
  /\ forall base64String : string,
      let run := Composition.upload (Some base64String) w in
      let classification :=
        end_of (gemini w (GeminiService.analysis_request base64String)) in
      (forall e, fst run <> Threw e)
      /\ wishlist (app (snd run)) = wishlist (app w)
      /\ events (app (snd run)) = events (app w)
      /\ match classification with
         | NeverSettles =>
             fst run = Pending None
             /\ isAnalyzing (snd run) = true
             /\ wardrobe (app (snd run)) = wardrobe (app w)
         | _ => fst run = Done tt /\ isAnalyzing (snd run) = false
         end
      /\ (classification = Parsed JNull ->
          wardrobe (app (snd run)) = wardrobe (app w)
          /\ In (Alert "Oops! Couldn't scan that item.") (trace (snd run))).
Proof.
  split; [reflexivity |]. intros b. cbv zeta.
  destruct (analyzeClothingItem_frame b (with_isAnalyzing true w))
    as (w1 & Hrun & _ & Happ & Hflag & _).
  simpl in Hrun, Happ, Hflag.
  assert (Hsettled :
    forall m : jsval,
      GeminiService.analyzeClothingItem b (with_isAnalyzing true w)
      = (Done m, w1) ->
      let run := Composition.upload (Some b) w in
      (forall e, fst run <> Threw e)
      /\ wishlist (app (snd run)) = wishlist (app w)
      /\ events (app (snd run)) = events (app w)
      /\ (fst run = Done tt /\ isAnalyzing (snd run) = false)
      /\ (m = JNull ->
          wardrobe (app (snd run)) = wardrobe (app w)
          /\ In (Alert "Oops! Couldn't scan that item.") (trace (snd run)))).
  { intros m Hm. cbv zeta. rewrite (upload_run _ _ _ _ Hm).
    destruct (classified m (now w1) b) as [item |] eqn:Hitem; simpl;
      rewrite Happ; repeat apply conj; try reflexivity;
      try (intros e; discriminate).
    - intros ->. discriminate Hitem.
    - intros _. split; [reflexivity |].
      apply in_or_app. right. left. reflexivity. }
  destruct (end_of _) as [e | | | v |] eqn:Hend; simpl in Hrun.
  - destruct (Hsettled _ Hrun) as (H1 & H2 & H3 & H4 & _).
    repeat apply conj; try assumption; try (apply H4). discriminate.
  - destruct (Hsettled _ Hrun) as (H1 & H2 & H3 & H4 & _).
    repeat apply conj; try assumption; try (apply H4). discriminate.
  - destruct (Hsettled _ Hrun) as (H1 & H2 & H3 & H4 & _).
    repeat apply conj; try assumption; try (apply H4). discriminate.
  - destruct (Hsettled _ Hrun) as (H1 & H2 & H3 & H4 & H5).
    repeat apply conj; try assumption; try (apply H4).
    intros Hnull. injection Hnull as ->. apply H5. reflexivity.
  - rewrite (upload_waits _ _ _ _ Hrun). simpl. rewrite Happ, Hflag.
    repeat apply conj; auto; discriminate.
Qed.

(** The reply is the JSON text [null]; and a call that never settles. *)
Lemma upload_is_contained_witness :
  let answers (reply : reply) :=
    Composition.upload (RT := Sample.runtime)
      (Some "data:image/jpeg;base64,GGGG")
      (Examples.world reply Examples.closet [] None) in
  (fst (answers (Responds (Some "null"))) = Done tt
   /\ wardrobe (app (snd (answers (Responds (Some "null")))))
      = Examples.stored_closet
   /\ In (Alert "Oops! Couldn't scan that item.")
         (trace (snd (answers (Responds (Some "null"))))))
  /\ (fst (answers Hangs) = Pending None
      /\ isAnalyzing (snd (answers Hangs)) = true).
Proof.
  cbv zeta. split.
  - destruct (proj2 (upload_is_contained
                       (RT := Sample.runtime)
                       (Examples.world (Responds (Some "null"))
                          Examples.closet [] None))
                    "data:image/jpeg;base64,GGGG")
      as (_ & _ & _ & Hend & Hnull).
    destruct (Hnull eq_refl) as [Hw Halert].
    split; [exact (proj1 Hend) |]. split; [exact Hw | exact Halert].
  - destruct (proj2 (upload_is_contained
                       (RT := Sample.runtime)
                       (Examples.world Hangs Examples.closet [] None))
                    "data:image/jpeg;base64,GGGG")
      as (_ & _ & _ & Hend & _).
    split; [exact (proj1 Hend) | exact (proj1 (proj2 Hend))].
Defined.

(** X5.  A submission that adds an item clears the form, so submitting
    the form once more, as it then stands, adds nothing: the second
    submission finds no photo and alerts. *)
Theorem second_submission_adds_nothing `{RT : Runtime} (w : World) :
  form_complete (form w) = true ->
  let once := snd (Composition.submitWish w) in
  let twice := snd (Composition.submitWish once) in
  form once = Wishlist.blank_form
  /\ List.length (wishlist (app once)) = S (List.length (wishlist (app w)))
  /\ wishlist (app twice) = wishlist (app once)
  /\ trace twice = trace once ++ [Alert "Please upload a photo!"].
Proof.
  unfold form_complete, Composition.submitWish, Wishlist.handleAdd,
    Wishlist.has_image.
  destruct (nonempty (name (form w))), (nonempty (price (form w))),
    (previewImage (form w)) as [url |]; simpl; try discriminate.
  destruct (nonempty url); simpl; try discriminate.
  intros _. repeat split.
Qed.

Lemma second_submission_adds_nothing_witness :
  let w := Examples.filled
             (Examples.world Examples.offline Examples.closet [] None)
             "Red Silk Dress" "80" "Zara"
             (Some "data:image/jpeg;base64,HHHH") in
  let once := snd (Composition.submitWish (RT := Sample.runtime) w) in
  let twice := snd (Composition.submitWish (RT := Sample.runtime) once) in
  form once = Wishlist.blank_form
  /\ List.length (wishlist (app once)) = 2%nat
  /\ wishlist (app twice) = wishlist (app once)
  /\ trace twice = trace once ++ [Alert "Please upload a photo!"].
Proof.
  cbv zeta.
  apply (second_submission_adds_nothing
           (RT := Sample.runtime)
           (Examples.filled
              (Examples.world Examples.offline Examples.closet [] None)
              "Red Silk Dress" "80" "Zara"
              (Some "data:image/jpeg;base64,HHHH"))).
  reflexivity.
Defined.

(** ** More on the collections *)

Lemma filter_not_id_cons {A : Type} (key : A -> string) (x : A) (l : list A) :
  filter (fun y => negb (String.eqb (key y) (key x))) (x :: l)
  = filter (fun y => negb (String.eqb (key y) (key x))) l.
Proof. simpl. rewrite String.eqb_refl. reflexivity. Qed.

(** X6.  Deleting from the wardrobe or the wishlist is idempotent, and
    two deletions commute.  Deleting the id of an item right after adding
    it removes it again, together with every older entry of the same id;
    where the id was new, the collection is back as it was. *)
Theorem deletion_laws
        (w : World) (a b : string) (item : ClothingItem.raw)
        (wish : WishlistItem.t) :
  let drop id w := snd (App.deleteWardrobeItem id w) in
  let unwish id w := snd (App.deleteWishlistItem id w) in
  drop a (drop a w) = drop a w
  /\ drop a (drop b w) = drop b (drop a w)
  /\ unwish a (unwish a w) = unwish a w
  /\ unwish a (unwish b w) = unwish b (unwish a w)
  /\ drop (ClothingItem.id item) (snd (App.addWardrobeItem item w))
     = drop (ClothingItem.id item) w
  /\ unwish (WishlistItem.id wish) (snd (App.addToWishlist wish w))
     = unwish (WishlistItem.id wish) w
  /\ (Forall (fun x => ClothingItem.id x <> ClothingItem.id item)
             (wardrobe (app w)) ->
      wardrobe (app (drop (ClothingItem.id item)
                          (snd (App.addWardrobeItem item w))))
      = wardrobe (app w))
  /\ (Forall (fun x => WishlistItem.id x <> WishlistItem.id wish)
             (wishlist (app w)) ->
      wishlist (app (unwish (WishlistItem.id wish)
                            (snd (App.addToWishlist wish w))))
      = wishlist (app w)).
Proof.
  cbv zeta. repeat apply conj.
  - simpl. unfold with_app. simpl. rewrite filter_twice. reflexivity.
  - simpl. unfold with_app. simpl. rewrite filter_swap. reflexivity.
  - simpl. unfold with_app. simpl. rewrite filter_twice. reflexivity.
  - simpl. unfold with_app. simpl. rewrite filter_swap. reflexivity.
  - unfold App.deleteWardrobeItem, App.addWardrobeItem, App.setWardrobe,
      modify_app, with_app. cbn [snd app wardrobe wishlist events
      eventToDelete now gemini trace isAnalyzing form].
    rewrite (filter_not_id_cons ClothingItem.id). reflexivity.
  - unfold App.deleteWishlistItem, App.addToWishlist, App.setWishlist,
      modify_app, with_app. cbn [snd app wardrobe wishlist events
      eventToDelete now gemini trace isAnalyzing form].
    rewrite (filter_not_id_cons WishlistItem.id). reflexivity.
  - intros Hfresh.
    unfold App.deleteWardrobeItem, App.addWardrobeItem, App.setWardrobe,
      modify_app, with_app. cbn [snd app wardrobe].
    rewrite (filter_not_id_cons ClothingItem.id).
    apply (Removed_absent ClothingItem.id (ClothingItem.id item)).
    + apply filter_Removed.
    + exact Hfresh.
  - intros Hfresh.
    unfold App.deleteWishlistItem, App.addToWishlist, App.setWishlist,
      modify_app, with_app. cbn [snd app wishlist].
    rewrite (filter_not_id_cons WishlistItem.id).
    apply (Removed_absent WishlistItem.id (WishlistItem.id wish)).
    + apply filter_Removed.
    + exact Hfresh.
Qed.

(** A new coat over a closet that has no item of its id. *)
Lemma deletion_laws_witness :
  let w := Examples.world Examples.offline
             [Examples.tee; Examples.jeans] [] None in
  wardrobe (app (snd (App.deleteWardrobeItem "4"
                        (snd (App.addWardrobeItem
                                (ClothingItem.stored Examples.coat) w)))))
  = map ClothingItem.stored [Examples.tee; Examples.jeans].
Proof.
  cbv zeta.
  apply (deletion_laws
           (Examples.world Examples.offline [Examples.tee; Examples.jeans]
              [] None)
           EmptyString EmptyString (ClothingItem.stored Examples.coat)
           Examples.wish).
  repeat constructor; discriminate.
Defined.

(** X7.  The delete confirmation of the wardrobe view and of the wishlist
    view removes the entries of the pending id from its collection and
    clears the pending id.  Without a pending id, or with an empty one, it
    changes nothing and the pending id stays. *)
Theorem view_confirmation_deletes_the_pending_id
        (w : World) (pending : option string) :
  let settled :=
    match pending with
    | Some id => nonempty id
    | None => false
    end in
  (if settled then
     exists id w',
       pending = Some id
       /\ Composition.confirmWardrobeDelete pending w = (Done None, w')
       /\ Removed ClothingItem.id id (wardrobe (app w)) (wardrobe (app w'))
       /\ wishlist (app w') = wishlist (app w)
   else Composition.confirmWardrobeDelete pending w = (Done pending, w))
  /\ (if settled then
        exists id w',
          pending = Some id
          /\ Composition.confirmWishDelete pending w = (Done None, w')
          /\ Removed WishlistItem.id id (wishlist (app w)) (wishlist (app w'))
          /\ wardrobe (app w') = wardrobe (app w)
      else Composition.confirmWishDelete pending w = (Done pending, w)).
Proof.
  cbv zeta.
  unfold Composition.confirmWardrobeDelete, Composition.confirmWishDelete,
    Wardrobe.confirmDelete, Wishlist.confirmDelete.
  destruct pending as [id |]; [| split; reflexivity].
  destruct (nonempty id); [| split; reflexivity].
  split; exists id; eexists; (split; [reflexivity |]);
    (split; [reflexivity |]); simpl; (split; [| reflexivity]);
    apply filter_Removed.
Qed.

(** ** The color facets of the wardrobe *)

Lemma existsb_eqb_In (x : string) (seen : list string) :
  existsb (String.eqb x) seen = true <-> In x seen.
Proof.
  rewrite existsb_exists. split.
  - intros (y & Hy & E). apply String.eqb_eq in E. subst. exact Hy.
  - intros H. exists x. split; [exact H | apply String.eqb_refl].
Qed.

Lemma unique_from_In (seen a : list string) (x : string) :
  In x (Wardrobe.unique_from seen a) <-> In x a /\ ~ In x seen.
Proof.
  revert seen. induction a as [| y a IH]; intros seen; simpl.
  - tauto.
  - destruct (existsb (String.eqb y) seen) eqn:E.
    + apply existsb_eqb_In in E. rewrite IH. split.
      * tauto.
      * intros [[-> | H] N]; [contradiction | tauto].
    + assert (N : ~ In y seen).
      { intros H. apply existsb_eqb_In in H. congruence. }
      simpl. rewrite IH. simpl. split.
      * intros [-> | [H1 H2]]; [tauto |]. tauto.
      * intros [[-> | H] Hs]; [tauto |].
        destruct (string_dec y x) as [-> | D]; [tauto |]. right. tauto.
Qed.

Lemma unique_from_NoDup (seen a : list string) :
  NoDup (Wardrobe.unique_from seen a).
Proof.
  revert seen. induction a as [| y a IH]; intros seen; simpl.
  - constructor.
  - destruct (existsb (String.eqb y) seen); [apply IH |].
    constructor; [| apply IH].
    rewrite unique_from_In. simpl. tauto.
Qed.

Lemma firstn_In {A : Type} (n : nat) (l : list A) (x : A) :
  In x (firstn n l) -> In x l.
Proof.
  revert n. induction l as [| y l IH]; intros [| n]; simpl; try tauto.
  intros [-> | H]; [left; reflexivity | right; eauto].
Qed.

Lemma NoDup_firstn {A : Type} (n : nat) (l : list A) :
  NoDup l -> NoDup (firstn n l).
Proof.
  revert n. induction l as [| x l IH]; intros [| n] H; simpl;
    try constructor.
  - inversion H; subst. intros Hin. apply firstn_In in Hin. contradiction.
  - inversion H; subst. auto.
Qed.

Lemma facet_has_an_item (items : list ClothingItem.t) (c : string) :
  In c (Wardrobe.colors items) ->
  exists item, In item items /\ first_word (ClothingItem.color item) = c.
Proof.
  unfold Wardrobe.colors, slice0. intros Hc.
  apply firstn_In in Hc. apply unique_from_In in Hc.
  destruct Hc as [Hc _]. apply in_map_iff in Hc.
  destruct Hc as (item & E & Hin). exists item. split; assumption.
Qed.

(** X8.  The color facets are the first words of the items' colors,
    without repetition, at most eight of them; the first word of every
    item is among them unless all eight places are taken. *)
Theorem color_facets_are_distinct_first_words (items : list ClothingItem.t) :
  NoDup (Wardrobe.colors items)
  /\ (List.length (Wardrobe.colors items) <= 8)%nat
  /\ (forall c, In c (Wardrobe.colors items) ->
      exists item, In item items /\ first_word (ClothingItem.color item) = c)
  /\ (forall item, In item items ->
      In (first_word (ClothingItem.color item)) (Wardrobe.colors items)
      \/ List.length (Wardrobe.colors items) = 8%nat).
Proof.
  repeat apply conj.
  - apply NoDup_firstn, unique_from_NoDup.
  - apply firstn_le_length.
  - apply facet_has_an_item.
  - intros item Hin. unfold Wardrobe.colors, slice0.
    set (words := map (fun i => hd EmptyString
                                   (split " " (ClothingItem.color i))) items).
    destruct (Nat.le_gt_cases (List.length (Wardrobe.unique_from [] words)) 8)
      as [Hle | Hgt].
    + left. rewrite firstn_all2 by exact Hle.
      apply unique_from_In. split; [| simpl; tauto].
      unfold words. apply in_map_iff. exists item.
      split; [reflexivity | exact Hin].
    + right. apply firstn_length_le. lia.
Qed.

Lemma first_word_is_prefix (s : string) : String.prefix (first_word s) s = true.
Proof.
  unfold first_word. induction s as [| c s IH]; simpl; [reflexivity |].
  destruct (Ascii.eqb c " "); [reflexivity |].
  destruct (split " " s) as [| p ps]; simpl in *.
  - destruct (ascii_dec c c); [| congruence]. destruct s; reflexivity.
  - destruct (ascii_dec c c); [exact IH | congruence].
Qed.

Lemma toLowerCase_prefix (a b : string) :
  String.prefix a b = true ->
  String.prefix (toLowerCase a) (toLowerCase b) = true.
Proof.
  revert b. induction a as [| x a IH]; intros [| y b]; simpl; auto.
  destruct (ascii_dec x y) as [-> | N]; [| discriminate].
  intros H. destruct (ascii_dec (lower_ascii y) (lower_ascii y)); [| congruence].
  apply IH. exact H.
Qed.

Lemma prefix_includes (s t : string) :
  String.prefix t s = true -> includes s t = true.
Proof. intros H. destruct s; simpl in *; rewrite H; reflexivity. Qed.

(** X9.  Every color facet finds at least the item it was taken from:
    filtering by a facet is never empty. *)
Theorem every_facet_finds_its_item (items : list ClothingItem.t) (c : string) :
  In c (Wardrobe.colors items) ->
  exists item,
    In item (Wardrobe.filteredItems items Wardrobe.All (Some c))
    /\ first_word (ClothingItem.color item) = c.
Proof.
  intros Hc.
  destruct (facet_has_an_item items c Hc) as (item & Hin & Hword).
  exists item. split; [| exact Hword].
  unfold Wardrobe.filteredItems. apply filter_In. split; [exact Hin |].
  simpl. apply orb_true_iff. right.
  apply prefix_includes, toLowerCase_prefix.
  rewrite <- Hword. apply first_word_is_prefix.
Qed.

(** The closet offers Navy; filtering by it finds the navy tee. *)
Lemma every_facet_finds_its_item_witness :
  exists item,
    In item (Wardrobe.filteredItems Examples.closet Wardrobe.All (Some "Navy"))
    /\ first_word (ClothingItem.color item) = "Navy".
Proof.
  apply (every_facet_finds_its_item Examples.closet "Navy").
  left. reflexivity.
Defined.

Lemma nonempty_toLowerCase (s : string) :
  nonempty (toLowerCase s) = nonempty s.
Proof. destruct s; reflexivity. Qed.

(** X10.  The color filter does not tell capitals from small letters in
    the color it is given: two colors that are equal in lower case select
    the same items, under every category filter. *)
Theorem color_filter_ignores_case
        (items : list ClothingItem.t) (activeCategory : Wardrobe.CategoryFilter)
        (c1 c2 : string) :
  toLowerCase c1 = toLowerCase c2 ->
  Wardrobe.filteredItems items activeCategory (Some c1)
  = Wardrobe.filteredItems items activeCategory (Some c2).
Proof.
  intros E. unfold Wardrobe.filteredItems. apply filter_ext. intros item.
  unfold Wardrobe.matchColor.
  rewrite <- (nonempty_toLowerCase c1), <- (nonempty_toLowerCase c2), E.
  reflexivity.
Qed.

Lemma color_filter_ignores_case_witness :
  Wardrobe.filteredItems Examples.closet Wardrobe.All (Some "BLUE")
  = Wardrobe.filteredItems Examples.closet Wardrobe.All (Some "Blue").
Proof.
  apply (color_filter_ignores_case Examples.closet Wardrobe.All "BLUE" "Blue").
  reflexivity.
Defined.
(** ** More on the stylist *)

Section StylistRuns.
Context `{RT : Runtime}.

(** How the three operations the stylist calls end: with a value, unless
    there is a call and it never settles. *)
Lemma generateOutfit_ends (wardrobe : list ClothingItem.t)
      (weather vibe : string) (w : World) :
  exists w',
    (if waits wardrobe (GeminiService.outfit_request wardrobe weather vibe) w
     then GeminiService.generateOutfit wardrobe weather vibe w
          = (Pending None, w')
     else exists o,
         GeminiService.generateOutfit wardrobe weather vibe w = (Done o, w')).
Proof.
  unfold waits.
  destruct wardrobe as [| item rest]; [eexists; eexists; reflexivity |].
  rewrite generateOutfit_run. cbv zeta.
  destruct (end_of _) as [e | | | v |]; try destruct v;
    eexists; try eexists; reflexivity.
Qed.

Lemma generateOutfitFromImage_ends (wardrobe : list ClothingItem.t)
      (image : string) (w : World) :
  exists w',
    (if waits wardrobe (GeminiService.inspo_request wardrobe image) w
     then GeminiService.generateOutfitFromImage wardrobe image w
          = (Pending None, w')
     else exists o,
         GeminiService.generateOutfitFromImage wardrobe image w
         = (Done o, w')).
Proof.
  unfold waits.
  destruct wardrobe as [| item rest]; [eexists; eexists; reflexivity |].
  rewrite generateOutfitFromImage_run. cbv zeta.
  destruct (end_of _) as [e | | | v |]; try destruct v;
    eexists; try eexists; reflexivity.
Qed.

Lemma generateWeeklyPlan_ends (wardrobe : list ClothingItem.t)
      (weather theme : string) (w : World) :
  exists w',
    (if waits wardrobe (GeminiService.plan_request wardrobe weather theme) w
     then GeminiService.generateWeeklyPlan wardrobe weather theme w
          = (Pending None, w')
     else exists p,
         GeminiService.generateWeeklyPlan wardrobe weather theme w
         = (Done p, w')).
Proof.
  unfold waits.
  destruct wardrobe as [| item rest]; [eexists; eexists; reflexivity |].
  rewrite generateWeeklyPlan_run. cbv zeta.
  destruct (end_of _); eexists; try eexists; reflexivity.
Qed.

End StylistRuns.

(** X11.  Asking the stylist never throws.  Without a query (no preset,
    no vibe typed) and without a file nothing happens: no call, no change.
    Otherwise, when the call settles (or the wardrobe is empty, and there
    is no call), the component is left not loading, with the vibe and the
    mode it had, and with at most one result: a single outfit or an
    inspiration match clears the plan, a plan clears the outfit.  When the
    call never settles the handler never ends, and the component stays as
    it was set before the call: loading, which shows the spinner and
    nothing else. *)
Theorem stylist_keeps_one_result
        `{RT : Runtime} (wardrobe : list ClothingItem.t)
        (weatherContext : string) (st : Stylist.State)
        (preset : option string) (image : string) (w : World) :
  let query :=
    match preset with
    | Some p => if nonempty p then p else Stylist.vibeInput st
    | None => Stylist.vibeInput st
    end in
  let context :=
    if nonempty weatherContext then weatherContext
    else "Temperature is 20°C, clear skies." in
  let request :=
    match Stylist.mode st with
    | Stylist.SINGLE => GeminiService.outfit_request wardrobe context query
    | _ => GeminiService.plan_request wardrobe context query
    end in
  let asked := Stylist.handleGenerate wardrobe weatherContext st preset w in
  let matched := Stylist.handleInspoUpload wardrobe st (Some image) w in
  let loading := Stylist.setIsLoading st true in
  let settled (run : outcome Stylist.State) (single : bool) :=
    exists st',
      run = Done st'
      /\ Stylist.vibeInput st' = Stylist.vibeInput st
      /\ Stylist.mode st' = Stylist.mode st
      /\ Stylist.isLoading st' = false
      /\ (if single then Stylist.weeklyPlan st' = JNull
          else Stylist.generatedOutfit st' = JNull) in
  (if nonempty query
   then if waits wardrobe request w
        then fst asked = Pending (Some loading)
        else settled (fst asked)
                     match Stylist.mode st with
                     | Stylist.SINGLE => true
                     | _ => false
                     end
   else asked = (Done st, w))
  /\ Stylist.handleInspoUpload wardrobe st None w = (Done st, w)
  /\ (if waits wardrobe (GeminiService.inspo_request wardrobe image) w
      then fst matched = Pending (Some loading)
      else settled (fst matched) true)
  /\ Stylist.render wardrobe loading
     = inr {| Stylist.inputs_shown := false; Stylist.spinner_shown := true;
              Stylist.outfit_section := None; Stylist.plan_section := None |}.
Proof.
  cbv zeta. repeat apply conj.
  - unfold Stylist.handleGenerate.
    set (query := match preset with
                  | Some p => if nonempty p then p else Stylist.vibeInput st
                  | None => Stylist.vibeInput st
                  end).
    destruct (nonempty query); cbn [negb]; [| reflexivity].
    set (context := if nonempty weatherContext then weatherContext
                    else "Temperature is 20°C, clear skies.").
    unfold awaiting, bind.
    change (Stylist.mode (Stylist.setIsLoading st true))
      with (Stylist.mode st).
    destruct (Stylist.mode st) eqn:Hmode.
    + destruct (generateOutfit_ends wardrobe context query w) as (w' & H).
      destruct (waits wardrobe _ w); [rewrite H; reflexivity |].
      destruct H as (o & ->). simpl. eexists. repeat split; simpl; auto.
    + destruct (generateWeeklyPlan_ends wardrobe context query w) as (w' & H).
      destruct (waits wardrobe _ w); [rewrite H; reflexivity |].
      destruct H as (o & ->). simpl. eexists. repeat split; simpl; auto.
    + destruct (generateWeeklyPlan_ends wardrobe context query w) as (w' & H).
      destruct (waits wardrobe _ w); [rewrite H; reflexivity |].
      destruct H as (o & ->). simpl. eexists. repeat split; simpl; auto.
  - reflexivity.
  - unfold Stylist.handleInspoUpload, awaiting, bind.
    destruct (generateOutfitFromImage_ends wardrobe image w) as (w' & H).
    destruct (waits wardrobe _ w); [rewrite H; reflexivity |].
    destruct H as (o & ->). simpl. eexists. repeat split; simpl; auto.
  - unfold Stylist.render, Stylist.elements, Stylist.bind_err. simpl.
    rewrite !andb_false_r. reflexivity.
Qed.

(** X12.  The stylist view shows one stage at a time.  While loading it
    shows the spinner and no result, whatever the results hold, and cannot
    throw.  With no result and not loading it shows the inputs.  In every
    render the inputs are shown exactly when there is neither a spinner nor
    a result section. *)
Theorem stylist_view_has_stages
        (wardrobe : list ClothingItem.t) (st : Stylist.State) :
  (Stylist.isLoading st = true ->
   Stylist.render wardrobe st
   = inr {| Stylist.inputs_shown := false; Stylist.spinner_shown := true;
            Stylist.outfit_section := None; Stylist.plan_section := None |})
  /\ (truthy (Stylist.generatedOutfit st) = false ->
      truthy (Stylist.weeklyPlan st) = false ->
      Stylist.render wardrobe st
      = inr {| Stylist.inputs_shown := negb (Stylist.isLoading st);
               Stylist.spinner_shown := Stylist.isLoading st;
               Stylist.outfit_section := None;
               Stylist.plan_section := None |})
  /\ (forall view,
         Stylist.render wardrobe st = inr view ->
         Stylist.spinner_shown view = Stylist.isLoading st
         /\ (Stylist.inputs_shown view = true <->
             Stylist.spinner_shown view = false
             /\ Stylist.outfit_section view = None
             /\ Stylist.plan_section view = None)).
Proof.
  assert (Hin : forall view,
             Stylist.render wardrobe st = inr view ->
             Stylist.elements wardrobe st = inr view).
  { intros view. unfold Stylist.render, Stylist.bind_err.
    destruct (Stylist.elements wardrobe st) as [e | built];
      [discriminate |].
    destruct (Stylist.map_err Stylist.child (Stylist.children built));
      [discriminate |].
    intros H. exact H. }
  repeat apply conj.
  - unfold Stylist.render, Stylist.elements, Stylist.bind_err.
    intros ->. rewrite !andb_false_r. reflexivity.
  - unfold Stylist.render, Stylist.elements, Stylist.bind_err.
    intros -> ->. reflexivity.
  - intros view Hview. apply Hin in Hview. revert Hview.
    unfold Stylist.elements, Stylist.bind_err.
    destruct (truthy (Stylist.generatedOutfit st)),
      (truthy (Stylist.weeklyPlan st)), (Stylist.isLoading st); simpl;
      repeat match goal with
             | |- context [Stylist.render_outfit ?a ?b] =>
                 destruct (Stylist.render_outfit a b)
             | |- context [Stylist.map_err ?f ?l] =>
                 destruct (Stylist.map_err f l)
             end;
      intros H; inversion H; subst; simpl; split; try reflexivity;
      split; try (intros (? & ? & ?)); try discriminate; auto.
Qed.

(** *** The order of the visual *)

Lemma StronglySorted_app {A : Type} (R : A -> A -> Prop) (l1 l2 : list A) :
  StronglySorted R l1 -> StronglySorted R l2 ->
  (forall a b, In a l1 -> In b l2 -> R a b) ->
  StronglySorted R (l1 ++ l2).
Proof.
  intros H1 H2 H. induction H1 as [| x l1 Hl1 IH Hx]; simpl; [exact H2 |].
  constructor.
  - apply IH. intros a b Ha Hb. apply H; [right; exact Ha | exact Hb].
  - apply Forall_app. split; [exact Hx |].
    apply Forall_forall. intros b Hb. apply H; [left; reflexivity | exact Hb].
Qed.

(** Items that have their place in common are in order, whatever their
    order. *)
Lemma same_place_sorted (n : nat) (l : list ClothingItem.t) :
  Forall (fun item => place (ClothingItem.category item) = n) l ->
  StronglySorted no_later l.
Proof.
  induction 1 as [| x l Hx Hl IH]; constructor; [exact IH |].
  eapply Forall_impl; [| exact Hl].
  intros y Hy. unfold no_later. rewrite Hx, Hy. apply le_n.
Qed.

Lemma bucket_place (c : ClothingCategory) (l : list ClothingItem.t) :
  Forall (fun item => place (ClothingItem.category item) = place c)
         (filter (fun item => String.eqb (ClothingItem.category item) c) l).
Proof.
  apply Forall_forall. intros y Hy. apply filter_In in Hy.
  destruct Hy as [_ Hy]. apply String.eqb_eq in Hy. rewrite Hy. reflexivity.
Qed.

Lemma rest_place (l : list ClothingItem.t) :
  Forall (fun item => place (ClothingItem.category item) = 7%nat)
         (filter (fun item => negb (listed (ClothingItem.category item))) l).
Proof.
  apply Forall_forall. intros y Hy. apply filter_In in Hy.
  destruct Hy as [_ Hy]. apply negb_true_iff in Hy.
  unfold listed, display_order in Hy. simpl in Hy.
  repeat (apply orb_false_iff in Hy; destruct Hy as [? Hy]).
  unfold place, display_order, place_in.
  repeat match goal with
         | E : String.eqb _ _ = false |- _ => rewrite E; clear E
         end.
  reflexivity.
Qed.

(** Two lists in order, the places of the first below the places of the
    second: in order together. *)
Lemma sorted_by_place (n : nat) (l1 l2 : list ClothingItem.t) :
  Forall (fun item => place (ClothingItem.category item) = n) l1 ->
  StronglySorted no_later l2 ->
  Forall (fun item => (n <= place (ClothingItem.category item))%nat) l2 ->
  StronglySorted no_later (l1 ++ l2)
  /\ Forall (fun item => (n <= place (ClothingItem.category item))%nat)
            (l1 ++ l2).
Proof.
  intros H1 H2 Hn. split.
  - apply StronglySorted_app; [apply (same_place_sorted n); exact H1
                              | exact H2 |].
    intros a b Ha Hb. unfold no_later.
    rewrite (proj1 (Forall_forall _ _) H1 a Ha).
    exact (proj1 (Forall_forall _ _) Hn b Hb).
  - apply Forall_app. split; [| exact Hn].
    eapply Forall_impl; [| exact H1]. intros a Ha. simpl in Ha.
    rewrite Ha. apply le_n.
Qed.

(** Head to toe is in the display order: no item comes before one whose
    category the order puts ahead of its own. *)
Lemma head_to_toe_sorted (l : list ClothingItem.t) :
  StronglySorted no_later (head_to_toe l).
Proof.
  unfold head_to_toe, display_order. simpl flat_map.
  rewrite !app_nil_r. rewrite <- !app_assoc.
  assert (H8 : StronglySorted no_later
                 (filter (fun item =>
                            negb (listed (ClothingItem.category item))) l)
               /\ Forall (fun item =>
                            (7 <= place (ClothingItem.category item))%nat)
                         (filter (fun item =>
                                    negb (listed (ClothingItem.category item)))
                                 l)).
  { split; [apply (same_place_sorted 7), rest_place |].
    eapply Forall_impl; [| apply rest_place].
    intros a Ha. simpl in Ha. rewrite Ha. apply le_n. }
  destruct H8 as [S8 F8].
  destruct (sorted_by_place 6 _ _ (bucket_place Other l) S8) as [S7 F7].
  { eapply Forall_impl; [| exact F8]. intros a Ha. simpl in *. lia. }
  destruct (sorted_by_place 5 _ _ (bucket_place Accessory l) S7) as [S6 F6].
  { eapply Forall_impl; [| exact F7]. intros a Ha. simpl in *. lia. }
  destruct (sorted_by_place 4 _ _ (bucket_place Shoes l) S6) as [S5 F5].
  { eapply Forall_impl; [| exact F6]. intros a Ha. simpl in *. lia. }
  destruct (sorted_by_place 3 _ _ (bucket_place Bottom l) S5) as [S4 F4].
  { eapply Forall_impl; [| exact F5]. intros a Ha. simpl in *. lia. }
  destruct (sorted_by_place 2 _ _ (bucket_place Outerwear l) S4) as [S3 F3].
  { eapply Forall_impl; [| exact F4]. intros a Ha. simpl in *. lia. }
  destruct (sorted_by_place 1 _ _ (bucket_place OnePiece l) S3) as [S2 F2].
  { eapply Forall_impl; [| exact F3]. intros a Ha. simpl in *. lia. }
  destruct (sorted_by_place 0 _ _ (bucket_place Top l) S2) as [S1 F1].
  { eapply Forall_impl; [| exact F2]. intros a Ha. simpl in *. lia. }
  exact S1.
Qed.

Lemma StronglySorted_firstn {A : Type} (R : A -> A -> Prop) (n : nat)
      (l : list A) :
  StronglySorted R l -> StronglySorted R (firstn n l).
Proof.
  intros H. revert n. induction H as [| x l Hl IH Hx]; intros [| n]; simpl;
    try constructor.
  - apply IH.
  - apply Forall_forall. intros y Hy. apply firstn_In in Hy.
    rewrite Forall_forall in Hx. auto.
Qed.

Lemma resolved_length (wardrobe : list ClothingItem.t) (ids : list jsval) :
  (List.length (resolved wardrobe ids) <= List.length ids)%nat.
Proof.
  induction ids as [| id ids IH]; simpl; [lia |].
  rewrite length_app.
  destruct id; simpl; try lia.
  destruct (List.find _ wardrobe); simpl; lia.
Qed.

(** X13.  Whatever ids an outfit lists, its visual shows only items of
    the wardrobe, each under an id the outfit lists, never more items than
    ids, and in the order Top, One-Piece, Outerwear, Bottom, Shoes,
    Accessory, Other, every other category last: no item comes before one
    whose category has an earlier place in that order.  The compact
    visual shows at most four.  (The categories of the wardrobe are not
    names of properties that every object inherits.) *)
Theorem visual_shows_wardrobe_items_in_order
        (wardrobe : list ClothingItem.t) (ids : list jsval) (compact : bool) :
  Forall plainly_named wardrobe ->
  exists v,
    Stylist.renderOutfitVisual wardrobe (JArr ids) compact = inr v
    /\ Forall (fun item =>
                 In item wardrobe /\ In (JStr (ClothingItem.id item)) ids)
              (Stylist.rendered_items v)
    /\ StronglySorted no_later (Stylist.rendered_items v)
    /\ (List.length (Stylist.rendered_items v) <= List.length ids)%nat
    /\ (compact = true -> (List.length (Stylist.rendered_items v) <= 4)%nat).
Proof.
  intros Hplain.
  assert (Hall : Forall (fun item =>
                           In item wardrobe
                           /\ In (JStr (ClothingItem.id item)) ids)
                        (head_to_toe (resolved wardrobe ids))).
  { apply Forall_forall. intros item Hin. apply resolved_In.
    apply (Permutation_in _ (head_to_toe_Permutation _) Hin). }
  assert (Hlen : (List.length (head_to_toe (resolved wardrobe ids))
                  <= List.length ids)%nat).
  { rewrite (Permutation_length (head_to_toe_Permutation _)).
    apply resolved_length. }
  pose proof (head_to_toe_sorted (resolved wardrobe ids)) as Hsorted.
  rewrite (renderOutfitVisual_run wardrobe ids compact Hplain). cbv zeta.
  destruct compact.
  - eexists. split; [reflexivity |]. cbn [Stylist.rendered_items].
    repeat apply conj.
    + apply Forall_forall. intros item Hin. apply firstn_In in Hin.
      rewrite Forall_forall in Hall. auto.
    + apply StronglySorted_firstn. exact Hsorted.
    + rewrite length_firstn. lia.
    + intros _. apply firstn_le_length.
  - destruct (head_to_toe (resolved wardrobe ids)) eqn:E;
      eexists; (split; [reflexivity |]); simpl; repeat apply conj;
      try assumption; try constructor; try discriminate; simpl; lia.
Qed.

(** The closet and six ids, one of them in no wardrobe: the compact
    visual shows the tee, the coat, the jeans and the sneakers. *)
Lemma visual_shows_wardrobe_items_in_order_witness :
  exists v,
    Stylist.renderOutfitVisual Examples.closet
      (JArr [JStr "5"; JStr "1"; JStr "2"; JStr "3"; JStr "4"; JStr "none"])
      true
    = inr v
    /\ Stylist.rendered_items v
       = [Examples.tee; Examples.coat; Examples.jeans; Examples.sneakers]
    /\ StronglySorted no_later (Stylist.rendered_items v).
Proof.
  destruct (visual_shows_wardrobe_items_in_order Examples.closet
              [JStr "5"; JStr "1"; JStr "2"; JStr "3"; JStr "4"; JStr "none"]
              true)
    as (v & Hv & _ & Hsorted & _).
  - repeat constructor.
  - exists v. split; [exact Hv |]. split; [| exact Hsorted].
    vm_compute in Hv. injection Hv as <-. reflexivity.
Defined.

(** X14.  The adapter passes a reply without an array of item ids on as
    an outfit, and the view then cannot be rendered: reading the items of
    such an outfit throws a TypeError, which nothing in the view catches. *)
Theorem outfit_without_item_ids_breaks_the_view
        `{RT : Runtime} (item : ClothingItem.t) (rest : list ClothingItem.t)
        (weatherContext : string) (st : Stylist.State) (w : World)
        (props : list (string * jsval)) :
  Stylist.mode st = Stylist.SINGLE ->
  nonempty (Stylist.vibeInput st) = true ->
  nonempty weatherContext = true ->
  end_of (gemini w (GeminiService.outfit_request (item :: rest) weatherContext
                      (Stylist.vibeInput st)))
  = Parsed (JObj props) ->
  (forall ids, prop_of (JObj props) "itemIds" <> JArr ids) ->
  exists st',
    fst (Stylist.handleGenerate (item :: rest) weatherContext st None w)
    = Done st'
    /\ Stylist.render (item :: rest) st' = inl TypeError.
Proof.
  intros Hmode Hvibe Hctx Hend Hids.
  unfold Stylist.handleGenerate. rewrite Hvibe.
  change (Stylist.mode (Stylist.setIsLoading st true)) with (Stylist.mode st).
  rewrite Hmode, Hctx.
  cbn [negb]. unfold awaiting, bind. rewrite generateOutfit_run. cbv zeta.
  rewrite Hend. eexists. split; [reflexivity |].
  unfold Stylist.render, Stylist.elements, Stylist.bind_err,
    Stylist.render_outfit, Stylist.bind_err. simpl.
  destruct (prop_of (JObj props) "itemIds") eqn:E; try reflexivity.
  exfalso. apply (Hids items). reflexivity.
Qed.

(** The reply explains an outfit and lists no items. *)
Lemma outfit_without_item_ids_breaks_the_view_witness :
  let w := Examples.world
             (Responds (Some (Sample.json "{'explanation':'Layer up'}")))
             Examples.closet [] None in
  let asked :=
    {| Stylist.vibeInput := "City Walk"; Stylist.mode := Stylist.SINGLE;
       Stylist.generatedOutfit := JNull; Stylist.weeklyPlan := JNull;
       Stylist.isLoading := false |} in
  exists st',
    fst (Stylist.handleGenerate (RT := Sample.runtime) Examples.closet
           "Current weather is 21°C and Clear/Sunny." asked None w)
    = Done st'
    /\ Stylist.render Examples.closet st' = inl TypeError.
Proof.
  cbv zeta.
  refine (outfit_without_item_ids_breaks_the_view
            (RT := Sample.runtime) Examples.tee _ _ _ _
            [("explanation", JStr "Layer up")] _ _ _ _ _).
  - reflexivity.
  - reflexivity.
  - reflexivity.
  - vm_compute. reflexivity.
  - intros ids. discriminate.
Defined.

(** ** The dashboard: schedule and weather *)

Lemma formatTimeDisplay_run (hh m : string) :
  lacks ":" hh = true ->
  nonempty hh = true ->
  App.formatTimeDisplay (hh +++ ":" +++ m)
  = Number_toString
      match parseInt hh with
      | Some n => if Z.rem n 12 =? 0 then 12 else Z.rem n 12
      | None => 12
      end
    +++ ":" +++ hd EmptyString (split ":" m) +++ " "
    +++ match parseInt hh with
        | Some n => if 12 <=? n then "PM" else "AM"
        | None => "AM"
        end.
Proof.
  intros Hl Hn. unfold App.formatTimeDisplay.
  assert (Hne : nonempty (hh +++ ":" +++ m) = true).
  { destruct hh; [discriminate | reflexivity]. }
  rewrite Hne. cbn [negb].
  change (":" +++ m) with (String ":" m).
  rewrite (split_app _ _ _ Hl).
  destruct (split_is_cons ":" m) as (p & ps & ->). reflexivity.
Qed.

Lemma formatTimeDisplay_bare (hh : string) :
  lacks ":" hh = true ->
  nonempty hh = true ->
  App.formatTimeDisplay hh
  = Number_toString
      match parseInt hh with
      | Some n => if Z.rem n 12 =? 0 then 12 else Z.rem n 12
      | None => 12
      end
    +++ ":undefined "
    +++ match parseInt hh with
        | Some n => if 12 <=? n then "PM" else "AM"
        | None => "AM"
        end.
Proof.
  intros Hl Hn. unfold App.formatTimeDisplay.
  rewrite Hn. cbn [negb]. rewrite (split_lacks _ _ Hl). reflexivity.
Qed.

(** The hours of a day. *)
Lemma hour_cases (h : Z) :
  0 <= h < 24 -> In h [0; 1; 2; 3; 4; 5; 6; 7; 8; 9; 10; 11; 12; 13; 14; 15;
                       16; 17; 18; 19; 20; 21; 22; 23].
Proof. intros H. simpl. lia. Qed.

Lemma two_digits_hour (h : Z) :
  0 <= h < 24 ->
  lacks ":" (two_digits h) = true
  /\ nonempty (two_digits h) = true
  /\ parseInt (two_digits h) = Some h.
Proof.
  intros H. apply hour_cases in H. simpl in H.
  repeat (destruct H as [<- | H]; [vm_compute; auto |]).
  contradiction.
Qed.

(** X15.  A time of day written in 24 hours, two digits to the hour, is
    shown on the 12-hour clock: hours 1 to 12, AM before noon and PM from
    noon on, midnight as 12 AM, the minutes as written.  An empty time
    shows as nothing; an hour without minutes shows [undefined] for them. *)
Theorem time_is_shown_on_the_12_hour_clock (h : Z) (m : string) :
  0 <= h < 24 ->
  let hour12 := 1 + (h + 11) mod 12 in
  let half := if h <? 12 then "AM" else "PM" in
  App.formatTimeDisplay (two_digits h +++ ":" +++ m)
  = Number_toString hour12 +++ ":" +++ hd EmptyString (split ":" m)
    +++ " " +++ half
  /\ 1 <= hour12 <= 12
  /\ App.formatTimeDisplay (two_digits h)
     = Number_toString hour12 +++ ":undefined " +++ half
  /\ App.formatTimeDisplay EmptyString = EmptyString.
Proof.
  intros H. cbv zeta.
  destruct (two_digits_hour h H) as (Hl & Hn & Hp).
  assert (H12 : (if Z.rem h 12 =? 0 then 12 else Z.rem h 12)
                = 1 + (h + 11) mod 12).
  { rewrite Z.rem_mod_nonneg by lia.
    destruct (Z.eqb_spec (h mod 12) 0) as [E | N].
    - replace (h + 11) with (11 + h) by lia.
      rewrite <- Zplus_mod_idemp_r, E. reflexivity.
    - replace (h + 11) with ((h - 1) + 1 * 12) by lia.
      rewrite Z_mod_plus_full.
      pose proof (Z.mod_pos_bound h 12 ltac:(lia)).
      assert (E : (h - 1) mod 12 = h mod 12 - 1).
      { rewrite <- (Zminus_mod_idemp_l h 1 12).
        apply Z.mod_small. lia. }
      lia. }
  assert (Hhalf : (if 12 <=? h then "PM" else "AM")
                  = (if h <? 12 then "AM" else "PM")).
  { destruct (Z.leb_spec 12 h), (Z.ltb_spec h 12); try reflexivity; lia. }
  repeat apply conj.
  - rewrite (formatTimeDisplay_run _ _ Hl Hn), Hp, H12, Hhalf. reflexivity.
  - pose proof (Z.mod_pos_bound (h + 11) 12 ltac:(lia)). lia.
  - pose proof (Z.mod_pos_bound (h + 11) 12 ltac:(lia)). lia.
  - rewrite (formatTimeDisplay_bare _ Hl Hn), Hp, H12, Hhalf. reflexivity.
  - reflexivity.
Qed.

(** Two in the afternoon, and midnight. *)
Lemma time_is_shown_on_the_12_hour_clock_witness :
  App.formatTimeDisplay "14:00" = "2:00 PM"
  /\ App.formatTimeDisplay "00:30" = "12:30 AM".
Proof.
  split.
  - exact (proj1 (time_is_shown_on_the_12_hour_clock 14 "00" ltac:(lia))).
  - exact (proj1 (time_is_shown_on_the_12_hour_clock 0 "30" ltac:(lia))).
Defined.

(** X16.  The weather words handed to the stylist follow the same bands
    of the weather code as the icon of the weather card: Clear/Sunny with
    the sun or the moon, Cloudy with the cloud, Rainy/Cold with the rain.
    The text is never empty, so the stylist's own fallback is not used;
    without weather the text is that fallback, word for word. *)
Theorem weather_words_match_the_icon
        `{RT : Runtime} (show : number -> string) (current : WeatherData.t)
        (wardrobe : list ClothingItem.t) (st : Stylist.State)
        (preset : option string) (w : World) :
  (App.conditions_of current = "Clear/Sunny" <->
   WeatherWidget.icon_of current = "☀️" \/ WeatherWidget.icon_of current = "🌙")
  /\ (App.conditions_of current = "Cloudy" <->
      WeatherWidget.icon_of current = "☁️")
  /\ (App.conditions_of current = "Rainy/Cold" <->
      WeatherWidget.icon_of current = "🌧️")
  /\ (forall weather, nonempty (App.getWeatherContextString show weather) = true)
  /\ Stylist.handleGenerate wardrobe (App.getWeatherContextString show None)
       st preset w
     = Stylist.handleGenerate wardrobe EmptyString st preset w.
Proof.
  unfold App.conditions_of, WeatherWidget.icon_of.
  split; [| split; [| split; [| split; [intros [c |]; reflexivity
                                       | reflexivity]]]];
    (destruct (number_le (WeatherData.weatherCode current) (num 3));
         [| destruct (number_le (WeatherData.weatherCode current) (num 60))];
         try destruct (WeatherData.isDay current);
         split; intros H;
         first [ reflexivity | discriminate | left; reflexivity
               | right; reflexivity
               | destruct H as [H | H]; discriminate ]).
Qed.

(** X17.  Saving a new event with a title appends it to the events, after
    all the others and with the calendar icon when none was given, and
    closes the dialog; the schedule on display holds it, like every event,
    once.  Without a title nothing is saved and the dialog stays as it is.
    Confirming the deletion of the saved event, where no other event has
    its id, gives the events back as they were. *)
Theorem saved_event_is_appended_and_shown
        (localeCompare : string -> string -> Z) (w : World)
        (draft : App.Draft) (open : bool) :
  let saved := snd (App.saveNewEvent draft open w) in
  let added :=
    {| ScheduleEvent.id := Number_toString (now w);
       ScheduleEvent.title := App.draft_title draft;
       ScheduleEvent.time := App.draft_time draft;
       ScheduleEvent.icon :=
         if nonempty (App.draft_icon draft) then App.draft_icon draft
         else "📅" |} in
  (forall evs, Permutation (App.sortedEvents localeCompare evs) evs)
  /\ (nonempty (App.draft_title draft) = false ->
      App.saveNewEvent draft open w = (Done open, w))
  /\ (nonempty (App.draft_title draft) = true ->
      fst (App.saveNewEvent draft open w) = Done false
      /\ events (app saved) = events (app w) ++ [added]
      /\ In added (App.sortedEvents localeCompare (events (app saved)))
      /\ wardrobe (app saved) = wardrobe (app w)
      /\ wishlist (app saved) = wishlist (app w)
      /\ (Forall (fun e => ScheduleEvent.id e <> ScheduleEvent.id added)
                 (events (app w)) ->
          events (app (snd (App.confirmDeleteEvent
                              (snd (App.setEventToDelete
                                      (Some (ScheduleEvent.id added)) saved)))))
          = events (app w))).
Proof.
  cbv zeta. unfold App.saveNewEvent.
  repeat apply conj.
  - intros evs. apply Array_sort_Permutation.
  - intros ->. reflexivity.
  - intros ->. cbn [negb]. simpl. repeat apply conj; try reflexivity.
    + apply (Permutation_in _
               (Permutation_sym (Array_sort_Permutation _ _))).
      apply in_or_app. right. left. reflexivity.
    + intros Hfresh. unfold App.confirmDeleteEvent. simpl.
      assert (Hid : nonempty (Number_toString (now w)) = true).
      { unfold Number_toString, NilZero.string_of_int.
        destruct (Z.to_int (now w)) as [d | d]; simpl.
        - unfold NilZero.string_of_uint. destruct d; reflexivity.
        - reflexivity. }
      rewrite Hid. simpl.
      rewrite filter_app. simpl. rewrite String.eqb_refl. simpl.
      rewrite app_nil_r.
      apply (Removed_absent ScheduleEvent.id (Number_toString (now w))).
      * apply filter_Removed.
      * exact Hfresh.
Qed.

(** Dinner at eight, over the two events of the example. *)
Lemma saved_event_is_appended_and_shown_witness :
  let w := Examples.world Examples.offline Examples.closet
             [Examples.coffee; Examples.work] None in
  let dinner :=
    {| App.draft_title := "Dinner"; App.draft_time := "20:00";
       App.draft_icon := EmptyString |} in
  events (app (snd (App.saveNewEvent dinner true w)))
  = [Examples.coffee; Examples.work;
     {| ScheduleEvent.id := "1700000000000"; ScheduleEvent.title := "Dinner";
        ScheduleEvent.time := "20:00"; ScheduleEvent.icon := "📅" |}].
Proof.
  cbv zeta.
  exact (proj1 (proj2 (proj2 (proj2
    (saved_event_is_appended_and_shown
       (fun _ _ => 0)
       (Examples.world Examples.offline Examples.closet
          [Examples.coffee; Examples.work] None)
       {| App.draft_title := "Dinner"; App.draft_time := "20:00";
          App.draft_icon := EmptyString |} true)) eq_refl))).
Defined.

(** The card of a weather that is stored at its declared types shows
    its icon. *)
Lemma card_of_typed (stored : WeatherData.raw) (typed : WeatherData.t) :
  WeatherData.typed stored = Some typed ->
  option_map WeatherWidget.icon_shown
    (weather_card {| App.weather := Some stored; App.weatherLoading := false;
                     App.weatherError := None |})
  = Some (Some (WeatherWidget.icon_of typed)).
Proof.
  unfold weather_card. simpl. intros ->. simpl.
  unfold WeatherWidget.WeatherWidget.
  destruct (WeatherWidget.getGreeting _). reflexivity.
Qed.

(** X18.  Until the browser answers the request for the position, and
    then until the weather service answers, the weather stays loading and
    the card is the skeleton.  Once both have answered, loading is over,
    whatever the answer: a missing geolocation, a refusal, a failed or
    unreadable fetch and data without [current_weather] each set an error
    message and the card greets without weather; any other data sets the
    weather to what was sent, whatever it is, with no error, and where
    that is numbers the card shows its icon. *)
Theorem weather_effect_settles
        (show : number -> string) (fetch : string -> App.Fetched)
        (geolocation : App.Geolocation) :
  let st := App.weatherEffect show fetch geolocation App.initial_weather in
  let answer :=
    match geolocation with
    | App.Position latitude longitude =>
        Some (fetch (App.forecast show latitude longitude))
    | _ => None
    end in
  let failed :=
    App.weatherLoading st = false
    /\ App.weather st = None
    /\ (exists message,
           App.weatherError st = Some message /\ nonempty message = true)
    /\ weather_card st = Some WeatherWidget.Greeting in
  match geolocation, answer with
  | App.Waiting, _ | _, Some App.Unsettled =>
      st = App.initial_weather
      /\ weather_card st = Some WeatherWidget.Skeleton
  | _, Some (App.Data data) =>
      match get (prop_of data "current_weather") "temperature" with
      | inl _ => failed
      | inr _ =>
          let current := prop_of data "current_weather" in
          let stored :=
            {| WeatherData.temperature := prop_of current "temperature";
               WeatherData.weatherCode := prop_of current "weathercode";
               WeatherData.isDay := App.is_one (prop_of current "is_day") |} in
          App.weatherLoading st = false
          /\ App.weather st = Some stored
          /\ App.weatherError st = None
          /\ forall typed,
              WeatherData.typed stored = Some typed ->
              option_map WeatherWidget.icon_shown (weather_card st)
              = Some (Some (WeatherWidget.icon_of typed))
      end
  | _, _ => failed
  end.
Proof.
  cbv zeta. unfold App.weatherEffect.
  destruct geolocation as [| | | latitude longitude].
  - simpl. repeat split. eauto.
  - split; reflexivity.
  - simpl. repeat split. eauto.
  - destruct (fetch _) as [| | data |].
    + simpl. repeat split. eauto.
    + simpl. repeat split. eauto.
    + unfold App.weather_of, bind_error, prop_of.
      destruct (get data "current_weather") as [e | current];
        [simpl; repeat split; eauto |].
      destruct current; simpl; try (repeat split; eauto; fail);
        try (repeat split; apply card_of_typed).
      destruct (lookup "temperature" props), (lookup "weathercode" props),
        (lookup "is_day" props); simpl; repeat split; apply card_of_typed.
    + split; reflexivity.
Qed.

(** The service answers for a clear night of 12.3 degrees; and it sends
    the temperature as a text, which is stored as it is. *)
Lemma weather_effect_settles_witness :
  let sends (temperature : jsval) :=
    App.weatherEffect (fun _ => "0")
      (fun _ => App.Data
         (JObj [("current_weather",
                 JObj [("temperature", temperature);
                       ("weathercode", JNum (num 0));
                       ("is_day", JNum (num 0))])]))
      (App.Position (Fin (4885 # 100)) (Fin (235 # 100)))
      App.initial_weather in
  (App.weatherLoading (sends (JNum (Fin (123 # 10)))) = false
   /\ option_map WeatherWidget.icon_shown
        (weather_card (sends (JNum (Fin (123 # 10)))))
      = Some (Some "🌙"))
  /\ (App.weatherLoading (sends (JStr "12.3")) = false
      /\ App.weather (sends (JStr "12.3"))
         = Some {| WeatherData.temperature := JStr "12.3";
                   WeatherData.weatherCode := JNum (num 0);
                   WeatherData.isDay := false |}).
Proof.
  cbv zeta. split.
  - destruct (weather_effect_settles
                (fun _ => "0")
                (fun _ => App.Data
                   (JObj [("current_weather",
                           JObj [("temperature", JNum (Fin (123 # 10)));
                                 ("weathercode", JNum (num 0));
                                 ("is_day", JNum (num 0))])]))
                (App.Position (Fin (4885 # 100)) (Fin (235 # 100))))
      as (Hload & _ & _ & Hcard).
    split; [exact Hload |]. exact (Hcard _ eq_refl).
  - destruct (weather_effect_settles
                (fun _ => "0")
                (fun _ => App.Data
                   (JObj [("current_weather",
                           JObj [("temperature", JStr "12.3");
                                 ("weathercode", JNum (num 0));
                                 ("is_day", JNum (num 0))])]))
                (App.Position (Fin (4885 # 100)) (Fin (235 # 100))))
      as (Hload & Hstored & _).
    split; [exact Hload | exact Hstored].
Defined.
(** ** Choosing a photo for the wishlist *)

Section Photo.
Context `{RT : Runtime}.
Variable wardrobe : list ClothingItem.t.
Variable show : number -> string.

(** The two operations a chosen photo calls: what they return, and that
    they leave all but the trace. *)
Lemma analyzeClothingItem_ends (image : string) (w : World) :
  exists w1,
    GeminiService.analyzeClothingItem image w
    = (if never_classified image w then Pending None
       else Done (classification_of image w), w1)
    /\ app w1 = app w /\ form w1 = form w /\ gemini w1 = gemini w.
Proof.
  destruct (analyzeClothingItem_frame image w)
    as (w1 & Hrun & _ & Happ & _ & Hform & Hgemini & _).
  exists w1. repeat split; try assumption.
  rewrite Hrun. unfold never_classified, classification_of.
  destruct (end_of _); reflexivity.
Qed.

Lemma checkSimilarity_ends (image : string) (w : World) :
  exists w2,
    GeminiService.checkSimilarity image wardrobe w
    = (if waits wardrobe (GeminiService.similarity_request image wardrobe) w
       then Pending None
       else Done (verdict_of image wardrobe w), w2)
    /\ app w2 = app w /\ form w2 = form w.
Proof.
  unfold waits, verdict_of.
  destruct wardrobe as [| item rest]; [exists w; repeat split |].
  rewrite checkSimilarity_run. cbv zeta.
  destruct (end_of _); eexists; repeat split.
Qed.

(** Both at a time. *)
Lemma both_calls_run (image : string) (w : World) :
  exists w3,
    Promise_all (GeminiService.analyzeClothingItem image)
                (GeminiService.checkSimilarity image wardrobe) w
    = (if (never_classified image w
           || waits wardrobe
                (GeminiService.similarity_request image wardrobe) w)%bool
       then Pending None
       else Done (classification_of image w, verdict_of image wardrobe w),
       w3)
    /\ app w3 = app w /\ form w3 = form w.
Proof.
  unfold Promise_all.
  destruct (analyzeClothingItem_ends image w)
    as (w1 & -> & Happ1 & Hform1 & Hgemini).
  destruct (checkSimilarity_ends image w1) as (w2 & -> & Happ2 & Hform2).
  assert (Hwaits :
            waits wardrobe (GeminiService.similarity_request image wardrobe) w1
            = waits wardrobe
                (GeminiService.similarity_request image wardrobe) w).
  { unfold waits. rewrite Hgemini. reflexivity. }
  assert (Hverdict : verdict_of image wardrobe w1 = verdict_of image wardrobe w).
  { unfold verdict_of. rewrite Hgemini. reflexivity. }
  rewrite Hwaits, Hverdict.
  eexists. split.
  - destruct (never_classified image w), (waits wardrobe _ w); reflexivity.
  - simpl. split; congruence.
Qed.

(** The name that is filled in is set. *)
Lemma autofilled_truthy (metadata n : jsval) :
  autofilled show metadata = Some n -> truthy n = true.
Proof.
  unfold autofilled.
  destruct metadata as [| | b | x | s | l | props]; try discriminate;
    match goal with
    | |- context [truthy (prop_of ?m "color")] =>
        set (color := prop_of m "color");
        set (category := prop_of m "category");
        set (description := prop_of m "description")
    end;
    (destruct (truthy color) eqn:Hcolor;
     [destruct (truthy category) eqn:Hcategory | rewrite Hcolor]);
    try (destruct (ToString show color) as [e | c]; [discriminate |];
         destruct (ToString show category) as [e | k]; [discriminate |];
         intros [= <-]; destruct c; reflexivity);
    intros [= <-]; unfold or_else;
    destruct (truthy description) eqn:Hd; solve [exact Hd | reflexivity].
Qed.

(** Reading a property of what is neither [null] nor [undefined]. *)
Lemma get_prop_of (v : jsval) (k : string) :
  get v k
  = match v with
    | JNull | JUndefined => inl TypeError
    | _ => inr (prop_of v k)
    end.
Proof.
  unfold prop_of. destruct v as [| | b | x | s | l | props]; try reflexivity.
  simpl. destruct (lookup k props); reflexivity.
Qed.

(** What the [try] block leaves in the form. *)
Lemma fill_run (metadata verdict : jsval) (f : Form jsval) :
  fst (Wishlist.fill show metadata verdict f)
  = match autofilled show metadata with
    | Some n =>
        match verdict_shown verdict with
        | Some result =>
            Wishlist.setAnalysisResult (Some result) (Wishlist.setName n f)
        | None => Wishlist.setName n f
        end
    | None => f
    end.
Proof.
  assert (Hverdict :
            forall named : Form jsval,
              fst match get verdict "isSimilar" with
                  | inl e => (named, Some e)
                  | inr isSimilar =>
                      match get verdict "explanation" with
                      | inl e => (named, Some e)
                      | inr message =>
                          (Wishlist.setAnalysisResult
                             (Some (isSimilar, message)) named, None)
                      end
                  end
              = match verdict_shown verdict with
                | Some result =>
                    Wishlist.setAnalysisResult (Some result) named
                | None => named
                end).
  { intros named. rewrite !get_prop_of. unfold verdict_shown.
    destruct verdict; reflexivity. }
  unfold Wishlist.fill, Wishlist.autofill, autofilled.
  rewrite !(get_prop_of metadata).
  destruct metadata as [| | b | x | s | l | props]; try reflexivity;
    cbv beta iota zeta; unfold bind_error at 1;
    match goal with
    | |- context [truthy (prop_of ?m "color")] =>
        generalize (prop_of m "color"), (prop_of m "category"),
          (prop_of m "description")
    end;
    intros color category description;
    (destruct (truthy color) eqn:Hcolor;
     [destruct (truthy category) eqn:Hcategory | rewrite ?Hcolor]);
    unfold bind_error; rewrite ?Hcolor, ?Hcategory;
    try (destruct (ToString show color) as [e | c];
         [reflexivity |];
         destruct (ToString show category) as [e | k];
         [reflexivity |]);
    apply Hverdict.
Qed.

(** The handler, run. *)
Lemma handleFileSelect_run (base64String : string) (flag : bool)
      (f : Form jsval) (w : World) :
  let begun :=
    Wishlist.setPreviewImage (Some base64String)
      (Wishlist.setName (JStr EmptyString)
         (Wishlist.setAnalysisResult None f)) in
  exists w4,
    Wishlist.handleFileSelect wardrobe show (Some base64String) flag f w
    = (if (never_classified base64String w
           || waits wardrobe
                (GeminiService.similarity_request base64String wardrobe)
                w)%bool
       then Pending (Some (true, begun))
       else Done (false,
                  fst (Wishlist.fill show (classification_of base64String w)
                         (verdict_of base64String wardrobe w) begun)),
       w4)
    /\ app w4 = app w /\ form w4 = form w.
Proof.
  cbv zeta.
  unfold Wishlist.handleFileSelect, awaiting, try_catch.
  unfold bind at 1.
  destruct (both_calls_run base64String w) as (w3 & -> & Happ & Hform).
  destruct (never_classified base64String w || _)%bool; simpl;
    [exists w3; repeat split; assumption |].
  destruct (Wishlist.fill show _ _ _) as [filled [e |]]; simpl;
    eexists; repeat split; simpl; assumption.
Qed.

End Photo.


